(** * Restaurant menu and order services: a shallow embedding

    The repository holds two FastAPI services, [Restaurant_Chain/main.py]
    (menu only) and [Restaurant_Chain_Two_tables/main.py] (menu and
    orders).  Both keep their data in module-level dictionaries and both
    describe their payloads with pydantic models.

    The development is organised as follows.
    - [Py]: the fragment of the Python run time the services rely on:
      dynamically typed values, insertion-ordered dictionaries, keyword
      calls, exceptions, and a state-and-exception monad for handlers
      that update module globals.
    - [Str]: [str.strip] and the two regular expressions of the models.
    - [Dec]: [decimal.Decimal] under the default arithmetic context.
    - [Models]: the pydantic models shared by both files.
    - [RestaurantChain], [RestaurantChainTwoTables]: one module per
      service, handlers named as in the source.
    The theorems follow the definitions. *)

From Stdlib Require Import ZArith List String Ascii Bool Lia Sorted.
Import ListNotations.

Local Open Scope string_scope.
Local Open Scope Z_scope.

(* ================================================================= *)
(** * Python run-time fragment *)

Module Py.

(** Closed enumerations of the two services; they live here because a
    dynamically typed value may carry a member of either. *)
Inductive FoodCategory := APPETIZER | MAIN_COURSE | DESSERT | BEVERAGE | SALAD.
Inductive OrderStatus := PENDING | CONFIRMED | READY | DELIVERED.

(** A finite [decimal.Decimal]: the number [coeff * 10 ^ exp].  The sign
    is carried by the coefficient, so the two zeros of Python's decimal
    are one value here; NaN and the infinities are not representable
    (pydantic refuses them for a constrained Decimal field). *)
Record Decimal := mkDecimal { coeff : Z; exp : Z }.

(** One entry of a pydantic [ValidationError]: its location (field
    names and list indices) and the error type identifier of pydantic
    (['missing'], ['string_too_short'], ...). *)
Inductive Loc := LKey (k : string) | LIdx (i : nat).
Definition ErrorEntry : Type := (list Loc * string)%type.

Inductive Detail :=
| DetailText (s : string)
| DetailFormat (pfx : string) (errs : list ErrorEntry).

Inductive PyExc :=
| TypeError (msg : string)
| ValueError (msg : string)
| ValidationError (title : string) (errors : list ErrorEntry)
| RequestValidationError (errors : list ErrorEntry)
| ResponseValidationError (errors : list ErrorEntry)
| HTTPException (status_code : Z) (detail : Detail)
| AssertionError
| KeyError
| InvalidOperation
| Overflow.

(** Values that flow through keyword arguments and [model.dict()].
    [VStrOf pfx e] stands for the text [f"{pfx}{e}"] and [VDetailOf pfx d]
    for [f"{pfx}{e.detail}"]; how an exception prints is pydantic's
    business and is kept symbolic. *)
#[local] Set Warnings "-register-all".
Inductive PyVal :=
| VNone
| VBool (b : bool)
| VInt (z : Z)
| VStr (s : string)
| VDec (d : Decimal)
| VCat (c : FoodCategory)
| VStatus (s : OrderStatus)
| VStrOf (pfx : string) (e : PyExc)
| VDetailOf (pfx : string) (d : Detail)
| VList (l : list PyVal)
| VDict (d : list (string * PyVal)).



(** [except ValueError]: pydantic's ValidationError derives from
    ValueError; TypeError, KeyError, AssertionError, the decimal
    signals (ArithmeticError), HTTPException and FastAPI's
    RequestValidationError and ResponseValidationError do not. *)
Definition is_ValueError (e : PyExc) : bool :=
  match e with
  | ValueError _ => true
  | ValidationError _ _ => true
  | _ => false
  end.

(** [str(e)] as a value. *)
Definition str_exc (e : PyExc) : PyVal := VStrOf EmptyString e.

(** [e.detail] of an HTTPException. *)
Definition detail (e : PyExc) : Detail :=
  match e with
  | HTTPException _ d => d
  | _ => DetailText EmptyString
  end.

Definition is_HTTPException (e : PyExc) : bool :=
  match e with
  | HTTPException _ _ => true
  | _ => false
  end.

Inductive Exc (A : Type) := Ret (a : A) | Raise (e : PyExc).
Arguments Ret {A} a.
Arguments Raise {A} e.

Definition ebind {A B} (m : Exc A) (k : A -> Exc B) : Exc B :=
  match m with
  | Ret a => k a
  | Raise e => Raise e
  end.

(** ** Insertion-ordered dictionaries

    A Python [dict] keeps its keys in insertion order; assigning to a
    key that is present replaces the value in place, assigning to a new
    key appends, [del] removes the entry. *)
Section Dict.
Context {K V : Type} (eqb : K -> K -> bool).

Fixpoint dict_get (k : K) (d : list (K * V)) : option V :=
  match d with
  | [] => None
  | (k', v) :: d' => if eqb k k' then Some v else dict_get k d'
  end.

Definition dict_mem (k : K) (d : list (K * V)) : bool :=
  match dict_get k d with
  | Some _ => true
  | None => false
  end.

Fixpoint dict_set (k : K) (v : V) (d : list (K * V)) : list (K * V) :=
  match d with
  | [] => [(k, v)]
  | (k', v') :: d' =>
      if eqb k k' then (k, v) :: d' else (k', v') :: dict_set k v d'
  end.

Fixpoint dict_del (k : K) (d : list (K * V)) : list (K * V) :=
  match d with
  | [] => []
  | (k', v') :: d' => if eqb k k' then d' else (k', v') :: dict_del k d'
  end.

Definition dict_keys (d : list (K * V)) : list K := map fst d.
Definition dict_values (d : list (K * V)) : list V := map snd d.

(** [for k, v in src.items(): d[k] = v] *)
Definition dict_update (d src : list (K * V)) : list (K * V) :=
  fold_left (fun acc kv => dict_set (fst kv) (snd kv) acc) src d.
End Dict.

Definition PyDict : Type := list (string * PyVal).

Definition kw_get : string -> PyDict -> option PyVal := dict_get String.eqb.
Definition kw_mem : string -> PyDict -> bool := dict_mem String.eqb.
Definition kw_set : string -> PyVal -> PyDict -> PyDict := dict_set String.eqb.

(** ** Keyword calls

    [f(k1=v1, ..., **d)]: the interpreter merges the explicit keywords
    with the unpacked mapping and raises TypeError when a name occurs in
    both, before the callee runs. *)
Fixpoint first_duplicate (explicit star : PyDict) : option string :=
  match explicit with
  | [] => None
  | (k, _) :: rest => if kw_mem k star then Some k else first_duplicate rest star
  end.

Definition call_kwargs (explicit star : PyDict) : Exc PyDict :=
  match first_duplicate explicit star with
  | Some k => Raise (TypeError ("got multiple values for keyword argument '" ++ k ++ "'"))
  | None => Ret (explicit ++ star)%list
  end.

(** ** Handlers over module globals

    A handler reads and writes the module's globals; an exception leaves
    the globals as they were when it was raised. *)
Definition M (S A : Type) : Type := S -> Exc A * S.

Definition ret {S A} (a : A) : M S A := fun st => (Ret a, st).
Definition raise {S A} (e : PyExc) : M S A := fun st => (Raise e, st).
Definition bind {S A B} (m : M S A) (k : A -> M S B) : M S B :=
  fun st =>
    match m st with
    | (Ret a, st') => k a st'
    | (Raise e, st') => (Raise e, st')
    end.
Definition gets {S A} (f : S -> A) : M S A := fun st => (Ret (f st), st).
Definition modify {S} (f : S -> S) : M S unit := fun st => (Ret tt, f st).
Definition lift {S A} (m : Exc A) : M S A := fun st => (m, st).

(** [try: body  except <classes>: handler] *)
Definition try_except {S A} (body : M S A) (catches : PyExc -> bool)
    (handler : PyExc -> M S A) : M S A :=
  fun st =>
    match body st with
    | (Ret a, st') => (Ret a, st')
    | (Raise e, st') => if catches e then handler e st' else (Raise e, st')
    end.

End Py.

Export Py.

Declare Scope py_scope.
Delimit Scope py_scope with py.
Notation "x <- m ;; k" := (bind m (fun x => k))
  (at level 61, m at next level, right associativity) : py_scope.
Notation "m ;;; k" := (bind m (fun _ => k))
  (at level 61, right associativity) : py_scope.

Local Open Scope py_scope.

(* ================================================================= *)
(** * Strings *)

(** A Python [str] is a sequence of code points; the embedding keeps the
    code points below 256, one per [ascii]. *)
Module Str.

Definition code (c : ascii) : N := N_of_ascii c.

(** The class [[a-zA-Z]]. *)
Definition is_ascii_letter (c : ascii) : bool :=
  let n := code c in
  (((65 <=? n) && (n <=? 90)) || ((97 <=? n) && (n <=? 122)))%N.

(** [str.isspace] on one character, which is also what [\s] matches in
    a [str] pattern and what [str.strip()] removes: TAB..CR, FS..US,
    SPACE, NEL and NBSP. *)
Definition isspace (c : ascii) : bool :=
  let n := code c in
  (((9 <=? n) && (n <=? 13)) || ((28 <=? n) && (n <=? 32))
   || (n =? 133) || (n =? 160))%N.

(** The class [\d] restricted to the code points below 256. *)
Definition isdigit (c : ascii) : bool :=
  let n := code c in ((48 <=? n) && (n <=? 57))%N.

Fixpoint all_chars (p : ascii -> bool) (s : string) : bool :=
  match s with
  | EmptyString => true
  | String c s' => p c && all_chars p s'
  end.

Definition len (s : string) : Z := Z.of_nat (String.length s).

Fixpoint lstrip (s : string) : string :=
  match s with
  | EmptyString => EmptyString
  | String c s' => if isspace c then lstrip s' else s
  end.

Fixpoint rstrip (s : string) : string :=
  match s with
  | EmptyString => EmptyString
  | String c s' =>
      match rstrip s' with
      | EmptyString => if isspace c then EmptyString else String c EmptyString
      | r => String c r
      end
  end.

(** [s.strip()] *)
Definition strip (s : string) : string := rstrip (lstrip s).

Definition name_class (c : ascii) : bool := is_ascii_letter c || isspace c.

(** [re.fullmatch(r'^[a-zA-Z\s]+$', v)] succeeds: the whole of [v] is
    matched by the class, one or more times. *)
Definition name_pattern (v : string) : bool :=
  negb (String.eqb v EmptyString) && all_chars name_class v.

(** Rust's [str::trim], which pydantic applies to the text of an int:
    the White_Space code points, here TAB..CR, SPACE, NEL and NBSP. *)
Definition is_white_space (c : ascii) : bool :=
  let n := code c in
  (((9 <=? n) && (n <=? 13)) || (n =? 32) || (n =? 133) || (n =? 160))%N.

Fixpoint ltrim (p : ascii -> bool) (s : string) : string :=
  match s with
  | EmptyString => EmptyString
  | String c s' => if p c then ltrim p s' else s
  end.

Fixpoint rtrim (p : ascii -> bool) (s : string) : string :=
  match s with
  | EmptyString => EmptyString
  | String c s' =>
      match rtrim p s' with
      | EmptyString => if p c then EmptyString else String c EmptyString
      | r => String c r
      end
  end.

Definition trim (s : string) : string := rtrim is_white_space (ltrim is_white_space s).

(** [s.replace("_", "")] *)
Fixpoint drop_underscores (s : string) : string :=
  match s with
  | EmptyString => EmptyString
  | String c s' =>
      if Ascii.eqb c "_"%char then drop_underscores s' else String c (drop_underscores s')
  end.

(** ASCII letters to lower case. *)
Definition lower_char (c : ascii) : ascii :=
  let n := code c in
  if ((65 <=? n) && (n <=? 90))%N then ascii_of_N (n + 32) else c.

Fixpoint lower (s : string) : string :=
  match s with
  | EmptyString => EmptyString
  | String c s' => String (lower_char c) (lower s')
  end.

(** [s[len(p):]] when [s] starts with [p]. *)
Fixpoint strip_prefix (p s : string) : option string :=
  match p, s with
  | EmptyString, _ => Some s
  | String a p', String b s' => if Ascii.eqb a b then strip_prefix p' s' else None
  | _, EmptyString => None
  end.

(** The digits at the head of a text: their value, their number, and
    the rest of the text. *)
Fixpoint read_digits (s : string) (acc n : Z) : Z * Z * string :=
  match s with
  | EmptyString => (acc, n, s)
  | String c s' =>
      if isdigit c then read_digits s' (10 * acc + (Z.of_N (code c) - 48)) (n + 1)
      else (acc, n, s)
  end.

(** An optional sign at the head of a text: whether it is a minus, and
    the rest. *)
Definition read_sign (s : string) : bool * string :=
  match s with
  | EmptyString => (false, s)
  | String c s' =>
      if Ascii.eqb c "-"%char then (true, s')
      else if Ascii.eqb c "+"%char then (false, s')
      else (false, s)
  end.

(** [pattern=r"^\d{10}$"] on a pydantic [str] field. *)
Definition phone_pattern (v : string) : bool :=
  (len v =? 10) && all_chars isdigit v.

End Str.

(* ================================================================= *)
(** * decimal.Decimal under the default context *)

(** [getcontext()] is never changed by the services, so every arithmetic
    operation rounds its exact result to 28 significant digits, half to
    even, and the Overflow trap is enabled.  Comparisons are exact. *)
Module Dec.

Definition prec : Z := 28.
Definition Emax : Z := 999999.
Definition Emin : Z := -999999.
Definition Etiny : Z := Emin - prec + 1.
Definition Etop : Z := Emax - prec + 1.

Fixpoint ndigits_fuel (fuel : nat) (n : Z) : Z :=
  match fuel with
  | O => 1
  | S f => if n <? 10 then 1 else 1 + ndigits_fuel f (n / 10)
  end.

(** Number of decimal digits of a coefficient, [len(self._int)]. *)
Definition ndigits (n : Z) : Z := ndigits_fuel (S (Z.to_nat (Z.log2 n))) n.

(** Drop the [k] low digits of [c >= 0], rounding half to even. *)
Definition round_half_even (c k : Z) : Z :=
  let q := c / 10 ^ k in
  let r := c mod 10 ^ k in
  if (10 ^ k <? 2 * r) || ((2 * r =? 10 ^ k) && Z.odd q) then q + 1 else q.

(** [Decimal._fix] on a positive coefficient. *)
Definition fix_pos (c e : Z) : Exc Decimal :=
  let exp_min := ndigits c + e - prec in
  if Etop <? exp_min then Raise Overflow
  else
    let exp_min := Z.max exp_min Etiny in
    if e <? exp_min then
      let q := round_half_even c (exp_min - e) in
      if prec <? ndigits q then
        if Etop <? exp_min + 1 then Raise Overflow
        else Ret (mkDecimal (q / 10) (exp_min + 1))
      else Ret (mkDecimal q exp_min)
    else Ret (mkDecimal c e).

Definition neg (d : Decimal) : Decimal := mkDecimal (- coeff d) (exp d).

(** [Decimal._fix(context)]: round to the context and trap overflow. *)
Definition _fix (d : Decimal) : Exc Decimal :=
  let c := coeff d in
  let e := exp d in
  if c =? 0 then Ret (mkDecimal 0 (Z.min (Z.max e Etiny) Emax))
  else if 0 <? c then fix_pos c e
  else ebind (fix_pos (- c) e) (fun r => Ret (neg r)).

(** [Decimal(n)] for an int [n]: exact. *)
Definition of_int (n : Z) : Decimal := mkDecimal n 0.

(** The widest exponents the constructor can represent (64-bit build
    of the interpreter). *)
Definition MAX_EMAX : Z := 999999999999999999.
Definition MIN_ETINY : Z := -1999999999999999997.

Inductive Parsed := Finite (d : Decimal) | NonFinite | Malformed.

(** [inf], [infinity], [nan] and [snan] with an optional payload of
    digits, in any case. *)
Definition is_nonfinite (s : string) : bool :=
  let t := Str.lower s in
  let payload (r : option string) :=
    match r with
    | Some r => match Str.read_digits r 0 0 with
                | (_, _, EmptyString) => true
                | _ => false
                end
    | None => false
    end in
  String.eqb t "inf" || String.eqb t "infinity"
  || payload (Str.strip_prefix "snan" t) || payload (Str.strip_prefix "nan" t).

(** [Decimal(text)]: white space around the text and underscores
    anywhere are dropped; what is left is a sign, digits with at most
    one point, and an exponent, all but the digits optional.  The
    conversion is exact; it raises InvalidOperation for any other text
    and for an exponent the constructor cannot represent. *)
Definition parse (text : string) : Parsed :=
  let s := Str.drop_underscores (Str.strip text) in
  let (negative, s1) := Str.read_sign s in
  let '(ip, ni, s2) := Str.read_digits s1 0 0 in
  let '(c, nf, s3) :=
    match s2 with
    | String ch r => if Ascii.eqb ch "."%char then Str.read_digits r ip 0 else (ip, 0, s2)
    | EmptyString => (ip, 0, s2)
    end in
  if ni + nf =? 0 then (if is_nonfinite s1 then NonFinite else Malformed)
  else
    let written : option Z :=
      match s3 with
      | EmptyString => Some 0
      | String ch r =>
          if Ascii.eqb ch "e"%char || Ascii.eqb ch "E"%char then
            let (minus, r1) := Str.read_sign r in
            match Str.read_digits r1 0 0 with
            | (ev, ne, EmptyString) =>
                if ne =? 0 then None else Some (if minus then - ev else ev)
            | _ => None
            end
          else None
      end in
    match written with
    | None => Malformed
    | Some ex =>
        let e := ex - nf in
        if e <? MIN_ETINY then Malformed
        else if MAX_EMAX <? (if c =? 0 then e else e + ndigits c - 1) then Malformed
        else Finite (mkDecimal (if negative then - c else c) e)
    end.

Definition of_string (s : string) : option Decimal :=
  match parse s with
  | Finite d => Some d
  | _ => None
  end.

(** Pad the coefficient with zeros down to exponent [e <= exp d]. *)
Definition rescale (d : Decimal) (e : Z) : Decimal :=
  mkDecimal (coeff d * 10 ^ (exp d - e)) e.

(** [a + b] *)
Definition add (a b : Decimal) : Exc Decimal :=
  let e := Z.min (exp a) (exp b) in
  if (coeff a =? 0) && (coeff b =? 0) then _fix (mkDecimal 0 e)
  else if coeff a =? 0 then _fix (rescale b (Z.max e (exp b - prec - 1)))
  else if coeff b =? 0 then _fix (rescale a (Z.max e (exp a - prec - 1)))
  else _fix (mkDecimal (coeff (rescale a e) + coeff (rescale b e)) e).

(** [a * b] *)
Definition mul (a b : Decimal) : Exc Decimal :=
  _fix (mkDecimal (coeff a * coeff b) (exp a + exp b)).

(** Exact three-way comparison of the two numbers. *)
Definition compare (a b : Decimal) : comparison :=
  let e := Z.min (exp a) (exp b) in
  Z.compare (coeff (rescale a e)) (coeff (rescale b e)).

Definition eqb (a b : Decimal) : bool :=
  match compare a b with Eq => true | _ => false end.
Definition ltb (a b : Decimal) : bool :=
  match compare a b with Lt => true | _ => false end.
Definition leb (a b : Decimal) : bool :=
  match compare a b with Gt => false | _ => true end.

(** Remove trailing zeros of the coefficient, as long as the exponent
    stays below [Emax]. *)
Fixpoint strip_zeros (fuel : nat) (c e : Z) : Decimal :=
  match fuel with
  | O => mkDecimal c e
  | S f =>
      if (c mod 10 =? 0) && (e <? Emax) then strip_zeros f (c / 10) (e + 1)
      else mkDecimal c e
  end.

(** [Decimal.normalize()]: round to the context, then drop the trailing
    zeros; a zero becomes [0E+0]. *)
Definition normalize (d : Decimal) : Exc Decimal :=
  ebind (_fix d) (fun dup =>
    if coeff dup =? 0 then Ret (mkDecimal 0 0)
    else Ret (strip_zeros (Z.to_nat (ndigits (Z.abs (coeff dup)))) (coeff dup) (exp dup))).

(** The decimal places pydantic counts for [decimal_places]: those of
    the tuple of [value.normalize()], or of the value itself when
    [normalize] raises; an exponent of zero or more counts as none. *)
Definition decimal_places (d : Decimal) : Z :=
  let n := match normalize d with Ret n => n | Raise _ => d end in
  if 0 <=? exp n then 0 else - exp n.

(** The number in units of [10 ^ (- s)], for a Decimal written with at
    most [s] decimal places. *)
Definition scaled (s : Z) (d : Decimal) : Z := coeff d * 10 ^ (exp d + s).

(** [Decimal.as_integer_ratio()] when the denominator is 1. *)
Definition as_int (d : Decimal) : option Z :=
  if 0 <=? exp d then Some (coeff d * 10 ^ exp d)
  else if coeff d mod 10 ^ (- exp d) =? 0 then Some (coeff d / 10 ^ (- exp d))
  else None.

(** Whether [float(d)] is [0.0] or [1.0]: the conversion rounds to the
    nearest double, ties to even, so it is [0.0] up to [2 ^ -1075] and
    [1.0] from [1 - 2 ^ -54] to [1 + 2 ^ -53]. *)
Definition as_bool (d : Decimal) : option bool :=
  let c := coeff d in
  let k := - exp d in
  if c =? 0 then Some false
  else if k <=? 0 then (if c * 10 ^ exp d =? 1 then Some true else None)
  else if Z.abs c * 2 ^ 1075 <=? 10 ^ k then Some false
  else if ((2 ^ 54 - 1) * 10 ^ k <=? c * 2 ^ 54) && (c * 2 ^ 54 <=? (2 ^ 54 + 2) * 10 ^ k)
       then Some true
  else None.

(** The amount in hundredths, for a Decimal with at most two decimal
    places. *)
Definition cents (d : Decimal) : Z := coeff d * 10 ^ (exp d + 2).

End Dec.


(* ================================================================= *)
(** * pydantic validation *)

(** A model is validated field by field, in declaration order; every
    field contributes its value or its error entries, and the model is
    built only when no field failed. *)
Module Pyd.

Inductive V (A : Type) := Valid (a : A) | Invalid (errs : list ErrorEntry).
Arguments Valid {A} a.
Arguments Invalid {A} errs.

Definition vap {A B} (f : V (A -> B)) (x : V A) : V B :=
  match f, x with
  | Valid g, Valid a => Valid (g a)
  | Valid _, Invalid e => Invalid e
  | Invalid e, Valid _ => Invalid e
  | Invalid e1, Invalid e2 => Invalid (e1 ++ e2)%list
  end.

Definition fail {A} (type : string) : V A := Invalid [([], type)].

Definition at_loc {A} (l : Loc) (r : V A) : V A :=
  match r with
  | Valid a => Valid a
  | Invalid errs => Invalid (map (fun e => (l :: fst e, snd e)) errs)
  end.

(** [Field(...)]: a required field. *)
Definition required {A} (k : string) (check : PyVal -> V A) (kw : PyDict) : V A :=
  match kw_get k kw with
  | None => Invalid [([LKey k], "missing")]
  | Some v => at_loc (LKey k) (check v)
  end.

(** [Field(default, ...)]: the default is taken as it is. *)
Definition optional {A} (k : string) (default : A) (check : PyVal -> V A)
    (kw : PyDict) : V A :=
  match kw_get k kw with
  | None => Valid default
  | Some v => at_loc (LKey k) (check v)
  end.

(** An after-validator: runs on the value the field constraints let
    through; a ValueError becomes a ['value_error'] entry. *)
Definition after {A} (r : V A) (validator : A -> Exc A) : V A :=
  match r with
  | Valid a =>
      match validator a with
      | Ret a' => Valid a'
      | Raise _ => fail "value_error"
      end
  | Invalid e => Invalid e
  end.

Definition check_str (min_length : Z) (max_length : option Z) (v : PyVal) : V string :=
  match v with
  | VStr s =>
      if Str.len s <? min_length then fail "string_too_short"
      else match max_length with
           | Some m => if m <? Str.len s then fail "string_too_long" else Valid s
           | None => Valid s
           end
  | _ => fail "string_type"
  end.

(** The text of a bool in lax mode, in any case. *)
Definition bool_of_string (s : string) : option bool :=
  let t := Str.lower s in
  if existsb (String.eqb t) ["0"; "off"; "f"; "false"; "n"; "no"] then Some false
  else if existsb (String.eqb t) ["1"; "on"; "t"; "true"; "y"; "yes"] then Some true
  else None.

Definition bool_of_int (n : Z) : V bool :=
  if n =? 0 then Valid false else if n =? 1 then Valid true else fail "bool_parsing".

(** A [bool] field in lax mode: a bool, the ints 0 and 1, the texts
    above, and a number whose [float] is 0.0 or 1.0.  The members of the
    two enumerations are [str] instances, of a text that is none of the
    above.  Every other value is refused; the kind of the error entry
    is not told apart for a refused Decimal. *)
Definition check_bool (v : PyVal) : V bool :=
  match v with
  | VBool b => Valid b
  | VInt n => bool_of_int n
  | VStr s =>
      match bool_of_string s with
      | Some b => Valid b
      | None => fail "bool_parsing"
      end
  | VDec d =>
      match Dec.as_bool d with
      | Some b => Valid b
      | None => fail "bool_type"
      end
  | VCat _ | VStatus _ => fail "bool_parsing"
  | _ => fail "bool_type"
  end.

(** The unbroken runs of digits of an int text may be joined by single
    underscores. *)
Fixpoint well_grouped (s : string) (previous_digit : bool) : bool :=
  match s with
  | EmptyString => previous_digit
  | String c s' =>
      if Ascii.eqb c "_"%char then previous_digit && well_grouped s' false
      else well_grouped s' true
  end.

(** The text of an int in lax mode: white space around it is dropped;
    what is left, of 4300 characters at most, is an optional sign,
    digits (single underscores may separate them) and, optionally, a
    point followed by zeros only. *)
Definition int_of_string (text : string) : option Z :=
  if 4300 <? Str.len (Str.trim text) then None
  else
    let (negative, s1) := Str.read_sign (Str.trim text) in
    let (whole, fraction) :=
      (fix split (s : string) : string * option string :=
         match s with
         | EmptyString => (EmptyString, None)
         | String c s' =>
             if Ascii.eqb c "."%char then (EmptyString, Some s')
             else let (w, f) := split s' in (String c w, f)
         end) s1 in
    let zeros :=
      match fraction with
      | None => true
      | Some f =>
          negb (String.eqb f EmptyString)
          && Str.all_chars (fun c => Ascii.eqb c "0"%char) f
      end in
    if well_grouped whole false && zeros then
      match Str.read_digits (Str.drop_underscores whole) 0 0 with
      | (n, _, EmptyString) => Some (if negative then - n else n)
      | _ => None
      end
    else None.

(** An [int] field in lax mode: an int, a bool (an int in Python), the
    text of an int, and a Decimal without a fractional part. *)
Definition check_int (v : PyVal) : V Z :=
  match v with
  | VInt n => Valid n
  | VBool b => Valid (if b then 1 else 0)
  | VStr s =>
      match int_of_string s with
      | Some n => Valid n
      | None =>
          if 4300 <? Str.len (Str.trim s) then fail "int_parsing_size"
          else fail "int_parsing"
      end
  | VDec d =>
      match Dec.as_int d with
      | Some n => Valid n
      | None => fail "int_from_float"
      end
  | VCat _ | VStatus _ => fail "int_parsing"
  | _ => fail "int_type"
  end.

Definition check_gt (bound : Z) (r : V Z) : V Z :=
  match r with
  | Valid n => if bound <? n then Valid n else fail "greater_than"
  | Invalid e => Invalid e
  end.

Definition check_ge (bound : Z) (r : V Z) : V Z :=
  match r with
  | Valid n => if bound <=? n then Valid n else fail "greater_than_equal"
  | Invalid e => Invalid e
  end.

Definition check_le (bound : Z) (r : V Z) : V Z :=
  match r with
  | Valid n => if n <=? bound then Valid n else fail "less_than_equal"
  | Invalid e => Invalid e
  end.

(** The constraints of a Decimal field, in pydantic's order: the
    decimal places of the normalised value, then [gt=0] on the value
    itself.  The value is kept as it was written. *)
Definition check_decimal_constraints (d : Decimal) : V Decimal :=
  if 2 <? Dec.decimal_places d then fail "decimal_max_places"
  else if 0 <? coeff d then Valid d
  else fail "greater_than".

(** [Decimal = Field(..., gt=0, decimal_places=2)]; an [int] is
    converted exactly and a [str] goes through [Decimal(text)] first;
    NaN and the infinities are refused.  A bool is not taken for an
    int here. *)
Definition check_decimal (v : PyVal) : V Decimal :=
  match v with
  | VDec d => check_decimal_constraints d
  | VInt n => check_decimal_constraints (Dec.of_int n)
  | VStr s =>
      match Dec.parse s with
      | Dec.Finite d => check_decimal_constraints d
      | Dec.NonFinite => fail "finite_number"
      | Dec.Malformed => fail "decimal_parsing"
      end
  | VCat _ | VStatus _ => fail "decimal_parsing"
  | _ => fail "decimal_type"
  end.

Fixpoint check_items {A} (check : PyVal -> V A) (i : nat) (l : list PyVal) : V (list A) :=
  match l with
  | [] => Valid []
  | x :: r => vap (vap (Valid cons) (at_loc (LIdx i) (check x))) (check_items check (S i) r)
  end.

(** [List[...] = Field(..., min_items=1)] *)
Definition check_list {A} (check : PyVal -> V A) (min_items : Z) (v : PyVal) : V (list A) :=
  match v with
  | VList l =>
      match check_items check 0 l with
      | Valid xs => if Z.of_nat (List.length xs) <? min_items then fail "too_short" else Valid xs
      | Invalid e => Invalid e
      end
  | _ => fail "list_type"
  end.

Definition check_optional {A} (check : PyVal -> V A) (v : PyVal) : V (option A) :=
  match v with
  | VNone => Valid None
  | _ => vap (Valid Some) (check v)
  end.

(** Calling a model class: the instance, or ValidationError. *)
Definition construct {A} (title : string) (r : V A) : Exc A :=
  match r with
  | Valid a => Ret a
  | Invalid e => Raise (ValidationError title e)
  end.

End Pyd.

Notation "f <*> x" := (Pyd.vap f x) (at level 40, left associativity) : py_scope.

(* ================================================================= *)
(** * Menu models

    [FoodCategory], [FoodItemCreate] and [FoodItem] are declared with
    the same text in both [main.py] files. *)
Module Menu.
Import Pyd.

(** [FoodCategory.value] *)
Definition category_value (c : FoodCategory) : string :=
  match c with
  | APPETIZER => "appetizer"
  | MAIN_COURSE => "main_course"
  | DESSERT => "dessert"
  | BEVERAGE => "beverage"
  | SALAD => "salad"
  end.

Definition category_eqb (a b : FoodCategory) : bool :=
  match a, b with
  | APPETIZER, APPETIZER | MAIN_COURSE, MAIN_COURSE | DESSERT, DESSERT
  | BEVERAGE, BEVERAGE | SALAD, SALAD => true
  | _, _ => false
  end.

Definition categories : list FoodCategory :=
  [APPETIZER; MAIN_COURSE; DESSERT; BEVERAGE; SALAD].

(** A member, or the wire literal of a member. *)
Definition check_category (v : PyVal) : V FoodCategory :=
  match v with
  | VCat c => Valid c
  | VStr s =>
      match find (fun c => String.eqb s (category_value c)) categories with
      | Some c => Valid c
      | None => fail "enum"
      end
  | _ => fail "enum"
  end.

Record FoodItemCreate := {
  name : string;
  description : string;
  category : FoodCategory;
  price : Decimal;
  is_available : bool;
  preparation_time : Z;
  ingredients : list string;
  calories : option Z;
  is_vegetarian : bool;
  is_spicy : bool;
  (** the names of the fields the caller supplied *)
  model_fields_set : list string
}.

(** [class FoodItem(FoodItemCreate)]: the inherited fields and [id]. *)
Record FoodItem := {
  as_FoodItemCreate : FoodItemCreate;
  id : Z
}.

Definition validate_name_characters (v : string) : Exc string :=
  if negb (Str.name_pattern v)
  then Raise (ValueError "Name should only contain letters and spaces")
  else Ret (Str.strip v).

Definition validate_price_range (v : Decimal) : Exc Decimal :=
  if negb (Dec.leb (mkDecimal 100 (-2)) v && Dec.leb v (mkDecimal 10000 (-2)))
  then Raise (ValueError "Price must be between $1.00 and $100.00")
  else Ret v.

Definition price_category (self : FoodItemCreate) : string :=
  if Dec.ltb (price self) (mkDecimal 1000 (-2)) then "Budget"
  else if Dec.leb (mkDecimal 1000 (-2)) (price self)
          && Dec.leb (price self) (mkDecimal 2500 (-2)) then "Mid-range"
  else "Premium".

Definition dietary_info (self : FoodItemCreate) : list string :=
  let info := [] in
  let info := if is_vegetarian self then (info ++ ["Vegetarian"])%list else info in
  let info := if is_spicy self then (info ++ ["Spicy"])%list else info in
  info.

Definition field_names : list string :=
  ["name"; "description"; "category"; "price"; "is_available";
   "preparation_time"; "ingredients"; "calories"; "is_vegetarian"; "is_spicy"].

Definition fields_set_of (kw : PyDict) : list string :=
  filter (fun f => kw_mem f kw) field_names.

(** Validation of the ten declared fields from keyword arguments;
    unknown keywords are ignored. *)
Definition validate_fields (kw : PyDict) : V FoodItemCreate :=
  Valid Build_FoodItemCreate
  <*> required "name"
        (fun v => after (check_str 3 (Some 100) v) validate_name_characters) kw
  <*> required "description" (check_str 10 (Some 500)) kw
  <*> required "category" check_category kw
  <*> required "price" (fun v => after (check_decimal v) validate_price_range) kw
  <*> optional "is_available" true check_bool kw
  <*> required "preparation_time" (fun v => check_le 120 (check_ge 1 (check_int v))) kw
  <*> required "ingredients" (check_list (check_str 0 None) 1) kw
  <*> optional "calories" None (check_optional (fun v => check_gt 0 (check_int v))) kw
  <*> optional "is_vegetarian" false check_bool kw
  <*> optional "is_spicy" false check_bool kw
  <*> Valid (fields_set_of kw).

(** [FoodItemCreate(kwargs)] *)
Definition FoodItemCreate_init (kw : PyDict) : Exc FoodItemCreate :=
  construct "FoodItemCreate" (validate_fields kw).

(** [FoodItem(kwargs)] *)
Definition FoodItem_init (kw : PyDict) : Exc FoodItem :=
  construct "FoodItem"
    (Valid Build_FoodItem <*> validate_fields kw <*> required "id" check_int kw).

(** [self.dict()] of a [FoodItemCreate]: every field, declaration order. *)
Definition FoodItemCreate_dict (self : FoodItemCreate) : PyDict :=
  [("name", VStr (name self));
   ("description", VStr (description self));
   ("category", VCat (category self));
   ("price", VDec (price self));
   ("is_available", VBool (is_available self));
   ("preparation_time", VInt (preparation_time self));
   ("ingredients", VList (map VStr (ingredients self)));
   ("calories", match calories self with Some n => VInt n | None => VNone end);
   ("is_vegetarian", VBool (is_vegetarian self));
   ("is_spicy", VBool (is_spicy self))].

(** [self.dict(exclude_unset=True)] *)
Definition FoodItemCreate_dict_exclude_unset (self : FoodItemCreate) : PyDict :=
  filter (fun kv => existsb (String.eqb (fst kv)) (model_fields_set self))
         (FoodItemCreate_dict self).

(** [self.dict()] of a [FoodItem]: the inherited fields, then [id]. *)
Definition FoodItem_dict (self : FoodItem) : PyDict :=
  (FoodItemCreate_dict (as_FoodItemCreate self) ++ [("id", VInt (id self))])%list.

End Menu.

(* ================================================================= *)
(** * Order models ([Restaurant_Chain_Two_tables/main.py]) *)
Module Orders.
Import Pyd.

Definition status_value (s : OrderStatus) : string :=
  match s with
  | PENDING => "pending"
  | CONFIRMED => "confirmed"
  | READY => "ready"
  | DELIVERED => "delivered"
  end.

Definition status_eqb (a b : OrderStatus) : bool :=
  match a, b with
  | PENDING, PENDING | CONFIRMED, CONFIRMED | READY, READY
  | DELIVERED, DELIVERED => true
  | _, _ => false
  end.

Definition check_status (v : PyVal) : V OrderStatus :=
  match v with
  | VStatus s => Valid s
  | VStr s =>
      match find (fun c => String.eqb s (status_value c))
                 [PENDING; CONFIRMED; READY; DELIVERED] with
      | Some c => Valid c
      | None => fail "enum"
      end
  | _ => fail "enum"
  end.

Record OrderItem := {
  menu_item_id : Z;
  menu_item_name : string;
  quantity : Z;
  unit_price : Decimal
}.

Record Customer := {
  name : string;
  phone : string;
  address : string
}.

Record OrderCreate := {
  customer : Customer;
  items : list OrderItem
}.

(** [class Order(OrderCreate)]: the inherited fields, [id] and [status]. *)
Record Order := {
  as_OrderCreate : OrderCreate;
  id : Z;
  status : OrderStatus
}.

Definition check_phone (v : PyVal) : V string :=
  match v with
  | VStr s => if Str.phone_pattern s then Valid s else fail "string_pattern_mismatch"
  | _ => fail "string_type"
  end.

Definition check_model {A} (validate : PyDict -> V A) (v : PyVal) : V A :=
  match v with
  | VDict d => validate d
  | _ => fail "model_type"
  end.

Definition validate_OrderItem (kw : PyDict) : V OrderItem :=
  Valid Build_OrderItem
  <*> required "menu_item_id" (fun v => check_gt 0 (check_int v)) kw
  <*> required "menu_item_name" (check_str 1 (Some 100)) kw
  <*> required "quantity" (fun v => check_le 10 (check_gt 0 (check_int v))) kw
  <*> required "unit_price" check_decimal kw.

Definition validate_Customer (kw : PyDict) : V Customer :=
  Valid Build_Customer
  <*> required "name" (check_str 2 (Some 50)) kw
  <*> required "phone" check_phone kw
  <*> required "address" (check_str 5 None) kw.

Definition validate_OrderCreate (kw : PyDict) : V OrderCreate :=
  Valid Build_OrderCreate
  <*> required "customer" (check_model validate_Customer) kw
  <*> required "items" (check_list (check_model validate_OrderItem) 1) kw.

(** [OrderCreate(kwargs)] *)
Definition OrderCreate_init (kw : PyDict) : Exc OrderCreate :=
  construct "OrderCreate" (validate_OrderCreate kw).

(** [Order(kwargs)] *)
Definition Order_init (kw : PyDict) : Exc Order :=
  construct "Order"
    (Valid Build_Order
     <*> validate_OrderCreate kw
     <*> required "id" check_int kw
     <*> optional "status" PENDING check_status kw).

Definition OrderItem_dict (self : OrderItem) : PyDict :=
  [("menu_item_id", VInt (menu_item_id self));
   ("menu_item_name", VStr (menu_item_name self));
   ("quantity", VInt (quantity self));
   ("unit_price", VDec (unit_price self))].

Definition Customer_dict (self : Customer) : PyDict :=
  [("name", VStr (name self));
   ("phone", VStr (phone self));
   ("address", VStr (address self))].

(** [self.dict()] of an [OrderCreate]: nested models become dicts. *)
Definition OrderCreate_dict (self : OrderCreate) : PyDict :=
  [("customer", VDict (Customer_dict (customer self)));
   ("items", VList (map (fun i => VDict (OrderItem_dict i)) (items self)))].

Definition Order_dict (self : Order) : PyDict :=
  (OrderCreate_dict (as_OrderCreate self)
   ++ [("id", VInt (id self)); ("status", VStatus (status self))])%list.

(** [OrderItem.item_total] *)
Definition item_total (self : OrderItem) : Exc Decimal :=
  Dec.mul (Dec.of_int (quantity self)) (unit_price self).

(** [sum(item.item_total for item in items)], continued from [acc]. *)
Fixpoint sum_item_totals (acc : Decimal) (l : list OrderItem) : Exc Decimal :=
  match l with
  | [] => Ret acc
  | item :: rest =>
      ebind (item_total item) (fun t =>
      ebind (Dec.add acc t) (fun acc' =>
      sum_item_totals acc' rest))
  end.

(** [Order.total_amount]; [sum] starts from the int 0. *)
Definition total_amount (self : Order) : Exc Decimal :=
  sum_item_totals (Dec.of_int 0) (items (as_OrderCreate self)).

Definition DELIVERY_FEE : Decimal := mkDecimal 299 (-2).

Definition total_amount_with_delivery (self : Order) : Exc Decimal :=
  ebind (total_amount self) (fun t => Dec.add t DELIVERY_FEE).

Definition total_items_count (self : Order) : Z :=
  Z.of_nat (List.length (items (as_OrderCreate self))).

Definition total_quantity (self : Order) : Z :=
  fold_left Z.add (map quantity (items (as_OrderCreate self))) 0.

Record OrderSummaryResponse := {
  summary_id : Z;
  customer_name : string;
  summary_total_amount : Decimal;
  summary_status : OrderStatus
}.

(** [OrderResponse], the response model of the routes that answer one
    order. *)
Record OrderResponse := {
  response_id : Z;
  response_customer : Customer;
  response_items : list OrderItem;
  response_total_amount : Decimal;
  response_total_amount_with_delivery : Decimal;
  response_total_items_count : Z;
  response_total_quantity : Z;
  response_status : OrderStatus
}.

(** One attribute read for a response model: a property that raises
    leaves an error entry for its field. *)
Definition attribute {A} (k : string) (r : Exc A) : V A :=
  match r with
  | Ret a => Valid a
  | Raise _ => Invalid [([LKey "response"; LKey k], "get_attribute_error")]
  end.

(** What FastAPI makes of an [Order] that a handler returned under
    [response_model=OrderResponse]: each field of the response model is
    read from the attribute of its name, the four totals being
    properties of the order.  When a property raises, the response is
    refused with ResponseValidationError, after the handler has run. *)
Definition OrderResponse_of (o : Order) : Exc OrderResponse :=
  match Valid Build_OrderResponse
        <*> Valid (id o)
        <*> Valid (customer (as_OrderCreate o))
        <*> Valid (items (as_OrderCreate o))
        <*> attribute "total_amount" (total_amount o)
        <*> attribute "total_amount_with_delivery" (total_amount_with_delivery o)
        <*> Valid (total_items_count o)
        <*> Valid (total_quantity o)
        <*> Valid (status o)
  with
  | Valid r => Ret r
  | Invalid errs => Raise (ResponseValidationError errs)
  end.

End Orders.

(* ================================================================= *)
(** * What a route answers *)
Module Http.

(** The object a route answers with. *)
Inductive Payload :=
| Items (l : list Menu.FoodItem)
| Item (i : Menu.FoodItem)
| Message (m : string)
| Results (r : PyDict)
| OrderAnswer (r : Orders.OrderResponse)
| Summaries (l : list Orders.OrderSummaryResponse).

(** The request body of a route whose parameter is a pydantic model: a
    body the model refuses is answered by the framework, with
    RequestValidationError, before the handler is called. *)
Definition parse_body {A} (init : PyDict -> Exc A) (body : PyDict) : Exc A :=
  match init body with
  | Ret a => Ret a
  | Raise (ValidationError _ errs) => Raise (RequestValidationError errs)
  | Raise e => Raise e
  end.

(** Status of the answer: the route's success status, the status of an
    HTTPException, 422 for a refused body, 500 for any other exception
    (a refused response among them). *)
Definition status_code {A} (success : Z) (r : Exc A) : Z :=
  match r with
  | Ret _ => success
  | Raise (HTTPException c _) => c
  | Raise (RequestValidationError _) => 422
  | Raise _ => 500
  end.

Definition not_found {S A} (msg : string) : M S A :=
  raise (HTTPException 404 (DetailText msg)).

(** [f"...: {e}"] as the detail of an HTTPException. *)
Definition detail_of (pfx : string) (e : PyExc) : Detail :=
  match e with
  | ValidationError _ errs => DetailFormat pfx errs
  | ValueError msg => DetailText (pfx ++ msg)
  | _ => DetailText pfx
  end.

End Http.

(* ================================================================= *)
(** * The seed data

    [sample_menu_items_raw] of the menu service; the order service's
    [sample_food_items_raw] is the same list followed by one more item. *)
Module Samples.

Definition strs (l : list string) : PyVal := VList (map VStr l).

Definition margherita_pizza : PyDict :=
  [("name", VStr "Margherita Pizza");
   ("description", VStr "Classic Pizza with tomato sauce, mozzarella cheese, and fresh basil");
   ("category", VStr "main_course");
   ("price", VStr "15.99");
   ("preparation_time", VInt 20);
   ("ingredients", strs ["pizza dough"; "tomato sauce"; "mozzarella"; "basil"; "olive oil"]);
   ("calories", VInt 650);
   ("is_vegetarian", VBool true);
   ("is_spicy", VBool false)].

Definition spicy_chicken_wings : PyDict :=
  [("name", VStr "Spicy Chicken Wings");
   ("description", VStr "Crispy chicken wings tossed in our signature hot sauce");
   ("category", VStr "appetizer");
   ("price", VStr "12.50");
   ("preparation_time", VInt 15);
   ("ingredients", strs ["chicken wings"; "hot sauce"; "butter"; "celery salt"]);
   ("calories", VInt 420);
   ("is_vegetarian", VBool false);
   ("is_spicy", VBool true)].

Definition caesar_salad : PyDict :=
  [("name", VStr "Caesar Salad");
   ("description", VStr "Fresh romaine lettuce, croutons, parmesan cheese, and Caesar dressing");
   ("category", VStr "salad");
   ("price", VStr "8.75");
   ("preparation_time", VInt 10);
   ("ingredients", strs ["romaine lettuce"; "croutons"; "parmesan cheese"; "Caesar dressing"]);
   ("calories", VInt 300);
   ("is_vegetarian", VBool true);
   ("is_spicy", VBool false)].

Definition chocolate_lava_cake : PyDict :=
  [("name", VStr "Chocolate Lava Cake");
   ("description", VStr "Warm chocolate cake with a molten chocolate center, served with vanilla ice cream");
   ("category", VStr "dessert");
   ("price", VStr "7.99");
   ("preparation_time", VInt 25);
   ("ingredients", strs ["chocolate"; "flour"; "sugar"; "eggs"; "butter"; "ice cream"]);
   ("calories", VInt 750);
   ("is_vegetarian", VBool true);
   ("is_spicy", VBool false)].

Definition orange_juice : PyDict :=
  [("name", VStr "Orange Juice");
   ("description", VStr "Freshly squeezed orange juice");
   ("category", VStr "beverage");
   ("price", VStr "3.50");
   ("preparation_time", VInt 5);
   ("ingredients", strs ["oranges"]);
   ("calories", VInt 120);
   ("is_vegetarian", VBool true);
   ("is_spicy", VBool false)].

Definition seasonal_soup : PyDict :=
  [("name", VStr "Seasonal Soup");
   ("description", VStr "Hearty soup available only in winter");
   ("category", VStr "appetizer");
   ("price", VStr "6.00");
   ("preparation_time", VInt 10);
   ("ingredients", strs ["vegetables"; "broth"]);
   ("is_available", VBool false);
   ("calories", VInt 250);
   ("is_vegetarian", VBool true);
   ("is_spicy", VBool false)].

Definition sample_menu_items_raw : list PyDict :=
  [margherita_pizza; spicy_chicken_wings; caesar_salad; chocolate_lava_cake;
   orange_juice].

Definition sample_food_items_raw : list PyDict :=
  (sample_menu_items_raw ++ [seasonal_soup])%list.

(** [item_data_copy['price'] = Decimal(item_data_copy['price'])] on a
    copy of one raw item.  A NaN or an infinity has no [Decimal] here:
    its text is left in place and the model refuses it as it refuses
    the value. *)
Definition with_decimal_price (item_data : PyDict) : Exc PyDict :=
  let item_data_copy := item_data in
  match kw_get "price" item_data_copy with
  | None => Raise KeyError
  | Some (VStr s) =>
      match Dec.parse s with
      | Dec.Finite d => Ret (kw_set "price" (VDec d) item_data_copy)
      | Dec.NonFinite => Ret item_data_copy
      | Dec.Malformed => Raise InvalidOperation
      end
  | Some (VDec d) => Ret item_data_copy
  | Some (VInt n) => Ret (kw_set "price" (VDec (Dec.of_int n)) item_data_copy)
  | Some _ => Raise (TypeError "conversion to Decimal")
  end.

End Samples.

(* ================================================================= *)
(** * The menu service ([Restaurant_Chain/main.py]) *)
Module RestaurantChain.
Import Menu Http.

(** The module globals. *)
Record State := {
  menu_db : list (Z * FoodItem);
  last_item_id : Z
}.

Definition set_menu_db (f : list (Z * FoodItem) -> list (Z * FoodItem)) (st : State) : State :=
  {| menu_db := f (menu_db st); last_item_id := last_item_id st |}.

Definition set_last_item_id (n : Z) (st : State) : State :=
  {| menu_db := menu_db st; last_item_id := n |}.

Definition add_item_to_db (item_data : FoodItemCreate) : M State FoodItem :=
  n <- gets last_item_id ;;
  modify (set_last_item_id (n + 1)) ;;;
  n <- gets last_item_id ;;
  new_item <- lift (ebind (call_kwargs [("id", VInt n)] (FoodItemCreate_dict item_data))
                          FoodItem_init) ;;
  modify (set_menu_db (dict_set Z.eqb n new_item)) ;;;
  ret new_item.

(** The loop over [sample_menu_items_raw] at import time. *)
Fixpoint populate (raw : list PyDict) : M State unit :=
  match raw with
  | [] => ret tt
  | item_data :: rest =>
      item_data_copy <- lift (Samples.with_decimal_price item_data) ;;
      item <- lift (FoodItemCreate_init item_data_copy) ;;
      add_item_to_db item ;;;
      populate rest
  end.

Definition empty : State := {| menu_db := []; last_item_id := 0 |}.

(** Importing the module. *)
Definition import : Exc unit * State := populate Samples.sample_menu_items_raw empty.

(** The globals once the module is imported. *)
Definition initial : State := snd import.

Definition get_all_menu_items : M State (list FoodItem) :=
  db <- gets menu_db ;;
  ret (dict_values db).

Definition get_menu_item (item_id : Z) : M State FoodItem :=
  db <- gets menu_db ;;
  match dict_get Z.eqb item_id db with
  | None => not_found "Food item not found"
  | Some item => ret item
  end.

Definition add_menu_item (item : FoodItemCreate) : M State FoodItem :=
  new_item <- add_item_to_db item ;;
  ret new_item.

Definition update_menu_item (item_id : Z) (updated_item : FoodItemCreate) : M State FoodItem :=
  db <- gets menu_db ;;
  match dict_get Z.eqb item_id db with
  | None => not_found "Food item not found"
  | Some stored =>
      let existing_item_data := FoodItem_dict stored in
      let existing_item_data :=
        dict_update String.eqb existing_item_data
                    (FoodItemCreate_dict_exclude_unset updated_item) in
      try_except
        (re_validated_item <-
           lift (ebind (call_kwargs [("id", VInt item_id)] existing_item_data)
                       FoodItem_init) ;;
         modify (set_menu_db (dict_set Z.eqb item_id re_validated_item)) ;;;
         ret re_validated_item)
        is_ValueError
        (fun e => raise (HTTPException 422
                           (detail_of "Validation error during update: " e)))
  end.

Definition delete_menu_item (item_id : Z) : M State string :=
  db <- gets menu_db ;;
  if negb (dict_mem Z.eqb item_id db) then not_found "Food item not found"
  else
    modify (set_menu_db (dict_del Z.eqb item_id)) ;;;
    ret "Food item deleted successfully".

Definition get_items_by_category (category : FoodCategory) : M State (list FoodItem) :=
  db <- gets menu_db ;;
  let filtered_items :=
    filter (fun item => category_eqb (Menu.category (as_FoodItemCreate item)) category)
           (dict_values db) in
  match filtered_items with
  | [] => not_found ("No items found in category '" ++ category_value category ++ "'")
  | _ => ret filtered_items
  end.

(** One scenario of [run_test_cases]: build a [FoodItemCreate]; FAIL
    with the fixed message when it is built, PASS with the text of the
    error when it raises ValueError. *)
Definition scenario (key : string) (kwargs : PyDict) (fail_message : string)
    (results : PyDict) : Exc PyDict :=
  match FoodItemCreate_init kwargs with
  | Ret _ =>
      Ret (kw_set key (VDict [("status", VStr "FAIL"); ("message", VStr fail_message)])
                  results)
  | Raise e =>
      if is_ValueError e
      then Ret (kw_set key (VDict [("status", VStr "PASS"); ("message", str_exc e)])
                       results)
      else Raise e
  end.

Definition invalid_price_item : PyDict :=
  [("name", VStr "Tiny Snack");
   ("description", VStr "A very tiny snack for a very tiny price");
   ("category", VCat APPETIZER);
   ("price", VDec (mkDecimal 50 (-2)));
   ("preparation_time", VInt 5);
   ("ingredients", Samples.strs ["bread"; "butter"])].

Definition invalid_category_spicy_item : PyDict :=
  [("name", VStr "Spicy Lemonade");
   ("description", VStr "Lemonade with a kick!");
   ("category", VCat BEVERAGE);
   ("price", VDec (mkDecimal 400 (-2)));
   ("preparation_time", VInt 5);
   ("ingredients", Samples.strs ["lemon"; "sugar"; "water"; "chili"]);
   ("is_spicy", VBool true)].

Definition missing_ingredients_item : PyDict :=
  [("name", VStr "Empty Dish");
   ("description", VStr "A dish with no ingredients");
   ("category", VCat MAIN_COURSE);
   ("price", VDec (mkDecimal 1000 (-2)));
   ("preparation_time", VInt 10);
   ("ingredients", Samples.strs [])].

Definition invalid_name_item : PyDict :=
  [("name", VStr "Pizza123!");
   ("description", VStr "Pizza with invalid characters in name");
   ("category", VCat MAIN_COURSE);
   ("price", VDec (mkDecimal 1500 (-2)));
   ("preparation_time", VInt 20);
   ("ingredients", Samples.strs ["dough"; "cheese"])].

Definition high_cal_veg_item : PyDict :=
  [("name", VStr "Giant Veggie Burger");
   ("description", VStr "A huge burger for vegetarians");
   ("category", VCat MAIN_COURSE);
   ("price", VDec (mkDecimal 1800 (-2)));
   ("preparation_time", VInt 30);
   ("ingredients", Samples.strs ["patty"; "bun"; "lettuce"]);
   ("calories", VInt 850);
   ("is_vegetarian", VBool true)].

Definition long_prep_beverage : PyDict :=
  [("name", VStr "Slow Brew Coffee");
   ("description", VStr "Coffee that takes a long time to make");
   ("category", VCat BEVERAGE);
   ("price", VDec (mkDecimal 500 (-2)));
   ("preparation_time", VInt 12);
   ("ingredients", Samples.strs ["coffee beans"; "water"])].

Definition run_test_cases : M State PyDict :=
  let results := [] in
  let results := kw_set "valid_data_example" (VDict Samples.margherita_pizza) results in
  lift (
    ebind (scenario "invalid_price_test" invalid_price_item
             "Should have failed due to invalid price range." results) (fun results =>
    ebind (scenario "invalid_category_spicy_test" invalid_category_spicy_item
             "Should have failed: beverage cannot be spicy." results) (fun results =>
    ebind (scenario "missing_ingredients_test" missing_ingredients_item
             "Should have failed: empty ingredients list." results) (fun results =>
    ebind (scenario "invalid_name_test" invalid_name_item
             "Should have failed due to invalid name characters." results) (fun results =>
    ebind (scenario "high_cal_veg_test" high_cal_veg_item
             "Should have failed: vegetarian calories >= 800." results) (fun results =>
    ebind (scenario "long_prep_beverage_test" long_prep_beverage
             "Should have failed: beverage prep time > 10 minutes." results) (fun results =>
    Ret results))))))).

(** ** The routes *)
Inductive Request :=
| GET_menu
| GET_menu_item (item_id : Z)
| POST_menu (body : PyDict)
| PUT_menu_item (item_id : Z) (body : PyDict)
| DELETE_menu_item (item_id : Z)
| GET_menu_category (category : FoodCategory)
| GET_test_cases.

Definition route (r : Request) : M State Payload :=
  match r with
  | GET_menu => l <- get_all_menu_items ;; ret (Items l)
  | GET_menu_item item_id => i <- get_menu_item item_id ;; ret (Item i)
  | POST_menu body =>
      item <- lift (parse_body FoodItemCreate_init body) ;;
      i <- add_menu_item item ;; ret (Item i)
  | PUT_menu_item item_id body =>
      updated_item <- lift (parse_body FoodItemCreate_init body) ;;
      i <- update_menu_item item_id updated_item ;; ret (Item i)
  | DELETE_menu_item item_id => m <- delete_menu_item item_id ;; ret (Message m)
  | GET_menu_category category => l <- get_items_by_category category ;; ret (Items l)
  | GET_test_cases => r <- run_test_cases ;; ret (Results r)
  end.

(** Serving a sequence of requests, one after the other. *)
Fixpoint serve (reqs : list Request) (st : State) : list (Exc Payload) * State :=
  match reqs with
  | [] => ([], st)
  | r :: rest =>
      let (a, st') := route r st in
      let (answers, st'') := serve rest st' in
      (a :: answers, st'')
  end.

End RestaurantChain.

(* ================================================================= *)
(** * The order service ([Restaurant_Chain_Two_tables/main.py]) *)
Module RestaurantChainTwoTables.
Import Menu Orders Http.

(** The module globals. *)
Record State := {
  menu_db : list (Z * FoodItem);
  orders_db : list (Z * Order);
  next_menu_id : Z;
  next_order_id : Z
}.

Definition set_menu_db (f : list (Z * FoodItem) -> list (Z * FoodItem)) (st : State) : State :=
  {| menu_db := f (menu_db st); orders_db := orders_db st;
     next_menu_id := next_menu_id st; next_order_id := next_order_id st |}.

Definition set_orders_db (f : list (Z * Order) -> list (Z * Order)) (st : State) : State :=
  {| menu_db := menu_db st; orders_db := f (orders_db st);
     next_menu_id := next_menu_id st; next_order_id := next_order_id st |}.

Definition set_next_menu_id (n : Z) (st : State) : State :=
  {| menu_db := menu_db st; orders_db := orders_db st;
     next_menu_id := n; next_order_id := next_order_id st |}.

Definition set_next_order_id (n : Z) (st : State) : State :=
  {| menu_db := menu_db st; orders_db := orders_db st;
     next_menu_id := next_menu_id st; next_order_id := n |}.

Definition add_food_item_to_db (item_data : FoodItemCreate) : M State FoodItem :=
  n <- gets next_menu_id ;;
  new_item <- lift (ebind (call_kwargs [("id", VInt n)] (FoodItemCreate_dict item_data))
                          FoodItem_init) ;;
  n <- gets next_menu_id ;;
  modify (set_menu_db (dict_set Z.eqb n new_item)) ;;;
  n <- gets next_menu_id ;;
  modify (set_next_menu_id (n + 1)) ;;;
  ret new_item.

(** The loop over [sample_food_items_raw] at import time. *)
Fixpoint populate (raw : list PyDict) : M State unit :=
  match raw with
  | [] => ret tt
  | item_data :: rest =>
      item_data_copy <- lift (Samples.with_decimal_price item_data) ;;
      item <- lift (FoodItemCreate_init item_data_copy) ;;
      add_food_item_to_db item ;;;
      populate rest
  end.

Definition empty : State :=
  {| menu_db := []; orders_db := []; next_menu_id := 1; next_order_id := 1 |}.

Definition import : Exc unit * State := populate Samples.sample_food_items_raw empty.

Definition initial : State := snd import.

Definition read_root : M State string :=
  ret "Welcome to the Restaurant API! Use /docs for interactive documentation.".

Definition add_menu_item (item : FoodItemCreate) : M State FoodItem :=
  new_item <- add_food_item_to_db item ;;
  ret new_item.

Definition get_all_menu_items : M State (list FoodItem) :=
  db <- gets menu_db ;;
  ret (dict_values db).

Definition get_menu_item (item_id : Z) : M State FoodItem :=
  db <- gets menu_db ;;
  match dict_get Z.eqb item_id db with
  | None => not_found "Food item not found"
  | Some item => ret item
  end.

Definition update_menu_item (item_id : Z) (updated_item : FoodItemCreate) : M State FoodItem :=
  db <- gets menu_db ;;
  match dict_get Z.eqb item_id db with
  | None => not_found "Food item not found"
  | Some stored =>
      let existing_item_data := FoodItem_dict stored in
      let existing_item_data :=
        dict_update String.eqb existing_item_data
                    (FoodItemCreate_dict_exclude_unset updated_item) in
      try_except
        (re_validated_item <-
           lift (ebind (call_kwargs [("id", VInt item_id)] existing_item_data)
                       FoodItem_init) ;;
         modify (set_menu_db (dict_set Z.eqb item_id re_validated_item)) ;;;
         ret re_validated_item)
        is_ValueError
        (fun e => raise (HTTPException 422
                           (detail_of "Validation error during update: " e)))
  end.

Definition delete_menu_item (item_id : Z) : M State string :=
  db <- gets menu_db ;;
  if negb (dict_mem Z.eqb item_id db) then not_found "Food item not found"
  else
    modify (set_menu_db (dict_del Z.eqb item_id)) ;;;
    ret "Food item deleted successfully".

Definition get_items_by_category (category : FoodCategory) : M State (list FoodItem) :=
  db <- gets menu_db ;;
  let filtered_items :=
    filter (fun item => category_eqb (Menu.category (as_FoodItemCreate item)) category)
           (dict_values db) in
  match filtered_items with
  | [] => not_found ("No items found in category '" ++ category_value category ++ "'")
  | _ => ret filtered_items
  end.

Definition create_order (order_data : OrderCreate) : M State Order :=
  n <- gets next_order_id ;;
  new_order <-
    lift (ebind (call_kwargs [("id", VInt n); ("status", VStatus PENDING)]
                             (OrderCreate_dict order_data))
                Order_init) ;;
  n <- gets next_order_id ;;
  modify (set_orders_db (dict_set Z.eqb n new_order)) ;;;
  n <- gets next_order_id ;;
  modify (set_next_order_id (n + 1)) ;;;
  ret new_order.

(** [OrderSummaryResponse(id=..., customer_name=..., total_amount=...,
    status=...)] for every stored order, in dictionary order. *)
Fixpoint summaries (l : list Order) : Exc (list OrderSummaryResponse) :=
  match l with
  | [] => Ret []
  | order :: rest =>
      ebind (total_amount order) (fun t =>
      ebind (summaries rest) (fun tl =>
      Ret ({| summary_id := Orders.id order;
              customer_name := Orders.name (customer (as_OrderCreate order));
              summary_total_amount := t;
              summary_status := status order |} :: tl)))
  end.

Definition get_all_orders : M State (list OrderSummaryResponse) :=
  db <- gets orders_db ;;
  lift (summaries (dict_values db)).

Definition get_order_details (order_id : Z) : M State Order :=
  db <- gets orders_db ;;
  match dict_get Z.eqb order_id db with
  | None => not_found "Order not found"
  | Some order => ret order
  end.

Definition update_order_status (order_id : Z) (new_status : OrderStatus) : M State Order :=
  db <- gets orders_db ;;
  match dict_get Z.eqb order_id db with
  | None => not_found "Order not found"
  | Some order =>
      let order := {| as_OrderCreate := as_OrderCreate order;
                      Orders.id := Orders.id order;
                      status := new_status |} in
      modify (set_orders_db (dict_set Z.eqb order_id order)) ;;;
      ret order
  end.

(** ** [run_order_test_cases] *)

Definition customer_payload (name phone address : string) : PyVal :=
  VDict [("name", VStr name); ("phone", VStr phone); ("address", VStr address)].

Definition line_payload (menu_item_id : Z) (menu_item_name : string) (quantity : Z)
    (unit_price : string) : PyVal :=
  VDict [("menu_item_id", VInt menu_item_id); ("menu_item_name", VStr menu_item_name);
         ("quantity", VInt quantity); ("unit_price", VStr unit_price)].

Definition valid_order_payload : PyDict :=
  [("customer", customer_payload "Alice Smith" "5551234567" "123 Oak Street, Springfield");
   ("items", VList [line_payload 1 "Margherita Pizza" 1 "15.99";
                    line_payload 2 "Spicy Chicken Wings" 2 "12.50"])].

Definition empty_items_payload : PyDict :=
  [("customer", customer_payload "Bob Johnson" "5559876543" "456 Pine Ave");
   ("items", VList [])].

Definition invalid_phone_payload : PyDict :=
  [("customer", customer_payload "Charlie Brown" "123" "789 Cedar Rd");
   ("items", VList [line_payload 3 "Caesar Salad" 1 "8.75"])].

Definition large_quantity_payload : PyDict :=
  [("customer", customer_payload "Diana Prince" "5551112222" "101 Paradise Island");
   ("items", VList [line_payload 4 "Chocolate Lava Cake" 15 "7.99"])].

Definition invalid_menu_item_id_payload : PyDict :=
  [("customer", customer_payload "Eve Adams" "5553334444" "789 Fake Street");
   ("items", VList [line_payload 999 "Non Existent" 1 "10.00"])].

Definition price_mismatch_payload : PyDict :=
  [("customer", customer_payload "Frank Green" "5555556666" "888 Discount Lane");
   ("items", VList [line_payload 1 "Margherita Pizza" 1 "10.00"])].

Definition unavailable_item_payload : PyDict :=
  [("customer", customer_payload "Grace Hopper" "1234567890" "Code Alley");
   ("items", VList [line_payload 6 "Seasonal Soup" 1 "6.00"])].

Definition catches_HTTP_or_ValueError (e : PyExc) : bool :=
  is_HTTPException e || is_ValueError e.

(** The message of the two [except] clauses of a scenario:
    [e.detail] for an HTTPException, [str(e)] for a ValueError. *)
Definition caught_message (e : PyExc) : PyVal :=
  if is_HTTPException e then VDetailOf EmptyString (detail e) else str_exc e.

Definition assert {S} (b : bool) : M S unit :=
  if b then ret tt else raise AssertionError.

Definition valid_order_test (results : PyDict) : M State PyDict :=
  try_except
    (order_data <- lift (OrderCreate_init valid_order_payload) ;;
     response <- create_order order_data ;;
     let entry := [("status", VStr "PASS"); ("order_id", VInt (Orders.id response));
                   ("details", VDict (Order_dict response))] in
     if Orders.id response =? 1 then
       t <- lift (total_amount response) ;;
       assert (Dec.eqb t (mkDecimal 4099 (-2))) ;;;
       t <- lift (total_amount_with_delivery response) ;;
       assert (Dec.eqb t (mkDecimal 4398 (-2))) ;;;
       assert (total_items_count response =? 2) ;;;
       assert (total_quantity response =? 3) ;;;
       ret (kw_set "valid_order_test"
              (VDict (kw_set "computed_properties_verified" (VStr "PASS") entry)) results)
     else
       ret (kw_set "valid_order_test"
              (VDict (kw_set "computed_properties_verified"
                             (VStr "SKIPPED (not first order)") entry)) results))
    catches_HTTP_or_ValueError
    (fun e =>
       ret (kw_set "valid_order_test"
              (VDict [("status", VStr "FAIL");
                      ("message",
                       if is_HTTPException e
                       then VDetailOf "Unexpected HTTP error: " (detail e)
                       else VStrOf "Unexpected validation error: " e)])
              results)).

(** A scenario that expects the order to be refused. *)
Definition refusal_test (key : string) (payload : PyDict) (fail_message : string)
    (results : PyDict) : M State PyDict :=
  try_except
    (order_data <- lift (OrderCreate_init payload) ;;
     create_order order_data ;;;
     ret (kw_set key (VDict [("status", VStr "FAIL"); ("message", VStr fail_message)])
                 results))
    catches_HTTP_or_ValueError
    (fun e =>
       ret (kw_set key (VDict [("status", VStr "PASS"); ("message", caught_message e)])
                   results)).

(** [results[key][field]] *)
Definition entry_field (results : PyDict) (key field : string) : option PyVal :=
  match kw_get key results with
  | Some (VDict d) => kw_get field d
  | _ => None
  end.

Definition status_update_test (results : PyDict) : M State PyDict :=
  match entry_field results "valid_order_test" "status",
        entry_field results "valid_order_test" "order_id" with
  | Some (VStr "PASS"), Some (VInt order_id_to_update) =>
      try_except
        (updated_order <- update_order_status order_id_to_update CONFIRMED ;;
         if status_eqb (status updated_order) CONFIRMED
         then ret (kw_set "status_update_test"
                     (VDict [("status", VStr "PASS");
                             ("new_status", VStatus (status updated_order))]) results)
         else ret (kw_set "status_update_test"
                     (VDict [("status", VStr "FAIL");
                             ("message", VStr "Status not updated correctly.")]) results))
        is_HTTPException
        (fun e =>
           ret (kw_set "status_update_test"
                  (VDict [("status", VStr "FAIL");
                          ("message",
                           VDetailOf "HTTP error during status update: " (detail e))])
                  results))
  | _, _ =>
      ret (kw_set "status_update_test"
             (VDict [("status", VStr "SKIPPED");
                     ("message", VStr "Valid order not created for update test.")])
             results)
  end.

Definition run_order_test_cases : M State PyDict :=
  let results := [] in
  results <- valid_order_test results ;;
  results <- refusal_test "empty_items_test" empty_items_payload
               "Order with empty items should have failed." results ;;
  results <- refusal_test "invalid_phone_test" invalid_phone_payload
               "Order with invalid phone should have failed." results ;;
  results <- refusal_test "large_quantity_test" large_quantity_payload
               "Order with large quantity should have failed." results ;;
  results <- status_update_test results ;;
  results <- refusal_test "invalid_menu_item_id_test" invalid_menu_item_id_payload
               "Order with non-existent menu item should have failed." results ;;
  results <- refusal_test "price_mismatch_test" price_mismatch_payload
               "Order with price mismatch should have failed." results ;;
  results <- refusal_test "unavailable_item_test" unavailable_item_payload
               "Order with unavailable item should have failed." results ;;
  ret results.

(** ** The routes *)
Inductive Request :=
| GET_root
| POST_menu (body : PyDict)
| GET_menu
| GET_menu_item (item_id : Z)
| PUT_menu_item (item_id : Z) (body : PyDict)
| DELETE_menu_item (item_id : Z)
| GET_menu_category (category : FoodCategory)
| POST_orders (body : PyDict)
| GET_orders
| GET_order (order_id : Z)
| PUT_order_status (order_id : Z) (new_status : OrderStatus)
| GET_run_order_tests.

(** The answer of a route declared with [response_model=OrderResponse]
    whose handler returned [o]; the globals are those the handler
    left. *)
Definition respond_order (o : Order) : M State Payload :=
  r <- lift (OrderResponse_of o) ;; ret (OrderAnswer r).

Definition route (r : Request) : M State Payload :=
  match r with
  | GET_root => m <- read_root ;; ret (Message m)
  | POST_menu body =>
      item <- lift (parse_body FoodItemCreate_init body) ;;
      i <- add_menu_item item ;; ret (Item i)
  | GET_menu => l <- get_all_menu_items ;; ret (Items l)
  | GET_menu_item item_id => i <- get_menu_item item_id ;; ret (Item i)
  | PUT_menu_item item_id body =>
      updated_item <- lift (parse_body FoodItemCreate_init body) ;;
      i <- update_menu_item item_id updated_item ;; ret (Item i)
  | DELETE_menu_item item_id => m <- delete_menu_item item_id ;; ret (Message m)
  | GET_menu_category category => l <- get_items_by_category category ;; ret (Items l)
  | POST_orders body =>
      order_data <- lift (parse_body OrderCreate_init body) ;;
      o <- create_order order_data ;; respond_order o
  | GET_orders => l <- get_all_orders ;; ret (Summaries l)
  | GET_order order_id => o <- get_order_details order_id ;; respond_order o
  | PUT_order_status order_id new_status =>
      o <- update_order_status order_id new_status ;; respond_order o
  | GET_run_order_tests => r <- run_order_test_cases ;; ret (Results r)
  end.

Fixpoint serve (reqs : list Request) (st : State) : list (Exc Payload) * State :=
  match reqs with
  | [] => ([], st)
  | r :: rest =>
      let (a, st') := route r st in
      let (answers, st'') := serve rest st' in
      (a :: answers, st'')
  end.

End RestaurantChainTwoTables.

(* ================================================================= *)
(** * Vocabulary of the statements *)

Module Rules.
Import Str Menu.

(** The structural rule on a price as the models enforce it: more than
    zero, and at most two decimal places once the value is normalised
    (rounded to the context, trailing zeros dropped). *)
Definition price_structural (d : Decimal) : bool :=
  (Dec.decimal_places d <=? 2) && (0 <? coeff d).



(** The band rule: between 1.00 and 100.00, both included. *)
Definition price_in_band (d : Decimal) : bool :=
  Dec.leb (mkDecimal 100 (-2)) d && Dec.leb d (mkDecimal 10000 (-2)).

(** The name rule as the specification words it: once trimmed, 3 to 100
    characters, letters and white space only. *)
Definition name_rule (s : string) : Prop :=
  3 <= len (strip s) <= 100 /\ all_chars name_class s = true.

(** The field rules on the values of a record. *)
Definition satisfies_rules (m : FoodItemCreate) : Prop :=
  (3 <= len (name m) <= 100 /\ name_pattern (name m) = true)
  /\ 10 <= len (description m) <= 500
  /\ (price_structural (price m) = true /\ price_in_band (price m) = true)
  /\ 1 <= preparation_time m <= 120
  /\ ingredients m <> []
  /\ (forall n, calories m = Some n -> 0 < n).

(** What [validate_fields] guarantees of the record it builds: the
    rules above, except that the length of the name was measured on the
    submitted text [raw], before [strip]. *)
Definition validated (m : FoodItemCreate) : Prop :=
  (exists raw, 3 <= len raw <= 100 /\ name_pattern raw = true /\ name m = strip raw)
  /\ 10 <= len (description m) <= 500
  /\ (price_structural (price m) = true /\ price_in_band (price m) = true)
  /\ 1 <= preparation_time m <= 120
  /\ ingredients m <> []
  /\ (forall n, calories m = Some n -> 0 < n).

(** The record with every field marked as supplied, as it comes out of
    [FoodItem(id=..., **item_data.dict())]. *)
Definition all_set (m : FoodItemCreate) : FoodItemCreate :=
  {| name := name m; description := description m; category := category m;
     price := price m; is_available := is_available m;
     preparation_time := preparation_time m; ingredients := ingredients m;
     calories := calories m; is_vegetarian := is_vegetarian m;
     is_spicy := is_spicy m; model_fields_set := field_names |}.

(** The structural constraints on an order line, on a customer and on
    an order payload. *)
Definition line_ok (i : Orders.OrderItem) : Prop :=
  0 < Orders.menu_item_id i
  /\ 1 <= len (Orders.menu_item_name i) <= 100
  /\ 1 <= Orders.quantity i <= 10
  /\ price_structural (Orders.unit_price i) = true.

Definition customer_ok (c : Orders.Customer) : Prop :=
  2 <= len (Orders.name c) <= 50
  /\ phone_pattern (Orders.phone c) = true
  /\ 5 <= len (Orders.address c).

Definition order_ok (oc : Orders.OrderCreate) : Prop :=
  customer_ok (Orders.customer oc)
  /\ Orders.items oc <> []
  /\ Forall line_ok (Orders.items oc).

(** The decimal places needed to write every unit price of the lines,
    and the delivery fee: two at least. *)
Definition places (l : list Orders.OrderItem) : Z :=
  fold_right (fun i s => Z.max s (- exp (Orders.unit_price i))) 2 l.

(** The exact amounts of an order, in units of [10 ^ (- s)]. *)
Definition line_amount (s : Z) (i : Orders.OrderItem) : Z :=
  Orders.quantity i * Dec.scaled s (Orders.unit_price i).

Definition amount_at (s : Z) (l : list Orders.OrderItem) : Z :=
  fold_right Z.add 0 (map (line_amount s) l).

Definition sum_quantities (l : list Orders.OrderItem) : Z :=
  fold_right Z.add 0 (map Orders.quantity l).

(** The four derived totals of an order are the exact ones: the sum of
    quantity times unit price, that sum plus 2.99, the number of lines
    and the sum of the quantities.  Amounts are compared in units of
    [10 ^ (- s)], [s] being the decimal places of the lines, which is
    faithful for a Decimal of exponent [- s] or more. *)
Definition totals_exact (o : Orders.Order) : Prop :=
  let lines := Orders.items (Orders.as_OrderCreate o) in
  let s := places lines in
  exists t td,
    Orders.total_amount o = Ret t /\ - s <= exp t
    /\ Dec.scaled s t = amount_at s lines
    /\ Orders.total_amount_with_delivery o = Ret td /\ - s <= exp td
    /\ Dec.scaled s td = Dec.scaled s t + 299 * 10 ^ (s - 2)
    /\ Orders.total_items_count o = Z.of_nat (List.length lines)
    /\ Orders.total_quantity o = sum_quantities lines.

(** The lines can be added up without rounding: no unit price has more
    decimal places than the context can hold, and the exact amount with
    the delivery fee, written with the decimal places of the lines, has
    at most 28 digits. *)
Definition within_context (l : list Orders.OrderItem) : Prop :=
  places l <= - Dec.Etiny
  /\ amount_at (places l) l + 299 * 10 ^ (places l - 2) < 10 ^ 28.

(** A string that does not start with white space. *)
Definition starts_clean (s : string) : Prop :=
  match s with
  | EmptyString => True
  | String c _ => isspace c = false
  end.


End Rules.

(** The order payloads of [run_order_test_cases] that the models accept,
    as the models build them. *)
Module Demo.
Import Orders.

Definition line (menu_item_id : Z) (menu_item_name : string) (quantity : Z)
    (unit_price : Decimal) : OrderItem :=
  {| menu_item_id := menu_item_id; menu_item_name := menu_item_name;
     quantity := quantity; unit_price := unit_price |}.

Definition valid_order : OrderCreate :=
  {| customer := {| name := "Alice Smith"; phone := "5551234567";
                    address := "123 Oak Street, Springfield" |};
     items := [line 1 "Margherita Pizza" 1 (mkDecimal 1599 (-2));
               line 2 "Spicy Chicken Wings" 2 (mkDecimal 1250 (-2))] |}.

Definition invalid_menu_item_id : OrderCreate :=
  {| customer := {| name := "Eve Adams"; phone := "5553334444";
                    address := "789 Fake Street" |};
     items := [line 999 "Non Existent" 1 (mkDecimal 1000 (-2))] |}.

Definition price_mismatch : OrderCreate :=
  {| customer := {| name := "Frank Green"; phone := "5555556666";
                    address := "888 Discount Lane" |};
     items := [line 1 "Margherita Pizza" 1 (mkDecimal 1000 (-2))] |}.

Definition unavailable_item : OrderCreate :=
  {| customer := {| name := "Grace Hopper"; phone := "1234567890";
                    address := "Code Alley" |};
     items := [line 6 "Seasonal Soup" 1 (mkDecimal 600 (-2))] |}.

End Demo.

(** The steps and the invariants of the menu service. *)
Module RCSem.
Import Str Menu Rules Http RestaurantChain.

(** What the interpreter raises for a call that names [id] twice. *)
Definition id_clash : PyExc :=
  TypeError "got multiple values for keyword argument 'id'".

(** What [FoodItem(...)] raises for a name of fewer than three
    characters. *)
Definition name_too_short : PyExc :=
  ValidationError "FoodItem" [([LKey "name"], "string_too_short")].

(** The globals after a creation that stored [new_item]. *)
Definition stored_as (new_item : FoodItem) (st : State) : State :=
  {| menu_db := dict_set Z.eqb (last_item_id st + 1) new_item (menu_db st);
     last_item_id := last_item_id st + 1 |}.

(** What one request can do to the globals of the menu service. *)
Inductive step (st : State) : State -> Prop :=
| step_same : step st st
| step_skip : step st (set_last_item_id (last_item_id st + 1) st)
| step_add (m : FoodItemCreate) :
    validated m -> 3 <= len (name m) ->
    step st (stored_as {| as_FoodItemCreate := all_set m; id := last_item_id st + 1 |} st)
| step_del (k : Z) : step st (set_menu_db (dict_del Z.eqb k) st).

(** A menu entry: the item obeys the field rules, its name is trimmed,
    and it sits under its own id. *)
Definition entry_ok (kv : Z * FoodItem) : Prop :=
  satisfies_rules (as_FoodItemCreate (snd kv))
  /\ strip (name (as_FoodItemCreate (snd kv))) = name (as_FoodItemCreate (snd kv))
  /\ id (snd kv) = fst kv.

(** Every stored item obeys the field rules and is stored under its own
    id, and no stored id is beyond the counter. *)
Definition inv (st : State) : Prop :=
  Forall entry_ok (menu_db st)
  /\ Forall (fun kv => fst kv <= last_item_id st) (menu_db st).

End RCSem.

(** The steps and the invariants of the order service. *)
Module TTSem.
Import Str Menu Orders Rules Http RestaurantChainTwoTables.

(** The globals after a creation that stored [new_item]. *)
Definition stored_as (new_item : FoodItem) (st : State) : State :=
  set_next_menu_id (next_menu_id st + 1)
    (set_menu_db (dict_set Z.eqb (next_menu_id st) new_item) st).

(** The order that [create_order] builds from a payload. *)
Definition pending (oc : OrderCreate) (n : Z) : Order :=
  {| as_OrderCreate := oc; Orders.id := n; status := PENDING |}.

(** The globals after [create_order] stored the order of [oc]. *)
Definition placed (oc : OrderCreate) (st : State) : State :=
  set_next_order_id (next_order_id st + 1)
    (set_orders_db (dict_set Z.eqb (next_order_id st) (pending oc (next_order_id st))) st).

(** The order with another status, as [update_order_status] sets it. *)
Definition with_status (o : Order) (s : OrderStatus) : Order :=
  {| as_OrderCreate := as_OrderCreate o; Orders.id := Orders.id o; status := s |}.

(** The answer of a route declared with [response_model=OrderResponse]
    whose handler returned [o]. *)
Definition answer_of (o : Order) : Exc Payload :=
  match OrderResponse_of o with
  | Ret r => Ret (OrderAnswer r)
  | Raise e => Raise e
  end.

(** The entry of the first scenario when the order got id [n]. *)
Definition valid_order_entry (n : Z) : PyDict :=
  [("status", VStr "PASS"); ("order_id", VInt n);
   ("details", VDict (Order_dict (pending Demo.valid_order n)));
   ("computed_properties_verified",
    VStr (if n =? 1 then "PASS" else "SKIPPED (not first order)"))].

(** The globals after the status of order [n] was set to CONFIRMED. *)
Definition confirmed (oc : OrderCreate) (n : Z) (st : State) : State :=
  set_orders_db (dict_set Z.eqb n (with_status (pending oc n) CONFIRMED)) st.

(** The globals after the whole of [run_order_test_cases]: four orders
    created, the first of them confirmed. *)
Definition after_tests (st : State) : State :=
  placed Demo.unavailable_item
    (placed Demo.price_mismatch
       (placed Demo.invalid_menu_item_id
          (confirmed Demo.valid_order (next_order_id st)
             (placed Demo.valid_order st)))).

(** The two shapes of a scenario entry. *)
Definition failed (msg : string) : PyVal :=
  VDict [("status", VStr "FAIL"); ("message", VStr msg)].

Definition passed (e : PyExc) : PyVal :=
  VDict [("status", VStr "PASS"); ("message", str_exc e)].

(** The report of [run_order_test_cases], started when the next order
    id is [n]. *)
Definition report (n : Z) : PyDict :=
  [("valid_order_test", VDict (valid_order_entry n));
   ("empty_items_test",
    passed (ValidationError "OrderCreate" [([LKey "items"], "too_short")]));
   ("invalid_phone_test",
    passed (ValidationError "OrderCreate"
              [([LKey "customer"; LKey "phone"], "string_pattern_mismatch")]));
   ("large_quantity_test",
    passed (ValidationError "OrderCreate"
              [([LKey "items"; LIdx 0; LKey "quantity"], "less_than_equal")]));
   ("status_update_test",
    VDict [("status", VStr "PASS"); ("new_status", VStatus CONFIRMED)]);
   ("invalid_menu_item_id_test",
    failed "Order with non-existent menu item should have failed.");
   ("price_mismatch_test", failed "Order with price mismatch should have failed.");
   ("unavailable_item_test", failed "Order with unavailable item should have failed.")].

(** What one handler call can do to the globals of the order service. *)
Inductive step (st : State) : State -> Prop :=
| step_same : step st st
| step_add (m : FoodItemCreate) :
    validated m -> 3 <= len (Menu.name m) ->
    step st (stored_as {| as_FoodItemCreate := all_set m; Menu.id := next_menu_id st |} st)
| step_del (k : Z) : step st (set_menu_db (dict_del Z.eqb k) st)
| step_place (oc : OrderCreate) : order_ok oc -> step st (placed oc st)
| step_status (k : Z) (o : Order) (s : OrderStatus) :
    dict_get Z.eqb k (orders_db st) = Some o ->
    step st (set_orders_db (dict_set Z.eqb k (with_status o s)) st).

(** One request may take several steps ([run_order_test_cases]). *)
Inductive steps (st : State) : State -> Prop :=
| steps_nil : steps st st
| steps_cons (st1 st2 : State) : step st st1 -> steps st1 st2 -> steps st st2.

(** Every stored item obeys the field rules and sits under its own id,
    below the counter; every stored order obeys the structural
    constraints. *)
Definition inv (st : State) : Prop :=
  Forall RCSem.entry_ok (menu_db st)
  /\ Forall (fun kv => fst kv < next_menu_id st) (menu_db st)
  /\ Forall (fun kv => order_ok (as_OrderCreate (snd kv))) (orders_db st).

End TTSem.

(** The statements of the menu claims. *)
Module MenuClaims.
Import Str Menu Rules Http.

(** A request body that carries the price and nothing else. *)
Definition price_only (p : Decimal) : PyDict := [("price", VDec p)].

(** Two records that agree on every field but the price. *)
Definition same_but_price (a b : FoodItemCreate) : Prop :=
  name a = name b /\ description a = description b /\ category a = category b
  /\ is_available a = is_available b /\ preparation_time a = preparation_time b
  /\ ingredients a = ingredients b /\ calories a = calories b
  /\ is_vegetarian a = is_vegetarian b /\ is_spicy a = is_spicy b.

(** Updating the price alone succeeds on item [i] of the menu service:
    the answer is the merged item, it is stored under [i], it has the
    new price and the old values everywhere else, and it obeys the
    field rules. *)
Definition price_update_succeeds (st : RestaurantChain.State) (i : Z) (p : Decimal) : Prop :=
  forall stored,
    dict_get Z.eqb i (RestaurantChain.menu_db st) = Some stored ->
    exists updated st',
      RestaurantChain.route (RestaurantChain.PUT_menu_item i (price_only p)) st
      = (Ret (Item updated), st')
      /\ dict_get Z.eqb i (RestaurantChain.menu_db st') = Some updated
      /\ id updated = i
      /\ price (as_FoodItemCreate updated) = p
      /\ same_but_price (as_FoodItemCreate updated) (as_FoodItemCreate stored)
      /\ satisfies_rules (as_FoodItemCreate updated).

(** The entries that report the five required fields a price-only body
    lacks. *)
Definition missing_required : list ErrorEntry :=
  [([LKey "name"], "missing"); ([LKey "description"], "missing");
   ([LKey "category"], "missing"); ([LKey "preparation_time"], "missing");
   ([LKey "ingredients"], "missing")].

(** [existing_item_data] of [update_menu_item] once the loop has run. *)
Definition merged_item_data (stored : FoodItem) (updated_item : FoodItemCreate) : PyDict :=
  dict_update String.eqb (FoodItem_dict stored)
              (FoodItemCreate_dict_exclude_unset updated_item).

(** The fields a body may leave out. *)
Definition optional_fields : list string :=
  ["is_available"; "calories"; "is_vegetarian"; "is_spicy"].

(** What the menu service does with a price-only update of item [i],
    stored as [stored]: the body is refused with the five missing
    fields (status 422) and the item stays as it was.  A body that the
    model accepts is merged field by field: an optional field it leaves
    out keeps its stored value in the merged data, and so does [id]. *)
Definition price_only_refused (st : RestaurantChain.State) (i : Z) (p : Decimal)
    (stored : FoodItem) : Prop :=
  let request := RestaurantChain.PUT_menu_item i (price_only p) in
  RestaurantChain.route request st = (Raise (RequestValidationError missing_required), st)
  /\ status_code 200 (fst (RestaurantChain.route request st)) = 422
  /\ dict_get Z.eqb i (RestaurantChain.menu_db (snd (RestaurantChain.route request st)))
     = Some stored
  /\ (forall body updated_item f,
        FoodItemCreate_init body = Ret updated_item ->
        In f optional_fields -> kw_mem f body = false ->
        kw_get f (merged_item_data stored updated_item) = kw_get f (FoodItem_dict stored))
  /\ (forall body updated_item,
        FoodItemCreate_init body = Ret updated_item ->
        kw_get "id" (merged_item_data stored updated_item) = Some (VInt (id stored))).

(** The first seed item as the menu service stores it. *)
Definition seed_pizza : FoodItem :=
  {| as_FoodItemCreate :=
       {| name := "Margherita Pizza";
          description := "Classic Pizza with tomato sauce, mozzarella cheese, and fresh basil";
          category := MAIN_COURSE;
          price := mkDecimal 1599 (-2); is_available := true; preparation_time := 20;
          ingredients := ["pizza dough"; "tomato sauce"; "mozzarella"; "basil"; "olive oil"];
          calories := Some 650; is_vegetarian := true; is_spicy := false;
          model_fields_set := field_names |};
     id := 1 |}.

(** A creation body for the Margherita Pizza of the specification, with
    a description [d]. *)
Definition margherita (d : string) : PyDict :=
  [("name", VStr "Margherita Pizza");
   ("description", VStr d);
   ("category", VCat MAIN_COURSE);
   ("price", VDec (mkDecimal 1599 (-2)));
   ("preparation_time", VInt 20);
   ("ingredients", Samples.strs ["pizza dough"; "tomato sauce"; "mozzarella"; "basil";
                                 "olive oil"]);
   ("calories", VInt 650);
   ("is_vegetarian", VBool true)].

(** The record the models build from [margherita d]. *)
Definition margherita_record (d : string) (set : list string) : FoodItemCreate :=
  {| name := "Margherita Pizza"; description := d; category := MAIN_COURSE;
     price := mkDecimal 1599 (-2); is_available := true; preparation_time := 20;
     ingredients := ["pizza dough"; "tomato sauce"; "mozzarella"; "basil"; "olive oil"];
     calories := Some 650; is_vegetarian := true; is_spicy := false;
     model_fields_set := set |}.









(** Creating the Margherita Pizza with description [d] and reading it
    back by the id of the answer. *)
Definition margherita_round_trip (st : RestaurantChain.State) (d : string) : Prop :=
  exists item st',
    RestaurantChain.route (RestaurantChain.POST_menu (margherita d)) st
    = (Ret (Item item), st')
    /\ RestaurantChain.route (RestaurantChain.GET_menu_item (id item)) st'
       = (Ret (Item item), st')
    /\ as_FoodItemCreate item = margherita_record d field_names
    /\ price_category (as_FoodItemCreate item) = "Mid-range"
    /\ dietary_info (as_FoodItemCreate item) = ["Vegetarian"].

(** The body of the update that shows the defect of [update_menu_item]:
    the first seed item with the name [" a "]. *)
Definition short_name_body : PyDict :=
  kw_set "name" (VStr " a ") Samples.margherita_pizza.

End MenuClaims.

(** The statements about what the two stores hold over time. *)
Module StoreClaims.
Import Str Menu Rules Http.

(** An item that is in the menu of one of the services at some time:
    once the module is imported, and after any sequence of requests. *)
Inductive in_some_menu (item : FoodItem) : Prop :=
| in_menu_service (reqs : list RestaurantChain.Request) (k : Z) :
    In (k, item)
       (RestaurantChain.menu_db (snd (RestaurantChain.serve reqs RestaurantChain.initial))) ->
    in_some_menu item
| in_order_service (reqs : list RestaurantChainTwoTables.Request) (k : Z) :
    In (k, item)
       (RestaurantChainTwoTables.menu_db
          (snd (RestaurantChainTwoTables.serve reqs RestaurantChainTwoTables.initial))) ->
    in_some_menu item.

(** One of the services answered the creation body with [item]. *)
Inductive created_from (body : PyDict) (item : FoodItem) : Prop :=
| created_by_menu_service (st st' : RestaurantChain.State) :
    RestaurantChain.route (RestaurantChain.POST_menu body) st = (Ret (Item item), st') ->
    created_from body item
| created_by_order_service (st st' : RestaurantChainTwoTables.State) :
    RestaurantChainTwoTables.route (RestaurantChainTwoTables.POST_menu body) st
    = (Ret (Item item), st') ->
    created_from body item.

(** Every name in a menu obeys the name rule, and the name stored for
    an accepted creation body is the trimmed name of the body. *)
Definition names_obey_rule : Prop :=
  (forall item, in_some_menu item -> name_rule (name (as_FoodItemCreate item)))
  /\ (forall body item,
        created_from body item ->
        exists raw, kw_get "name" body = Some (VStr raw)
                    /\ name (as_FoodItemCreate item) = strip raw
                    /\ name_rule (strip raw)).

(** The ids the menu service assigned during a run: one for each
    creation request that was answered with the created item. *)
Fixpoint rc_assigned (reqs : list RestaurantChain.Request) (answers : list (Exc Payload))
    : list Z :=
  match reqs, answers with
  | RestaurantChain.POST_menu _ :: reqs', Ret (Item item) :: answers' =>
      id item :: rc_assigned reqs' answers'
  | _ :: reqs', _ :: answers' => rc_assigned reqs' answers'
  | _, _ => []
  end.

(** The same for the menu routes of the order service. *)
Fixpoint tt_assigned (reqs : list RestaurantChainTwoTables.Request)
    (answers : list (Exc Payload)) : list Z :=
  match reqs, answers with
  | RestaurantChainTwoTables.POST_menu _ :: reqs', Ret (Item item) :: answers' =>
      id item :: tt_assigned reqs' answers'
  | _ :: reqs', _ :: answers' => tt_assigned reqs' answers'
  | _, _ => []
  end.

(** Ids are assigned in strictly increasing order, beyond the counter
    the run started from, whatever requests come in between; after
    import, this continues the ids of the seed items. *)
Definition ids_never_reused : Prop :=
  (forall reqs st,
      let ids := rc_assigned reqs (fst (RestaurantChain.serve reqs st)) in
      StronglySorted Z.lt ids
      /\ Forall (fun i => RestaurantChain.last_item_id st < i) ids)
  /\ (forall reqs st,
        let ids := tt_assigned reqs (fst (RestaurantChainTwoTables.serve reqs st)) in
        StronglySorted Z.lt ids
        /\ Forall (fun i => RestaurantChainTwoTables.next_menu_id st <= i) ids)
  /\ (forall reqs,
        StronglySorted Z.lt
          (dict_keys (RestaurantChain.menu_db RestaurantChain.initial)
           ++ rc_assigned reqs (fst (RestaurantChain.serve reqs RestaurantChain.initial)))%list)
  /\ (forall reqs,
        StronglySorted Z.lt
          (dict_keys (RestaurantChainTwoTables.menu_db RestaurantChainTwoTables.initial)
           ++ tt_assigned reqs
                (fst (RestaurantChainTwoTables.serve reqs
                        RestaurantChainTwoTables.initial)))%list).

End StoreClaims.

(** The statements of the order claims. *)
Module OrderClaims.
Import Orders Rules Http RestaurantChainTwoTables.



(** An order with one line of quantity 10 and unit price 1E+999999. *)
Definition overflowing_payload : OrderCreate :=
  {| customer := {| name := "Alice Smith"; phone := "5551234567";
                    address := "123 Oak Street, Springfield" |};
     items := [{| menu_item_id := 1; menu_item_name := "Margherita Pizza"; quantity := 10;
                  unit_price := mkDecimal 1 999999 |}] |}.

(** [results[key]["status"]] is the given text. *)
Definition reported (results : PyDict) (key status : string) : Prop :=
  entry_field results key "status" = Some (VStr status).

(** The scenarios of the two demonstration endpoints that exercise a
    rule the models do not have: each payload is built without error
    and each scenario is reported as FAIL, from any state. *)
Definition unenforced_rules_reported_failed : Prop :=
  (exists a b c,
      Menu.FoodItemCreate_init RestaurantChain.invalid_category_spicy_item = Ret a
      /\ Menu.FoodItemCreate_init RestaurantChain.high_cal_veg_item = Ret b
      /\ Menu.FoodItemCreate_init RestaurantChain.long_prep_beverage = Ret c)
  /\ (forall st, exists results,
        RestaurantChain.route RestaurantChain.GET_test_cases st = (Ret (Results results), st)
        /\ reported results "invalid_category_spicy_test" "FAIL"
        /\ reported results "high_cal_veg_test" "FAIL"
        /\ reported results "long_prep_beverage_test" "FAIL")
  /\ (forall st, exists a b c,
        OrderCreate_init invalid_menu_item_id_payload = Ret a
        /\ OrderCreate_init price_mismatch_payload = Ret b
        /\ OrderCreate_init unavailable_item_payload = Ret c
        /\ (exists o, fst (create_order a st) = Ret o)
        /\ (exists o, fst (create_order b st) = Ret o)
        /\ (exists o, fst (create_order c st) = Ret o))
  /\ (forall st, exists results st',
        route GET_run_order_tests st = (Ret (Results results), st')
        /\ reported results "invalid_menu_item_id_test" "FAIL"
        /\ reported results "price_mismatch_test" "FAIL"
        /\ reported results "unavailable_item_test" "FAIL").

(** An order that is in the order store at some time. *)
Definition stored_order (o : Order) : Prop :=
  exists reqs k, In (k, o) (orders_db (snd (serve reqs initial))).

(** The order of the specification's example: lines (1, 15.99) and
    (2, 12.50). *)
Definition example_lines (o : Order) : Prop :=
  map (fun i => (quantity i, unit_price i)) (items (as_OrderCreate o))
  = [(1, mkDecimal 1599 (-2)); (2, mkDecimal 1250 (-2))].

Definition example_totals (o : Order) : Prop :=
  total_amount o = Ret (mkDecimal 4099 (-2))
  /\ total_amount_with_delivery o = Ret (mkDecimal 4398 (-2))
  /\ total_items_count o = 2
  /\ total_quantity o = 3.

(** A payload within the structural constraints whose only line has a
    unit price of 29 digits. *)
Definition wide_payload : OrderCreate :=
  {| customer := {| name := "Alice Smith"; phone := "5551234567";
                    address := "123 Oak Street, Springfield" |};
     items := [{| menu_item_id := 1; menu_item_name := "Margherita Pizza"; quantity := 1;
                  unit_price := mkDecimal 10000000000000000000000000001 0 |}] |}.

Definition wide_order : Order :=
  {| as_OrderCreate := wide_payload; Orders.id := 1; status := PENDING |}.

(** An order with one line of quantity 2 at a unit price written with
    three decimal places, 7.990. *)
Definition three_place_payload : OrderCreate :=
  {| customer := {| name := "Alice Smith"; phone := "5551234567";
                    address := "123 Oak Street, Springfield" |};
     items := [{| menu_item_id := 4; menu_item_name := "Chocolate Lava Cake"; quantity := 2;
                  unit_price := mkDecimal 7990 (-3) |}] |}.

Definition three_place_order : Order :=
  {| as_OrderCreate := three_place_payload; Orders.id := 1; status := PENDING |}.

(** The first order of [run_order_test_cases] as it is stored. *)
Definition first_demo_order : Order :=
  {| as_OrderCreate := Demo.valid_order; Orders.id := 1; status := PENDING |}.

End OrderClaims.

(** The statement that the two services answer menu requests alike. *)
Module Equivalence.
Import Menu Http.

(** The menu requests that both services accept. *)
Inductive MenuRequest :=
| List_all
| Get (item_id : Z)
| Create (body : PyDict)
| Update (item_id : Z) (body : PyDict)
| Delete (item_id : Z)
| By_category (category : FoodCategory).

Definition to_menu_service (r : MenuRequest) : RestaurantChain.Request :=
  match r with
  | List_all => RestaurantChain.GET_menu
  | Get i => RestaurantChain.GET_menu_item i
  | Create b => RestaurantChain.POST_menu b
  | Update i b => RestaurantChain.PUT_menu_item i b
  | Delete i => RestaurantChain.DELETE_menu_item i
  | By_category c => RestaurantChain.GET_menu_category c
  end.

Definition to_order_service (r : MenuRequest) : RestaurantChainTwoTables.Request :=
  match r with
  | List_all => RestaurantChainTwoTables.GET_menu
  | Get i => RestaurantChainTwoTables.GET_menu_item i
  | Create b => RestaurantChainTwoTables.POST_menu b
  | Update i b => RestaurantChainTwoTables.PUT_menu_item i b
  | Delete i => RestaurantChainTwoTables.DELETE_menu_item i
  | By_category c => RestaurantChainTwoTables.GET_menu_category c
  end.

(** Equal menus, and counters that will assign the same next id. *)
Definition equally_positioned (st1 : RestaurantChain.State)
    (st2 : RestaurantChainTwoTables.State) : Prop :=
  RestaurantChain.menu_db st1 = RestaurantChainTwoTables.menu_db st2
  /\ RestaurantChain.last_item_id st1 + 1 = RestaurantChainTwoTables.next_menu_id st2.

(** The two services give the same answers to the requests and end
    with the same menu. *)
Definition same_behaviour (st1 : RestaurantChain.State)
    (st2 : RestaurantChainTwoTables.State) (reqs : list MenuRequest) : Prop :=
  fst (RestaurantChain.serve (map to_menu_service reqs) st1)
  = fst (RestaurantChainTwoTables.serve (map to_order_service reqs) st2)
  /\ RestaurantChain.menu_db (snd (RestaurantChain.serve (map to_menu_service reqs) st1))
     = RestaurantChainTwoTables.menu_db
         (snd (RestaurantChainTwoTables.serve (map to_order_service reqs) st2)).

(** The menu service after it created and deleted the Seasonal Soup,
    and the order service after it deleted its Seasonal Soup: the five
    common seed items, next id 7 in both. *)
Definition menu_service_at_7 : RestaurantChain.State :=
  snd (RestaurantChain.serve
         [RestaurantChain.POST_menu Samples.seasonal_soup;
          RestaurantChain.DELETE_menu_item 6]
         RestaurantChain.initial).

Definition order_service_at_7 : RestaurantChainTwoTables.State :=
  snd (RestaurantChainTwoTables.serve [RestaurantChainTwoTables.DELETE_menu_item 6]
         RestaurantChainTwoTables.initial).

(** A creation whose name the model accepts and whose trimmed name the
    store refuses, followed by the creation of a seed item. *)
Definition diverging_requests : list MenuRequest :=
  [Create MenuClaims.short_name_body; Create Samples.margherita_pizza].

(** The ids in a list of answers. *)
Definition answered_ids (answers : list (Exc Payload)) : list (option Z) :=
  map (fun a => match a with Ret (Item i) => Some (id i) | _ => None end) answers.

End Equivalence.

(** The statements of the further properties. *)
Module Further.
Import Str Menu Rules Http.

(** A well-formed menu: every id occurs once, and every item sits under
    its own id, has every field marked as supplied, obeys the field
    rules and has a trimmed name. *)
Definition item_wf (kv : Z * FoodItem) : Prop :=
  id (snd kv) = fst kv
  /\ model_fields_set (as_FoodItemCreate (snd kv)) = field_names
  /\ satisfies_rules (as_FoodItemCreate (snd kv))
  /\ strip (name (as_FoodItemCreate (snd kv))) = name (as_FoodItemCreate (snd kv)).

Definition menu_wf (db : list (Z * FoodItem)) : Prop :=
  NoDup (dict_keys db) /\ Forall item_wf db.

(** A state the menu service can be in: the imported state, after any
    sequence of requests. *)
Definition rc_reachable (st : RestaurantChain.State) : Prop :=
  exists reqs, st = snd (RestaurantChain.serve reqs RestaurantChain.initial).

(** The same for the order service. *)
Definition tt_reachable (st : RestaurantChainTwoTables.State) : Prop :=
  exists reqs, st = snd (RestaurantChainTwoTables.serve reqs RestaurantChainTwoTables.initial).

(** A well-formed order store: every id occurs once, below the counter,
    and every order sits under its own id and obeys the structural
    constraints. *)
Definition order_wf (next : Z) (kv : Z * Orders.Order) : Prop :=
  Orders.id (snd kv) = fst kv /\ fst kv < next
  /\ order_ok (Orders.as_OrderCreate (snd kv)).

Definition orders_wf (st : RestaurantChainTwoTables.State) : Prop :=
  NoDup (dict_keys (RestaurantChainTwoTables.orders_db st))
  /\ Forall (order_wf (RestaurantChainTwoTables.next_order_id st))
            (RestaurantChainTwoTables.orders_db st).

End Further.

(** Statements about the stores as a whole. *)
Module Invariants.
Import Str Menu Rules Http Further.

(** At any time the menu of either service is well formed and holds no
    id beyond the counter. *)
Definition menus_well_formed : Prop :=
  (forall st, rc_reachable st ->
      menu_wf (RestaurantChain.menu_db st)
      /\ Forall (fun kv => fst kv <= RestaurantChain.last_item_id st)
                (RestaurantChain.menu_db st))
  /\ (forall st, tt_reachable st ->
        menu_wf (RestaurantChainTwoTables.menu_db st)
        /\ Forall (fun kv => fst kv < RestaurantChainTwoTables.next_menu_id st)
                  (RestaurantChainTwoTables.menu_db st)).

(** Every item in a menu can be rebuilt from its own dump. *)
Definition stored_items_revalidate : Prop :=
  (forall st k item, rc_reachable st -> In (k, item) (RestaurantChain.menu_db st) ->
      FoodItem_init (FoodItem_dict item) = Ret item)
  /\ (forall st k item, tt_reachable st -> In (k, item) (RestaurantChainTwoTables.menu_db st) ->
        FoodItem_init (FoodItem_dict item) = Ret item).

End Invariants.

(** Statements about single routes of the menu service. *)
Module MenuRoutes.
Import Str Menu Rules Http Further RestaurantChain.

(** What a deletion request does: for an id in the menu, the fixed
    message is answered, a lookup of the id then answers 404, every
    other id and the counter are as before; for an absent id the answer
    is 404 and nothing changes. *)
Definition deletion_behaviour (st : State) (k : Z) : Prop :=
  match dict_get Z.eqb k (menu_db st) with
  | Some _ =>
      exists st',
        route (DELETE_menu_item k) st = (Ret (Message "Food item deleted successfully"), st')
        /\ route (GET_menu_item k) st'
           = (Raise (HTTPException 404 (DetailText "Food item not found")), st')
        /\ (forall k', k' <> k ->
                       dict_get Z.eqb k' (menu_db st') = dict_get Z.eqb k' (menu_db st))
        /\ last_item_id st' = last_item_id st
  | None =>
      route (DELETE_menu_item k) st
      = (Raise (HTTPException 404 (DetailText "Food item not found")), st)
  end.

(** What the category route answers: never an empty list; the listed
    items are exactly the stored items of the category; 404 exactly
    when the menu has no item of the category; the globals are not
    changed. *)
Definition category_behaviour (st : State) (c : FoodCategory) : Prop :=
  snd (route (GET_menu_category c) st) = st
  /\ (forall l, fst (route (GET_menu_category c) st) = Ret (Items l) ->
                l <> []
                /\ forall item, In item l <->
                                In item (dict_values (menu_db st))
                                /\ category (as_FoodItemCreate item) = c)
  /\ ((exists d, fst (route (GET_menu_category c) st) = Raise (HTTPException 404 d))
      <-> forall item, In item (dict_values (menu_db st)) ->
                       category (as_FoodItemCreate item) <> c).

(** An item that was just created is listed under its category. *)
Definition created_item_is_listed (st : State) (body : PyDict) : Prop :=
  forall item st',
    route (POST_menu body) st = (Ret (Item item), st') ->
    exists l,
      route (GET_menu_category (category (as_FoodItemCreate item))) st'
      = (Ret (Items l), st')
      /\ In item l.

(** No update request is answered with an item, and none changes the
    globals, in either service. *)
Definition updates_never_succeed : Prop :=
  (forall st i body,
      snd (route (PUT_menu_item i body) st) = st
      /\ forall a, fst (route (PUT_menu_item i body) st) <> Ret a)
  /\ (forall st i body,
        snd (RestaurantChainTwoTables.route (RestaurantChainTwoTables.PUT_menu_item i body) st)
        = st
        /\ forall a,
            fst (RestaurantChainTwoTables.route
                   (RestaurantChainTwoTables.PUT_menu_item i body) st) <> Ret a).

End MenuRoutes.

(** Statements about the order routes. *)
Module OrderRoutes.
Import Str Orders Rules Http Further RestaurantChainTwoTables.

Definition order_not_found : PyExc := HTTPException 404 (DetailText "Order not found").

(** Once stored, an order stays in the store under its id with its
    customer and lines; only its status may differ later. *)
Definition order_persists (st : State) (reqs : list Request) (k : Z) (o : Order) : Prop :=
  exists s, dict_get Z.eqb k (orders_db (snd (serve reqs st))) = Some (TTSem.with_status o s).

(** What a status update does: for a stored order, any status may be
    set from any status; the order with the new status replaces the
    stored one, its amount is unchanged, and every other order, the menu
    and the counters are as before.  The answer is that order when its
    total with delivery can be computed, and 500 otherwise.  For an
    absent id the answer is 404 and nothing changes. *)
Definition status_update_behaviour (st : State) (k : Z) (s : OrderStatus) : Prop :=
  let st' := snd (route (PUT_order_status k s) st) in
  match dict_get Z.eqb k (orders_db st) with
  | Some o =>
      dict_get Z.eqb k (orders_db st') = Some (TTSem.with_status o s)
      /\ total_amount (TTSem.with_status o s) = total_amount o
      /\ (forall k', k' <> k ->
                     dict_get Z.eqb k' (orders_db st') = dict_get Z.eqb k' (orders_db st))
      /\ menu_db st' = menu_db st
      /\ next_order_id st' = next_order_id st
      /\ match total_amount_with_delivery o with
         | Ret td =>
             exists r, fst (route (PUT_order_status k s) st) = Ret (OrderAnswer r)
                       /\ response_id r = Orders.id o /\ response_status r = s
                       /\ response_customer r = customer (as_OrderCreate o)
                       /\ response_items r = items (as_OrderCreate o)
                       /\ response_total_amount_with_delivery r = td
         | Raise _ => status_code 200 (fst (route (PUT_order_status k s) st)) = 500
         end
  | None => route (PUT_order_status k s) st = (Raise order_not_found, st)
  end.

(** Reading back the order that a creation request has just stored:
    the lookup by the new id answers what the creation answered, and
    changes nothing; when the total with delivery of the order can be
    computed, that answer is the order, with the customer and the lines
    of the payload. *)
Definition order_round_trip (st : State) (oc : OrderCreate) : Prop :=
  let created := route (POST_orders (OrderCreate_dict oc)) st in
  route (GET_order (next_order_id st)) (snd created) = (fst created, snd created)
  /\ forall td,
       total_amount_with_delivery (TTSem.pending oc (next_order_id st)) = Ret td ->
       exists r, fst created = Ret (OrderAnswer r)
                 /\ response_id r = next_order_id st
                 /\ response_customer r = customer oc /\ response_items r = items oc.

(** The requests of the menu routes. *)
Definition is_menu_request (r : Request) : bool :=
  match r with
  | POST_menu _ | GET_menu | GET_menu_item _ | PUT_menu_item _ _ | DELETE_menu_item _
  | GET_menu_category _ => true
  | _ => false
  end.

(** Menu requests leave the order store and its counter alone; every
    other request leaves the menu and its counter alone. *)
Definition stores_are_separate (st : State) (r : Request) : Prop :=
  let st' := snd (route r st) in
  if is_menu_request r
  then orders_db st' = orders_db st /\ next_order_id st' = next_order_id st
  else menu_db st' = menu_db st /\ next_menu_id st' = next_menu_id st.

(** Each call of the order demonstration endpoint stores four more
    orders, under the next four ids, and confirms the first of them;
    the menu demonstration endpoint changes nothing. *)
Definition demonstrations_side_effects : Prop :=
  (forall st, tt_reachable st ->
      let n := next_order_id st in
      let st' := snd (route GET_run_order_tests st) in
      next_order_id st' = n + 4
      /\ List.length (orders_db st') = (List.length (orders_db st) + 4)%nat
      /\ (exists o, dict_get Z.eqb n (orders_db st') = Some o /\ status o = CONFIRMED)
      /\ (forall k, n < k < n + 4 ->
                    exists o, dict_get Z.eqb k (orders_db st') = Some o /\ status o = PENDING)
      /\ forall k, k < n ->
                   dict_get Z.eqb k (orders_db st') = dict_get Z.eqb k (orders_db st))
  /\ (forall st, snd (RestaurantChain.route RestaurantChain.GET_test_cases st) = st).

(** The summary of one order as [get_all_orders] builds it. *)
Definition summarises (o : Order) (s : OrderSummaryResponse) : Prop :=
  summary_id s = Orders.id o
  /\ customer_name s = name (customer (as_OrderCreate o))
  /\ summary_status s = status o
  /\ total_amount o = Ret (summary_total_amount s).

(** The listing of orders: one summary per stored order, in store
    order, or the exception of the first total that cannot be
    computed. *)
Definition listing_behaviour (st : State) : Prop :=
  snd (route GET_orders st) = st
  /\ ((exists l, fst (route GET_orders st) = Ret (Summaries l)
                 /\ Forall2 summarises (dict_values (orders_db st)) l)
      \/ (exists o e, In o (dict_values (orders_db st))
                      /\ total_amount o = Raise e
                      /\ fst (route GET_orders st) = Raise e)).

(** The payload [overflowing_payload] passes the validation of the
    body and its order is stored, although the creation request itself
    is answered with 500; from then on no listing of the orders is
    answered any more, whatever requests come in between. *)
Definition listing_broken_after (st : State) (reqs : list Request) : Prop :=
  let created := route (POST_orders (OrderCreate_dict OrderClaims.overflowing_payload)) st in
  status_code 201 (fst created) = 500
  /\ dict_get Z.eqb (next_order_id st) (orders_db (snd created))
     = Some (TTSem.pending OrderClaims.overflowing_payload (next_order_id st))
  /\ fst (route GET_orders (snd (serve reqs (snd created)))) = Raise Overflow.

(** The count of lines and the total quantity of an order bound each
    other. *)
Definition quantity_bounds (o : Order) : Prop :=
  1 <= total_items_count o
  /\ total_items_count o <= total_quantity o <= 10 * total_items_count o.

End OrderRoutes.

(** Statements about the order of the listings, about ids that were
    never assigned and about refused requests. *)
Module Listings.
Import Str Rules Http Further.

Definition food_not_found : PyExc := HTTPException 404 (DetailText "Food item not found").

(** The menu listing answers the stored items, in increasing order of
    their ids, in both services; the summaries of the listing of orders
    come in increasing order of their ids as well. *)
Definition listings_sorted : Prop :=
  (forall st, rc_reachable st ->
      RestaurantChain.route RestaurantChain.GET_menu st
      = (Ret (Items (dict_values (RestaurantChain.menu_db st))), st)
      /\ StronglySorted Z.lt (map Menu.id (dict_values (RestaurantChain.menu_db st))))
  /\ (forall st, tt_reachable st ->
        RestaurantChainTwoTables.route RestaurantChainTwoTables.GET_menu st
        = (Ret (Items (dict_values (RestaurantChainTwoTables.menu_db st))), st)
        /\ StronglySorted Z.lt
             (map Menu.id (dict_values (RestaurantChainTwoTables.menu_db st))))
  /\ (forall st l, tt_reachable st ->
        fst (RestaurantChainTwoTables.route RestaurantChainTwoTables.GET_orders st)
        = Ret (Summaries l) ->
        StronglySorted Z.lt (map Orders.summary_id l)).

(** A request that names an id the counter has not reached is answered
    with 404 and changes nothing. *)
Definition unassigned_ids_not_found : Prop :=
  (forall st k, rc_reachable st -> RestaurantChain.last_item_id st < k ->
      RestaurantChain.route (RestaurantChain.GET_menu_item k) st = (Raise food_not_found, st)
      /\ RestaurantChain.route (RestaurantChain.DELETE_menu_item k) st
         = (Raise food_not_found, st))
  /\ (forall st k, tt_reachable st -> RestaurantChainTwoTables.next_menu_id st <= k ->
        RestaurantChainTwoTables.route (RestaurantChainTwoTables.GET_menu_item k) st
        = (Raise food_not_found, st)
        /\ RestaurantChainTwoTables.route (RestaurantChainTwoTables.DELETE_menu_item k) st
           = (Raise food_not_found, st))
  /\ (forall st k s, tt_reachable st -> RestaurantChainTwoTables.next_order_id st <= k ->
        RestaurantChainTwoTables.route (RestaurantChainTwoTables.GET_order k) st
        = (Raise OrderRoutes.order_not_found, st)
        /\ RestaurantChainTwoTables.route (RestaurantChainTwoTables.PUT_order_status k s) st
           = (Raise OrderRoutes.order_not_found, st)).

(** A request of the order service that is answered with an exception
    leaves the globals as they were, unless the exception is that of a
    response that could not be built: the handler has run by then.  In
    the menu service a request answered with an exception leaves the
    menu as it was, and moves the id counter, by one, only when the
    creation helper refuses a name that [strip] made too short. *)
Definition failures_are_atomic : Prop :=
  (forall st r e,
      fst (RestaurantChainTwoTables.route r st) = Raise e ->
      (forall errs, e <> ResponseValidationError errs) ->
      snd (RestaurantChainTwoTables.route r st) = st)
  /\ (forall st r e,
        fst (RestaurantChain.route r st) = Raise e ->
        RestaurantChain.menu_db (snd (RestaurantChain.route r st))
        = RestaurantChain.menu_db st
        /\ (RestaurantChain.last_item_id (snd (RestaurantChain.route r st))
            = RestaurantChain.last_item_id st
            \/ (e = RCSem.name_too_short
                /\ RestaurantChain.last_item_id (snd (RestaurantChain.route r st))
                   = RestaurantChain.last_item_id st + 1))).

End Listings.

(** The statement that the two services agree on menu requests as long
    as the creation helper refuses nothing. *)
Module Agreement.
Import Str Menu Http Equivalence.

(** A creation body is harmless when the record the model builds from
    it, if any, has a name of three characters or more. *)
Definition no_short_name (r : MenuRequest) : Prop :=
  match r with
  | Create body => forall m, FoodItemCreate_init body = Ret m -> 3 <= len (name m)
  | _ => True
  end.

(** Same answers, same final menu, and counters that still assign the
    same next id. *)
Definition agree (st1 : RestaurantChain.State) (st2 : RestaurantChainTwoTables.State)
    (reqs : list MenuRequest) : Prop :=
  same_behaviour st1 st2 reqs
  /\ equally_positioned
       (snd (RestaurantChain.serve (map to_menu_service reqs) st1))
       (snd (RestaurantChainTwoTables.serve (map to_order_service reqs) st2)).

(** Requests of every kind, none with a short name. *)
Definition mixed_requests : list MenuRequest :=
  [Create Samples.margherita_pizza; List_all; Get 7; Update 7 Samples.margherita_pizza;
   Delete 2; By_category DESSERT; Create RestaurantChain.invalid_price_item; Get 8].

End Agreement.

(** The statement on the price labels. *)
Module PriceBands.
Import Str Menu Rules.

(** The label of a price, read in hundredths: Budget below 10.00,
    Mid-range from 10.00 to 25.00, Premium above. *)
Definition price_category_by_cents (m : FoodItemCreate) : Prop :=
  let c := Dec.cents (price m) in
  (price_category m = "Budget" <-> c < 1000)
  /\ (price_category m = "Mid-range" <-> 1000 <= c <= 2500)
  /\ (price_category m = "Premium" <-> 2500 < c).

End PriceBands.

(** The statement that the order route refuses what breaks a
    structural constraint. *)
Module OrderValidation.
Import Str Orders Rules Http RestaurantChainTwoTables.

(** The creation route refuses the payload as Invalid-Input (422) and
    leaves the globals as they were. *)
Definition order_refused (st : State) (oc : OrderCreate) : Prop :=
  exists errs,
    route (POST_orders (OrderCreate_dict oc)) st = (Raise (RequestValidationError errs), st).

(** A payload that is fine but for a quantity of 15. *)
Definition oversized_order : OrderCreate :=
  {| customer := {| name := "Diana Prince"; phone := "5551112222";
                    address := "101 Paradise Island" |};
     items := [{| menu_item_id := 4; menu_item_name := "Chocolate Lava Cake";
                  quantity := 15; unit_price := mkDecimal 799 (-2) |}] |}.

End OrderValidation.

(** The statements on creation requests whose body is the dump of a
    typed record. *)
Module MenuValidation.
Import Str Menu Rules Http.

(** The record as the model rebuilds it from its own dump: the name
    trimmed, every field marked as supplied. *)
Definition stripped (m : FoodItemCreate) : FoodItemCreate :=
  {| name := strip (name m); description := description m; category := category m;
     price := price m; is_available := is_available m;
     preparation_time := preparation_time m; ingredients := ingredients m;
     calories := calories m; is_vegetarian := is_vegetarian m;
     is_spicy := is_spicy m; model_fields_set := field_names |}.

(** Both services refuse the creation body as Invalid-Input (422) and
    leave their globals as they were. *)
Definition menu_body_refused (body : PyDict) : Prop :=
  (forall st, exists errs,
      RestaurantChain.route (RestaurantChain.POST_menu body) st
      = (Raise (RequestValidationError errs), st))
  /\ (forall st, exists errs,
        RestaurantChainTwoTables.route (RestaurantChainTwoTables.POST_menu body) st
        = (Raise (RequestValidationError errs), st)).

(** What both services do with the dump of a record that obeys the
    field rules: when the trimmed name keeps three characters, the
    record is stored, trimmed, under the next id; otherwise the helper
    raises, after the menu service has advanced its counter. *)
Definition typed_creation_outcome (m : FoodItemCreate) : Prop :=
  forall (st1 : RestaurantChain.State) (st2 : RestaurantChainTwoTables.State),
    let item1 := {| as_FoodItemCreate := stripped m;
                    id := RestaurantChain.last_item_id st1 + 1 |} in
    let item2 := {| as_FoodItemCreate := stripped m;
                    id := RestaurantChainTwoTables.next_menu_id st2 |} in
    if len (strip (name m)) <? 3
    then RestaurantChain.route (RestaurantChain.POST_menu (FoodItemCreate_dict m)) st1
         = (Raise RCSem.name_too_short,
            RestaurantChain.set_last_item_id (RestaurantChain.last_item_id st1 + 1) st1)
         /\ RestaurantChainTwoTables.route
              (RestaurantChainTwoTables.POST_menu (FoodItemCreate_dict m)) st2
            = (Raise RCSem.name_too_short, st2)
    else RestaurantChain.route (RestaurantChain.POST_menu (FoodItemCreate_dict m)) st1
         = (Ret (Item item1), RCSem.stored_as item1 st1)
         /\ RestaurantChainTwoTables.route
              (RestaurantChainTwoTables.POST_menu (FoodItemCreate_dict m)) st2
            = (Ret (Item item2), TTSem.stored_as item2 st2).

(** The first seed item without its description. *)
Definition undescribed_pizza : FoodItemCreate :=
  {| name := "Margherita Pizza"; description := "Pizza"; category := MAIN_COURSE;
     price := mkDecimal 1599 (-2); is_available := true; preparation_time := 20;
     ingredients := ["pizza dough"; "tomato sauce"; "mozzarella"; "basil"; "olive oil"];
     calories := Some 650; is_vegetarian := true; is_spicy := false;
     model_fields_set := field_names |}.

End MenuValidation.

(* ================================================================= *)
(** * Facts about strings *)

Section StrFacts.
Import Str Rules.

Lemma len_nonneg (s : string) : 0 <= len s.
Proof. unfold len. lia. Qed.

Lemma len_String (c : ascii) (s : string) : len (String c s) = len s + 1.
Proof. unfold len. cbn [String.length]. lia. Qed.

Lemma lstrip_len (s : string) : len (lstrip s) <= len s.
Proof.
  induction s as [|c s IH]; cbn [lstrip]; [lia|].
  destruct (isspace c); rewrite ?len_String; lia.
Qed.

Lemma rstrip_len (s : string) : len (rstrip s) <= len s.
Proof.
  induction s as [|c s IH]; cbn [rstrip]; [lia|].
  destruct (rstrip s) as [|c' r] eqn:E.
  - destruct (isspace c); rewrite ?len_String; unfold len in *; cbn in *; lia.
  - rewrite !len_String in *. lia.
Qed.

Lemma strip_len (s : string) : len (strip s) <= len s.
Proof.
  unfold strip. pose proof (rstrip_len (lstrip s)). pose proof (lstrip_len s). lia.
Qed.

Lemma lstrip_all (p : ascii -> bool) (s : string) :
  all_chars p s = true -> all_chars p (lstrip s) = true.
Proof.
  induction s as [|c s IH]; cbn [lstrip all_chars]; [easy|].
  intros H. apply andb_prop in H as [Hc Hs].
  destruct (isspace c); [auto|]. cbn [all_chars]. now rewrite Hc, Hs.
Qed.

Lemma rstrip_all (p : ascii -> bool) (s : string) :
  all_chars p s = true -> all_chars p (rstrip s) = true.
Proof.
  induction s as [|c s IH]; cbn [rstrip all_chars]; [easy|].
  intros H. apply andb_prop in H as [Hc Hs]. specialize (IH Hs).
  destruct (rstrip s) as [|c' r].
  - destruct (isspace c); cbn [all_chars]; [easy|]. now rewrite Hc.
  - cbn [all_chars] in *. now rewrite Hc, IH.
Qed.

Lemma strip_all (p : ascii -> bool) (s : string) :
  all_chars p s = true -> all_chars p (strip s) = true.
Proof. intros H. unfold strip. now apply rstrip_all, lstrip_all. Qed.

Lemma lstrip_clean (s : string) : starts_clean (lstrip s).
Proof.
  induction s as [|c s IH]; cbn [lstrip]; [exact I|].
  destruct (isspace c) eqn:E; [exact IH|]. exact E.
Qed.

Lemma lstrip_of_clean (s : string) : starts_clean s -> lstrip s = s.
Proof. destruct s as [|c s]; cbn; [easy|]. now intros ->. Qed.

Lemma rstrip_clean (s : string) : starts_clean s -> starts_clean (rstrip s).
Proof.
  destruct s as [|c s]; cbn [rstrip starts_clean]; [easy|].
  intros Hc. destruct (rstrip s); [rewrite Hc|]; exact Hc.
Qed.

Lemma rstrip_cons (c : ascii) (s : string) :
  rstrip (String c s) =
  match rstrip s with
  | EmptyString => if isspace c then EmptyString else String c EmptyString
  | r => String c r
  end.
Proof. reflexivity. Qed.

Lemma rstrip_idem (s : string) : rstrip (rstrip s) = rstrip s.
Proof.
  induction s as [|c s IH]; [easy|].
  rewrite rstrip_cons.
  destruct (rstrip s) as [|c' r] eqn:E.
  - destruct (isspace c) eqn:Ec; [easy|]. rewrite rstrip_cons. cbn [rstrip]. now rewrite Ec.
  - rewrite rstrip_cons, IH. reflexivity.
Qed.

(** [strip] is idempotent: a stripped string has nothing left to strip. *)
Lemma strip_idem (s : string) : strip (strip s) = strip s.
Proof.
  unfold strip.
  rewrite (lstrip_of_clean (rstrip (lstrip s))).
  - apply rstrip_idem.
  - apply rstrip_clean, lstrip_clean.
Qed.

Lemma name_pattern_all (v : string) :
  name_pattern v = true -> all_chars name_class v = true.
Proof. unfold name_pattern. intros H. now apply andb_prop in H. Qed.

Lemma name_pattern_of_all (v : string) :
  0 < len v -> all_chars name_class v = true -> name_pattern v = true.
Proof.
  unfold name_pattern. intros Hl ->. destruct v; [unfold len in Hl; cbn in Hl; lia|easy].
Qed.

End StrFacts.

(* ================================================================= *)
(** * Facts about dictionaries and keyword calls *)

Section DictFacts.
Context {K V : Type} (eqb : K -> K -> bool).
Hypothesis eqb_eq : forall a b, eqb a b = true <-> a = b.

Lemma eqb_refl' (k : K) : eqb k k = true.
Proof. now apply eqb_eq. Qed.

Lemma dict_get_set_same (k : K) (v : V) (d : list (K * V)) :
  dict_get eqb k (dict_set eqb k v d) = Some v.
Proof.
  induction d as [|[k' v'] d IH]; cbn.
  - now rewrite eqb_refl'.
  - destruct (eqb k k') eqn:E; cbn; [now rewrite eqb_refl'|now rewrite E].
Qed.

Lemma dict_get_set_other (k k' : K) (v : V) (d : list (K * V)) :
  k' <> k -> dict_get eqb k' (dict_set eqb k v d) = dict_get eqb k' d.
Proof.
  intros Hne. induction d as [|[k0 v0] d IH]; cbn.
  - destruct (eqb k' k) eqn:E; [apply eqb_eq in E; contradiction|reflexivity].
  - destruct (eqb k k0) eqn:E; cbn.
    + apply eqb_eq in E. subst k0.
      destruct (eqb k' k) eqn:E'; [apply eqb_eq in E'; contradiction|reflexivity].
    + destruct (eqb k' k0); [reflexivity|exact IH].
Qed.

Lemma dict_mem_set_same (k : K) (v : V) (d : list (K * V)) :
  dict_mem eqb k (dict_set eqb k v d) = true.
Proof. unfold dict_mem. now rewrite dict_get_set_same. Qed.

Lemma dict_mem_set (k k' : K) (v : V) (d : list (K * V)) :
  dict_mem eqb k' d = true -> dict_mem eqb k' (dict_set eqb k v d) = true.
Proof.
  unfold dict_mem. induction d as [|[k0 v0] d IH]; cbn; [discriminate|].
  destruct (eqb k k0) eqn:E; cbn.
  - apply eqb_eq in E. subst k0. destruct (eqb k' k); auto.
  - destruct (eqb k' k0); auto.
Qed.

Lemma dict_mem_update (k : K) (src d : list (K * V)) :
  dict_mem eqb k d = true -> dict_mem eqb k (dict_update eqb d src) = true.
Proof.
  unfold dict_update. revert d.
  induction src as [|[k0 v0] src IH]; cbn; [easy|].
  intros d H. apply IH. now apply dict_mem_set.
Qed.

Lemma dict_get_update_other (k : K) (src d : list (K * V)) :
  ~ In k (dict_keys src) ->
  dict_get eqb k (dict_update eqb d src) = dict_get eqb k d.
Proof.
  unfold dict_update, dict_keys. revert d.
  induction src as [|[k0 v0] src IH]; cbn; [easy|].
  intros d H. rewrite IH by tauto. apply dict_get_set_other. intros ->. tauto.
Qed.

Lemma In_dict_set (k : K) (v : V) (d : list (K * V)) (x : K * V) :
  In x (dict_set eqb k v d) -> x = (k, v) \/ In x d.
Proof.
  induction d as [|[k0 v0] d IH]; cbn.
  - intros [<-|[]]. now left.
  - destruct (eqb k k0); cbn; intros [<-|H]; auto.
    destruct (IH H); auto.
Qed.

Lemma In_dict_del (k : K) (d : list (K * V)) (x : K * V) :
  In x (dict_del eqb k d) -> In x d.
Proof.
  induction d as [|[k0 v0] d IH]; cbn; [easy|].
  destruct (eqb k k0); cbn; [auto|]. intros [<-|H]; auto.
Qed.

Lemma Forall_dict_set (P : K * V -> Prop) (k : K) (v : V) (d : list (K * V)) :
  P (k, v) -> Forall P d -> Forall P (dict_set eqb k v d).
Proof.
  intros Hk Hd. apply Forall_forall. intros x Hx.
  apply In_dict_set in Hx as [->|Hx]; [exact Hk|].
  now apply (proj1 (Forall_forall P d) Hd).
Qed.

Lemma Forall_dict_del (P : K * V -> Prop) (k : K) (d : list (K * V)) :
  Forall P d -> Forall P (dict_del eqb k d).
Proof.
  intros Hd. apply Forall_forall. intros x Hx.
  apply In_dict_del in Hx. now apply (proj1 (Forall_forall P d) Hd).
Qed.

Lemma dict_get_In (k : K) (v : V) (d : list (K * V)) :
  dict_get eqb k d = Some v -> In (k, v) d.
Proof.
  induction d as [|[k0 v0] d IH]; cbn; [discriminate|].
  destruct (eqb k k0) eqn:E.
  - apply eqb_eq in E. subst k0. intros [= ->]. now left.
  - intros H. right. now apply IH.
Qed.
End DictFacts.

(** A call that passes a keyword both by name and through the unpacked
    mapping never reaches the callee. *)
Lemma call_kwargs_duplicate (k : string) (v : PyVal) (star : PyDict) :
  kw_mem k star = true ->
  call_kwargs [(k, v)] star =
  Raise (TypeError ("got multiple values for keyword argument '" ++ k ++ "'")).
Proof. intros H. unfold call_kwargs. cbn [first_duplicate]. now rewrite H. Qed.

Lemma call_kwargs_fresh (k : string) (v : PyVal) (star : PyDict) :
  kw_mem k star = false -> call_kwargs [(k, v)] star = Ret ((k, v) :: star).
Proof. intros H. unfold call_kwargs. cbn [first_duplicate]. now rewrite H. Qed.

(* ================================================================= *)
(** * Facts about validation *)

Section PydFacts.
Import Pyd.

Lemma vap_Valid {A B} (f : V (A -> B)) (x : V A) (b : B) :
  f <*> x = Valid b -> exists g a, f = Valid g /\ x = Valid a /\ b = g a.
Proof.
  destruct f as [g|e], x as [a|e']; cbn; try discriminate.
  intros [= <-]. now exists g, a.
Qed.

Lemma vap_Invalid_r {A B} (f : V (A -> B)) (e : list ErrorEntry) :
  exists e', f <*> Invalid e = Invalid e'.
Proof. destruct f; cbn; eauto. Qed.

Lemma vap_Invalid_l {A B} (e : list ErrorEntry) (x : V A) :
  exists e', @Invalid (A -> B) e <*> x = Invalid e'.
Proof. destruct x; cbn; eauto. Qed.

Lemma construct_Ret {A} (title : string) (r : V A) (a : A) :
  construct title r = Ret a <-> r = Valid a.
Proof. destruct r; cbn; split; congruence. Qed.

Lemma construct_Raise {A} (title : string) (r : V A) (e : PyExc) :
  construct title r = Raise e -> exists errs, e = ValidationError title errs.
Proof. destruct r; cbn; [discriminate|]. intros [= <-]. eauto. Qed.

Lemma at_loc_Valid {A} (l : Loc) (r : V A) (a : A) :
  at_loc l r = Valid a <-> r = Valid a.
Proof. destruct r; cbn; split; congruence. Qed.

Lemma required_Valid {A} (k : string) (check : PyVal -> V A) (kw : PyDict) (a : A) :
  required k check kw = Valid a <->
  exists v, kw_get k kw = Some v /\ check v = Valid a.
Proof.
  unfold required. destruct (kw_get k kw) as [v|].
  - rewrite at_loc_Valid. split; [eauto|]. now intros (v' & [= <-] & H).
  - split; [discriminate|]. now intros (v' & [=] & _).
Qed.

Lemma required_missing {A} (k : string) (check : PyVal -> V A) (kw : PyDict) :
  kw_get k kw = None -> required k check kw = Invalid [([LKey k], "missing")].
Proof. unfold required. now intros ->. Qed.

Lemma optional_Valid {A} (k : string) (d : A) (check : PyVal -> V A) (kw : PyDict) (a : A) :
  optional k d check kw = Valid a <->
  (kw_get k kw = None /\ a = d) \/ exists v, kw_get k kw = Some v /\ check v = Valid a.
Proof.
  unfold optional. destruct (kw_get k kw) as [v|].
  - rewrite at_loc_Valid. split; [eauto|]. intros [[[=] _]|(v' & [= <-] & H)]. exact H.
  - split; [intros [= <-]; now left|]. intros [[_ ->]|(v' & [=] & _)]. reflexivity.
Qed.

Lemma check_str_Valid (lo : Z) (hi : option Z) (v : PyVal) (s : string) :
  check_str lo hi v = Valid s <->
  v = VStr s /\ lo <= Str.len s /\ (forall m, hi = Some m -> Str.len s <= m).
Proof.
  unfold check_str, fail. destruct v; try (split; [discriminate|intros [[=] _]]).
  destruct (Str.len s0 <? lo) eqn:E1.
  - apply Z.ltb_lt in E1. split; [discriminate|]. intros ([= ->] & H & _). lia.
  - apply Z.ltb_ge in E1. destruct hi as [m|].
    + destruct (m <? Str.len s0) eqn:E2.
      * apply Z.ltb_lt in E2. split; [discriminate|]. intros ([= ->] & _ & H).
        specialize (H m eq_refl). lia.
      * apply Z.ltb_ge in E2. split.
        -- intros [= ->]. repeat split; [lia|]. now intros m' [= <-].
        -- now intros ([= ->] & _).
    + split.
      * intros [= ->]. repeat split; [lia|discriminate].
      * now intros ([= ->] & _).
Qed.

Lemma check_bool_VBool (b c : bool) : check_bool (VBool b) = Valid c <-> c = b.
Proof. cbn. split; congruence. Qed.

Lemma check_int_VInt (n m : Z) : check_int (VInt n) = Valid m <-> m = n.
Proof. cbn. split; congruence. Qed.

Lemma check_gt_Valid (b : Z) (r : V Z) (n : Z) :
  check_gt b r = Valid n <-> r = Valid n /\ b < n.
Proof.
  destruct r as [m|e]; cbn; unfold fail.
  - destruct (b <? m) eqn:E.
    + apply Z.ltb_lt in E. split; [intros [= <-]; auto|]. now intros [[= <-] _].
    + apply Z.ltb_ge in E. split; [discriminate|]. intros [[= <-] H]. lia.
  - split; [discriminate|]. now intros [[=] _].
Qed.

Lemma check_ge_Valid (b : Z) (r : V Z) (n : Z) :
  check_ge b r = Valid n <-> r = Valid n /\ b <= n.
Proof.
  destruct r as [m|e]; cbn; unfold fail.
  - destruct (b <=? m) eqn:E.
    + apply Z.leb_le in E. split; [intros [= <-]; auto|]. now intros [[= <-] _].
    + apply Z.leb_gt in E. split; [discriminate|]. intros [[= <-] H]. lia.
  - split; [discriminate|]. now intros [[=] _].
Qed.

Lemma check_le_Valid (b : Z) (r : V Z) (n : Z) :
  check_le b r = Valid n <-> r = Valid n /\ n <= b.
Proof.
  destruct r as [m|e]; cbn; unfold fail.
  - destruct (m <=? b) eqn:E.
    + apply Z.leb_le in E. split; [intros [= <-]; auto|]. now intros [[= <-] _].
    + apply Z.leb_gt in E. split; [discriminate|]. intros [[= <-] H]. lia.
  - split; [discriminate|]. now intros [[=] _].
Qed.

Lemma check_decimal_constraints_Valid (d r : Decimal) :
  check_decimal_constraints d = Valid r <-> r = d /\ Rules.price_structural d = true.
Proof.
  unfold check_decimal_constraints, Rules.price_structural, fail.
  rewrite Z.leb_antisym.
  destruct (2 <? Dec.decimal_places d); cbn.
  - split; [discriminate|]. now intros [_ [=]].
  - destruct (0 <? coeff d); split; try discriminate; try (now intros [_ [=]]).
    + now intros [= <-].
    + now intros [-> _].
Qed.

Lemma check_decimal_VDec (d r : Decimal) :
  check_decimal (VDec d) = Valid r <-> r = d /\ Rules.price_structural d = true.
Proof. apply check_decimal_constraints_Valid. Qed.

(** Whatever it was given, an accepted Decimal obeys the structural
    rule. *)
Lemma check_decimal_Valid (v : PyVal) (r : Decimal) :
  check_decimal v = Valid r -> Rules.price_structural r = true.
Proof.
  destruct v; unfold check_decimal, fail; try discriminate.
  - intros H. now apply check_decimal_constraints_Valid in H as [-> H].
  - destruct (Dec.parse s); try discriminate.
    intros H. now apply check_decimal_constraints_Valid in H as [-> H].
  - intros H. now apply check_decimal_constraints_Valid in H as [-> H].
Qed.

Lemma after_Valid {A} (r : V A) (f : A -> Exc A) (a : A) :
  after r f = Valid a <-> exists a0, r = Valid a0 /\ f a0 = Ret a.
Proof.
  unfold after, fail. destruct r as [a0|e].
  - destruct (f a0) as [b|x] eqn:E; split.
    + intros [= <-]. eauto.
    + intros (y & [= <-] & H). congruence.
    + discriminate.
    + intros (y & [= <-] & H). congruence.
  - split; [discriminate|]. now intros (y & [=] & _).
Qed.

Lemma check_items_Valid {A} (check : PyVal -> V A) (l : list PyVal) (xs : list A) :
  forall i, check_items check i l = Valid xs <->
            Forall2 (fun v x => check v = Valid x) l xs.
Proof.
  revert xs. induction l as [|v l IH]; intros xs i; cbn [check_items].
  - split; [intros [= <-]; constructor|]. intros H. now inversion H.
  - split.
    + intros H. apply vap_Valid in H as (g & tl & Hg & Htl & ->).
      apply vap_Valid in Hg as (g0 & x & [= <-] & Hx & ->).
      apply at_loc_Valid in Hx. constructor; [exact Hx|]. now apply (IH tl (S i)).
    + intros H. inversion H as [|v' x l' tl Hx Htl]; subst.
      apply (IH tl (S i)) in Htl. rewrite Htl.
      apply (at_loc_Valid (LIdx i)) in Hx. now rewrite Hx.
Qed.

Lemma check_list_Valid {A} (check : PyVal -> V A) (lo : Z) (v : PyVal) (xs : list A) :
  check_list check lo v = Valid xs <->
  exists l, v = VList l /\ Forall2 (fun v x => check v = Valid x) l xs
            /\ lo <= Z.of_nat (List.length xs).
Proof.
  unfold check_list, fail.
  destruct v; try (split; [discriminate|now intros (l' & [=] & _)]).
  destruct (check_items check 0 l) as [ys|e] eqn:E.
  - apply check_items_Valid in E.
    destruct (Z.of_nat (List.length ys) <? lo) eqn:El.
    + apply Z.ltb_lt in El. split; [discriminate|].
      intros (l' & [= <-] & H & Hlen).
      assert (ys = xs); [|subst; lia].
      clear - E H. revert xs H. induction E; intros xs' H'; inversion H'; subst; [easy|].
      f_equal; [congruence|auto].
    + apply Z.ltb_ge in El. split.
      * intros [= <-]. eauto.
      * intros (l' & [= <-] & H & Hlen). f_equal.
        clear - E H. revert xs H. induction E; intros xs' H'; inversion H'; subst; [easy|].
        f_equal; [congruence|auto].
  - split; [discriminate|]. intros (l' & [= <-] & H & _).
    apply (check_items_Valid check l xs 0) in H. congruence.
Qed.

Lemma check_optional_Valid {A} (check : PyVal -> V A) (v : PyVal) (o : option A) :
  check_optional check v = Valid o <->
  (v = VNone /\ o = None) \/ (v <> VNone /\ exists a, o = Some a /\ check v = Valid a).
Proof.
  destruct v; cbn [check_optional];
    try (split;
         [intros H; apply vap_Valid in H as (g & a & [= <-] & Ha & ->); right;
          split; [discriminate|eauto]
         |intros [[[=] _]|(_ & a & -> & Ha)]; now rewrite Ha]).
  split; [intros [= <-]; now left|]. intros [[_ ->]|[H _]]; [reflexivity|contradiction].
Qed.

End PydFacts.

(* ================================================================= *)
(** * Facts about the menu models *)

Section MenuModelFacts.
Import Pyd Str Menu Rules.

Lemma validate_name_characters_Ret (v r : string) :
  validate_name_characters v = Ret r <-> name_pattern v = true /\ r = strip v.
Proof.
  unfold validate_name_characters. destruct (name_pattern v); cbn; split.
  - intros [= <-]. auto.
  - now intros [_ ->].
  - discriminate.
  - now intros [[=] _].
Qed.

Lemma validate_price_range_Ret (v r : Decimal) :
  validate_price_range v = Ret r <-> price_in_band v = true /\ r = v.
Proof.
  unfold validate_price_range, price_in_band.
  destruct (Dec.leb (mkDecimal 100 (-2)) v && Dec.leb v (mkDecimal 10000 (-2))); cbn; split.
  - intros [= <-]. auto.
  - now intros [_ ->].
  - discriminate.
  - now intros [[=] _].
Qed.

(** What each submitted field must have been for the model to be built. *)
Lemma validate_fields_inv (kw : PyDict) (m : FoodItemCreate) :
  validate_fields kw = Valid m ->
  (exists raw, kw_get "name" kw = Some (VStr raw) /\ 3 <= len raw <= 100
               /\ name_pattern raw = true /\ name m = strip raw)
  /\ (kw_get "description" kw = Some (VStr (description m))
      /\ 10 <= len (description m) <= 500)
  /\ (exists v, kw_get "category" kw = Some v /\ check_category v = Valid (category m))
  /\ (exists v, kw_get "price" kw = Some v /\ check_decimal v = Valid (price m)
                /\ price_in_band (price m) = true)
  /\ ((exists v, kw_get "preparation_time" kw = Some v
                 /\ check_int v = Valid (preparation_time m))
      /\ 1 <= preparation_time m <= 120)
  /\ (kw_get "ingredients" kw = Some (VList (map VStr (ingredients m)))
      /\ ingredients m <> [])
  /\ (forall n, calories m = Some n -> 0 < n)
  /\ model_fields_set m = fields_set_of kw.
Proof.
  unfold validate_fields. intros H.
  apply vap_Valid in H as (g10 & fs & H & [= <-] & ->).
  apply vap_Valid in H as (g9 & sp & H & Hsp & ->).
  apply vap_Valid in H as (g8 & vg & H & Hvg & ->).
  apply vap_Valid in H as (g7 & cal & H & Hcal & ->).
  apply vap_Valid in H as (g6 & ing & H & Hing & ->).
  apply vap_Valid in H as (g5 & pt & H & Hpt & ->).
  apply vap_Valid in H as (g4 & av & H & Hav & ->).
  apply vap_Valid in H as (g3 & pr & H & Hpr & ->).
  apply vap_Valid in H as (g2 & cat & H & Hcat & ->).
  apply vap_Valid in H as (g1 & de & H & Hde & ->).
  apply vap_Valid in H as (g0 & na & [= <-] & Hna & ->).
  cbn [name description category price preparation_time ingredients calories
       model_fields_set].
  apply required_Valid in Hna as (vn & Hvn & Hcn).
  apply after_Valid in Hcn as (raw & Hs & Hn).
  apply check_str_Valid in Hs as (-> & Hlo & Hhi).
  apply validate_name_characters_Ret in Hn as [Hp ->].
  specialize (Hhi 100 eq_refl).
  apply required_Valid in Hde as (vd & Hvd & Hcd).
  apply check_str_Valid in Hcd as (-> & Hdlo & Hdhi).
  specialize (Hdhi 500 eq_refl).
  apply required_Valid in Hcat as (vc & Hvc & Hcc).
  apply required_Valid in Hpr as (vp & Hvp & Hcp).
  apply after_Valid in Hcp as (d & Hd & Hr).
  apply validate_price_range_Ret in Hr as [Hb ->].
  apply required_Valid in Hpt as (vt & Hvt & Hct).
  apply check_le_Valid in Hct as [Hct Hle].
  apply check_ge_Valid in Hct as [Hct Hge].
  apply required_Valid in Hing as (vi & Hvi & Hci).
  apply check_list_Valid in Hci as (l & -> & Hl & Hlen).
  assert (Hmap : l = map VStr ing).
  { clear - Hl. induction Hl as [|v x l xs Hx _ IH]; [reflexivity|].
    apply check_str_Valid in Hx as (-> & _). cbn. now rewrite IH. }
  subst l.
  split; [exists raw; repeat split; auto|].
  split; [split; [exact Hvd|lia]|].
  split; [eauto|].
  split; [eauto|].
  split; [split; [eauto|lia]|].
  split; [split; [exact Hvi|intros ->; cbn in Hlen; lia]|].
  split; [|reflexivity].
  intros n ->.
  apply optional_Valid in Hcal as [[_ [=]]|(v & Hv & Hc)].
  apply check_optional_Valid in Hc as [[_ [=]]|(_ & a & [= <-] & Hc)].
  now apply check_gt_Valid in Hc as [_ Hc].
Qed.

Lemma validate_fields_validated (kw : PyDict) (m : FoodItemCreate) :
  validate_fields kw = Valid m -> validated m.
Proof.
  intros H. apply validate_fields_inv in H
    as ((raw & _ & Hl & Hp & Hn) & (_ & Hd) & _ & (v & _ & Hv & Hb) & (_ & Hpt) & (_ & Hi) & Hc & _).
  unfold validated. repeat split; eauto; try lia.
  now apply check_decimal_Valid in Hv.
Qed.

Lemma FoodItemCreate_init_validated (kw : PyDict) (m : FoodItemCreate) :
  FoodItemCreate_init kw = Ret m -> validated m.
Proof. intros H. apply construct_Ret in H. eauto using validate_fields_validated. Qed.

Lemma check_ingredients_dump (l : list string) :
  l <> [] -> check_list (check_str 0 None) 1 (VList (map VStr l)) = Valid l.
Proof.
  intros Hne. apply check_list_Valid. exists (map VStr l). repeat split.
  - clear Hne. induction l as [|x l IH]; cbn; constructor; [|exact IH].
    apply check_str_Valid. repeat split; [apply len_nonneg|discriminate].
  - destruct l; [contradiction|]. cbn [List.length]. lia.
Qed.

Lemma check_calories_dump (c : option Z) :
  (forall n, c = Some n -> 0 < n) ->
  check_optional (fun v => check_gt 0 (check_int v))
                 (match c with Some n => VInt n | None => VNone end) = Valid c.
Proof.
  intros H. destruct c as [n|]; [|reflexivity].
  cbn. specialize (H n eq_refl). apply Z.ltb_lt in H. now rewrite H.
Qed.

Lemma check_price_dump (d : Decimal) :
  price_structural d = true -> price_in_band d = true ->
  after (check_decimal (VDec d)) validate_price_range = Valid d.
Proof.
  intros Hs Hb. apply after_Valid. exists d. split.
  - now apply check_decimal_VDec.
  - now apply validate_price_range_Ret.
Qed.

Lemma fields_set_of_dump (m : FoodItemCreate) (n : Z) :
  fields_set_of (("id", VInt n) :: FoodItemCreate_dict m) = field_names.
Proof. reflexivity. Qed.

(** The fields of a validated record, dumped and validated again: only
    the name can be refused, when [strip] took it below three
    characters. *)
Lemma revalidate_fields (m : FoodItemCreate) (n : Z) :
  validated m ->
  validate_fields (("id", VInt n) :: FoodItemCreate_dict m) =
  if len (name m) <? 3 then Invalid [([LKey "name"], "string_too_short")]
  else Valid (all_set m).
Proof.
  intros ((raw & Hl & Hp & Hn) & Hd & (Hps & Hpb) & Hpt & Hi & Hc).
  assert (Hname : required "name"
            (fun v => after (check_str 3 (Some 100) v) validate_name_characters)
            (("id", VInt n) :: FoodItemCreate_dict m) =
          if len (name m) <? 3 then Invalid [([LKey "name"], "string_too_short")]
          else Valid (name m)).
  { unfold required. change (kw_get "name" _) with (Some (VStr (name m))).
    unfold check_str. destruct (len (name m) <? 3) eqn:E; [reflexivity|].
    apply Z.ltb_ge in E.
    assert (len (name m) <= 100) by (rewrite Hn; pose proof (strip_len raw); lia).
    replace (100 <? len (name m)) with false by (symmetry; apply Z.ltb_ge; lia).
    unfold after, validate_name_characters.
    rewrite name_pattern_of_all.
    - cbn. rewrite Hn, strip_idem. reflexivity.
    - lia.
    - rewrite Hn. now apply strip_all, name_pattern_all. }
  assert (Hdesc : required "description" (check_str 10 (Some 500))
            (("id", VInt n) :: FoodItemCreate_dict m) = Valid (description m)).
  { apply required_Valid. exists (VStr (description m)). split; [reflexivity|].
    apply check_str_Valid. repeat split; [lia|]. intros ? [= <-]. lia. }
  assert (Hprice : required "price"
            (fun v => after (check_decimal v) validate_price_range)
            (("id", VInt n) :: FoodItemCreate_dict m) = Valid (price m)).
  { apply required_Valid. exists (VDec (price m)). split; [reflexivity|].
    now apply check_price_dump. }
  assert (Hprep : required "preparation_time"
            (fun v => check_le 120 (check_ge 1 (check_int v)))
            (("id", VInt n) :: FoodItemCreate_dict m) = Valid (preparation_time m)).
  { apply required_Valid. exists (VInt (preparation_time m)). split; [reflexivity|].
    apply check_le_Valid. split; [|lia]. apply check_ge_Valid. split; [reflexivity|lia]. }
  assert (Hing : required "ingredients" (check_list (check_str 0 None) 1)
            (("id", VInt n) :: FoodItemCreate_dict m) = Valid (ingredients m)).
  { apply required_Valid. exists (VList (map VStr (ingredients m))).
    split; [reflexivity|]. now apply check_ingredients_dump. }
  assert (Hcal : optional "calories" None
            (check_optional (fun v => check_gt 0 (check_int v)))
            (("id", VInt n) :: FoodItemCreate_dict m) = Valid (calories m)).
  { apply optional_Valid. right.
    exists (match calories m with Some k => VInt k | None => VNone end).
    split; [reflexivity|]. now apply check_calories_dump. }
  unfold validate_fields.
  rewrite Hname, Hdesc, Hprice, Hprep, Hing, Hcal, fields_set_of_dump.
  destruct (len (name m) <? 3); reflexivity.
Qed.

(** [FoodItem(id=n, **item_data.dict())] for a validated [item_data]. *)
Lemma FoodItem_of_validated (m : FoodItemCreate) (n : Z) :
  validated m ->
  ebind (call_kwargs [("id", VInt n)] (FoodItemCreate_dict m)) FoodItem_init =
  if len (name m) <? 3
  then Raise (ValidationError "FoodItem" [([LKey "name"], "string_too_short")])
  else Ret {| as_FoodItemCreate := all_set m; id := n |}.
Proof.
  intros Hv. rewrite call_kwargs_fresh by reflexivity. cbn [ebind].
  unfold FoodItem_init. rewrite (revalidate_fields m n Hv).
  destruct (len (name m) <? 3); reflexivity.
Qed.

(** A record that the store accepted obeys every field rule. *)
Lemma all_set_rules (m : FoodItemCreate) :
  validated m -> 3 <= len (name m) -> satisfies_rules (all_set m).
Proof.
  intros ((raw & Hl & Hp & Hn) & Hd & Hpr & Hpt & Hi & Hc) Hlen.
  assert (len (name m) <= 100) by (rewrite Hn; pose proof (strip_len raw); lia).
  assert (name_pattern (name m) = true).
  { apply name_pattern_of_all; [lia|]. rewrite Hn. now apply strip_all, name_pattern_all. }
  unfold satisfies_rules. cbn [all_set name description price preparation_time
                                ingredients calories].
  tauto.
Qed.

Lemma all_set_stripped (m : FoodItemCreate) :
  validated m -> strip (name (all_set m)) = name (all_set m).
Proof. intros ((raw & _ & _ & Hn) & _). cbn. rewrite Hn. apply strip_idem. Qed.

End MenuModelFacts.

(* ================================================================= *)
(** * The menu service, handler by handler *)

Module RCFacts.
Import Pyd Str Menu Rules Http RestaurantChain RCSem.

Lemma parse_body_cases {A} (init : PyDict -> Exc A) (title : string) (body : PyDict) :
  (forall e, init body = Raise e -> exists errs, e = ValidationError title errs) ->
  (exists a, init body = Ret a /\ parse_body init body = Ret a)
  \/ (exists errs, parse_body init body = Raise (RequestValidationError errs)).
Proof.
  intros H. unfold parse_body. destruct (init body) as [a|e]; [left; eauto|].
  destruct (H e eq_refl) as (errs & ->). right. eauto.
Qed.

Lemma parse_FoodItemCreate (body : PyDict) :
  (exists m, FoodItemCreate_init body = Ret m
             /\ parse_body FoodItemCreate_init body = Ret m)
  \/ (exists errs, parse_body FoodItemCreate_init body = Raise (RequestValidationError errs)).
Proof.
  apply (parse_body_cases _ "FoodItemCreate"). intros e H.
  now apply construct_Raise in H.
Qed.

Lemma add_item_to_db_spec (m : FoodItemCreate) (st : State) :
  validated m ->
  add_item_to_db m st =
  if len (name m) <? 3
  then (Raise name_too_short, set_last_item_id (last_item_id st + 1) st)
  else let new_item := {| as_FoodItemCreate := all_set m; id := last_item_id st + 1 |} in
       (Ret new_item, stored_as new_item st).
Proof.
  intros Hv. unfold add_item_to_db, bind, gets, modify, lift, ret.
  cbn [set_last_item_id last_item_id menu_db].
  rewrite (FoodItem_of_validated m _ Hv).
  destruct (len (name m) <? 3); reflexivity.
Qed.

Lemma merged_has_id (stored : FoodItem) (src : PyDict) :
  kw_mem "id" (dict_update String.eqb (FoodItem_dict stored) src) = true.
Proof. apply (dict_mem_update String.eqb String.eqb_eq). reflexivity. Qed.

(** Updating an item that is in the menu: the call that should build
    the merged record names [id] twice, so it raises TypeError, which
    the handler does not catch; the menu is left as it was. *)
Lemma update_menu_item_present (item_id : Z) (updated_item : FoodItemCreate)
    (st : State) (stored : FoodItem) :
  dict_get Z.eqb item_id (menu_db st) = Some stored ->
  update_menu_item item_id updated_item st = (Raise id_clash, st).
Proof.
  intros H. unfold update_menu_item, bind, gets. cbn [fst snd]. rewrite H.
  unfold try_except, bind, lift.
  rewrite call_kwargs_duplicate by apply merged_has_id. reflexivity.
Qed.

Lemma update_menu_item_absent (item_id : Z) (updated_item : FoodItemCreate) (st : State) :
  dict_get Z.eqb item_id (menu_db st) = None ->
  update_menu_item item_id updated_item st =
  (Raise (HTTPException 404 (DetailText "Food item not found")), st).
Proof. intros H. unfold update_menu_item, bind, gets. now rewrite H. Qed.

Lemma update_menu_item_state (item_id : Z) (updated_item : FoodItemCreate) (st : State) :
  snd (update_menu_item item_id updated_item st) = st.
Proof.
  destruct (dict_get Z.eqb item_id (menu_db st)) as [stored|] eqn:E.
  - now rewrite (update_menu_item_present _ _ _ _ E).
  - now rewrite (update_menu_item_absent _ _ _ E).
Qed.

Lemma run_test_cases_state (st : State) : snd (run_test_cases st) = st.
Proof. reflexivity. Qed.

(** ** One request

    What one request can do to the globals. *)
Lemma route_POST_menu_eq (body : PyDict) (st : State) :
  route (POST_menu body) st =
  match parse_body FoodItemCreate_init body with
  | Ret m =>
      match add_item_to_db m st with
      | (Ret i, st') => (Ret (Item i), st')
      | (Raise e, st') => (Raise e, st')
      end
  | Raise e => (Raise e, st)
  end.
Proof.
  unfold route, add_menu_item, bind, lift, ret.
  destruct (parse_body FoodItemCreate_init body) as [m|e]; [|reflexivity].
  now destruct (add_item_to_db m st) as [[i|e] st'].
Qed.

Lemma route_POST_menu (body : PyDict) (st : State) :
  (exists errs, route (POST_menu body) st = (Raise (RequestValidationError errs), st))
  \/ (exists m, FoodItemCreate_init body = Ret m /\ len (name m) < 3
       /\ route (POST_menu body) st =
          (Raise name_too_short, set_last_item_id (last_item_id st + 1) st))
  \/ (exists m, FoodItemCreate_init body = Ret m /\ 3 <= len (name m)
       /\ let new_item := {| as_FoodItemCreate := all_set m; id := last_item_id st + 1 |} in
          route (POST_menu body) st = (Ret (Item new_item), stored_as new_item st)).
Proof.
  rewrite route_POST_menu_eq.
  destruct (parse_FoodItemCreate body) as [(m & Hm & Hp)|(errs & Hp)]; rewrite Hp.
  - right. pose proof (FoodItemCreate_init_validated _ _ Hm) as Hv.
    rewrite (add_item_to_db_spec m st Hv).
    destruct (len (name m) <? 3) eqn:E.
    + left. apply Z.ltb_lt in E. exists m. auto.
    + right. apply Z.ltb_ge in E. exists m. auto.
  - left. now exists errs.
Qed.

Lemma route_PUT_state (item_id : Z) (body : PyDict) (st : State) :
  snd (route (PUT_menu_item item_id body) st) = st.
Proof.
  unfold route. unfold bind at 1 2. unfold lift at 1.
  destruct (parse_body FoodItemCreate_init body) as [m|e]; [|reflexivity].
  pose proof (update_menu_item_state item_id m st) as H.
  destruct (update_menu_item item_id m st) as [[i|e] st']; cbn in *; now subst.
Qed.

Lemma route_step (r : Request) (st : State) : step st (snd (route r st)).
Proof.
  destruct r as [|item_id|body|item_id body|item_id|category|].
  - constructor.
  - unfold route, get_menu_item, bind, gets.
    cbn. destruct (dict_get Z.eqb item_id (menu_db st)); constructor.
  - destruct (route_POST_menu body st) as [(errs & ->)|[(m & Hm & Hl & ->)|(m & Hm & Hl & H)]].
    + constructor.
    + constructor.
    + cbn zeta in H. rewrite H. cbn [snd]. constructor; [|exact Hl].
      eauto using FoodItemCreate_init_validated.
  - rewrite route_PUT_state. constructor.
  - unfold route, delete_menu_item, bind, gets, modify. cbn.
    destruct (dict_mem Z.eqb item_id (menu_db st)); cbn; constructor.
  - unfold route, get_items_by_category, bind, gets. cbn.
    destruct (filter _ _); constructor.
  - constructor.
Qed.

(** ** Invariants of the globals *)

Lemma step_inv (st st' : State) : step st st' -> inv st -> inv st'.
Proof.
  intros Hs [Hok Hle]. destruct Hs as [| |m Hv Hl|k]; unfold inv; cbn.
  - auto.
  - split; [exact Hok|]. eapply Forall_impl; [|exact Hle]. cbn. intros; lia.
  - split.
    + apply (Forall_dict_set Z.eqb); [|exact Hok].
      unfold entry_ok. cbn [fst snd as_FoodItemCreate id].
      auto using all_set_rules, all_set_stripped.
    + apply (Forall_dict_set Z.eqb); [cbn; lia|].
      eapply Forall_impl; [|exact Hle]. cbn. intros; lia.
  - split; now apply Forall_dict_del.
Qed.

Lemma serve_cons (r : Request) (rest : list Request) (st : State) :
  serve (r :: rest) st =
  (fst (route r st) :: fst (serve rest (snd (route r st))),
   snd (serve rest (snd (route r st)))).
Proof.
  cbn [serve]. destruct (route r st) as [a st']. cbn [fst snd].
  now destruct (serve rest st').
Qed.

Lemma serve_inv (reqs : list Request) (st : State) : inv st -> inv (snd (serve reqs st)).
Proof.
  revert st. induction reqs as [|r rest IH]; intros st H; [exact H|].
  rewrite serve_cons. cbn [snd]. apply IH. eapply step_inv; [apply route_step|exact H].
Qed.

Lemma import_ok : import = (Ret tt, initial).
Proof. vm_compute. reflexivity. Qed.

Lemma empty_inv : inv empty.
Proof. split; constructor. Qed.

End RCFacts.

(* ================================================================= *)
(** * Facts about the order models *)

Section OrderModelFacts.
Import Pyd Str Orders Rules.

Lemma check_phone_Valid (v : PyVal) (s : string) :
  check_phone v = Valid s <-> v = VStr s /\ phone_pattern s = true.
Proof.
  unfold check_phone, fail. destruct v; try (split; [discriminate|now intros [[=] _]]).
  destruct (phone_pattern s0) eqn:E; split.
  - intros [= <-]. auto.
  - now intros [[= ->] _].
  - discriminate.
  - intros [[= ->] H]. congruence.
Qed.

Lemma check_model_Valid {A} (validate : PyDict -> V A) (v : PyVal) (a : A) :
  check_model validate v = Valid a <-> exists d, v = VDict d /\ validate d = Valid a.
Proof.
  unfold check_model, fail. destruct v; try (split; [discriminate|now intros (? & [=] & _)]).
  split; [eauto|]. now intros (d' & [= <-] & H).
Qed.

Lemma validate_OrderItem_ok (kw : PyDict) (i : OrderItem) :
  validate_OrderItem kw = Valid i -> line_ok i.
Proof.
  unfold validate_OrderItem. intros H.
  apply vap_Valid in H as (g3 & up & H & Hup & ->).
  apply vap_Valid in H as (g2 & q & H & Hq & ->).
  apply vap_Valid in H as (g1 & nm & H & Hnm & ->).
  apply vap_Valid in H as (g0 & mid & [= <-] & Hmid & ->).
  apply required_Valid in Hup as (v1 & _ & Hup). apply check_decimal_Valid in Hup.
  apply required_Valid in Hq as (v2 & _ & Hq).
  apply check_le_Valid in Hq as [Hq Hq10]. apply check_gt_Valid in Hq as [_ Hq0].
  apply required_Valid in Hnm as (v3 & _ & Hnm).
  apply check_str_Valid in Hnm as (_ & Hn1 & Hn100). specialize (Hn100 100 eq_refl).
  apply required_Valid in Hmid as (v4 & _ & Hmid). apply check_gt_Valid in Hmid as [_ Hmid].
  unfold line_ok. cbn. repeat split; auto; lia.
Qed.

Lemma validate_Customer_ok (kw : PyDict) (c : Customer) :
  validate_Customer kw = Valid c -> customer_ok c.
Proof.
  unfold validate_Customer. intros H.
  apply vap_Valid in H as (g2 & ad & H & Had & ->).
  apply vap_Valid in H as (g1 & ph & H & Hph & ->).
  apply vap_Valid in H as (g0 & nm & [= <-] & Hnm & ->).
  apply required_Valid in Had as (v1 & _ & Had). apply check_str_Valid in Had as (_ & Had & _).
  apply required_Valid in Hph as (v2 & _ & Hph). apply check_phone_Valid in Hph as (_ & Hph).
  apply required_Valid in Hnm as (v3 & _ & Hnm).
  apply check_str_Valid in Hnm as (_ & Hn2 & Hn50). specialize (Hn50 50 eq_refl).
  unfold customer_ok. cbn. repeat split; auto; lia.
Qed.

Lemma validate_OrderCreate_ok (kw : PyDict) (oc : OrderCreate) :
  validate_OrderCreate kw = Valid oc -> order_ok oc.
Proof.
  unfold validate_OrderCreate. intros H.
  apply vap_Valid in H as (g1 & its & H & Hits & ->).
  apply vap_Valid in H as (g0 & cu & [= <-] & Hcu & ->).
  apply required_Valid in Hcu as (v1 & _ & Hcu).
  apply check_model_Valid in Hcu as (d & _ & Hcu). apply validate_Customer_ok in Hcu.
  apply required_Valid in Hits as (v2 & _ & Hits).
  apply check_list_Valid in Hits as (l & _ & Hl & Hlen).
  unfold order_ok. cbn [customer items].
  split; [exact Hcu|]. split.
  - intros ->. cbn in Hlen. lia.
  - clear - Hl. induction Hl as [|v x l xs Hx _ IH]; constructor; [|exact IH].
    apply check_model_Valid in Hx as (d & _ & Hx). eauto using validate_OrderItem_ok.
Qed.

Lemma OrderCreate_init_ok (kw : PyDict) (oc : OrderCreate) :
  OrderCreate_init kw = Ret oc -> order_ok oc.
Proof. intros H. apply construct_Ret in H. eauto using validate_OrderCreate_ok. Qed.

Lemma validate_OrderItem_dump (i : OrderItem) :
  line_ok i -> validate_OrderItem (OrderItem_dict i) = Valid i.
Proof.
  intros (Hid & Hn & Hq & Hp). unfold validate_OrderItem.
  assert (H1 : required "menu_item_id" (fun v => check_gt 0 (check_int v))
                 (OrderItem_dict i) = Valid (menu_item_id i)).
  { apply required_Valid. exists (VInt (menu_item_id i)). split; [reflexivity|].
    now apply check_gt_Valid. }
  assert (H2 : required "menu_item_name" (check_str 1 (Some 100))
                 (OrderItem_dict i) = Valid (menu_item_name i)).
  { apply required_Valid. exists (VStr (menu_item_name i)). split; [reflexivity|].
    apply check_str_Valid. repeat split; [lia|]. intros ? [= <-]. lia. }
  assert (H3 : required "quantity" (fun v => check_le 10 (check_gt 0 (check_int v)))
                 (OrderItem_dict i) = Valid (quantity i)).
  { apply required_Valid. exists (VInt (quantity i)). split; [reflexivity|].
    apply check_le_Valid. split; [|lia]. apply check_gt_Valid. split; [reflexivity|lia]. }
  assert (H4 : required "unit_price" check_decimal (OrderItem_dict i) = Valid (unit_price i)).
  { apply required_Valid. exists (VDec (unit_price i)). split; [reflexivity|].
    now apply check_decimal_VDec. }
  rewrite H1, H2, H3, H4. now destruct i.
Qed.

Lemma validate_Customer_dump (c : Customer) :
  customer_ok c -> validate_Customer (Customer_dict c) = Valid c.
Proof.
  intros (Hn & Hp & Ha). unfold validate_Customer.
  assert (H1 : required "name" (check_str 2 (Some 50)) (Customer_dict c) = Valid (name c)).
  { apply required_Valid. exists (VStr (name c)). split; [reflexivity|].
    apply check_str_Valid. repeat split; [lia|]. intros ? [= <-]. lia. }
  assert (H2 : required "phone" check_phone (Customer_dict c) = Valid (phone c)).
  { apply required_Valid. exists (VStr (phone c)). split; [reflexivity|].
    now apply check_phone_Valid. }
  assert (H3 : required "address" (check_str 5 None) (Customer_dict c) = Valid (address c)).
  { apply required_Valid. exists (VStr (address c)). split; [reflexivity|].
    apply check_str_Valid. repeat split; [lia|discriminate]. }
  rewrite H1, H2, H3. now destruct c.
Qed.

(** An order payload within the structural constraints, dumped and
    passed again with [id] and [status], is rebuilt as it was. *)
Lemma validate_OrderCreate_dump (oc : OrderCreate) (extra : PyDict) :
  kw_mem "customer" extra = false -> kw_mem "items" extra = false ->
  order_ok oc ->
  validate_OrderCreate (extra ++ OrderCreate_dict oc)%list = Valid oc.
Proof.
  intros Hc Hi (Hcu & Hne & Hit).
  assert (Hget : forall k, kw_mem k extra = false ->
                           kw_get k (extra ++ OrderCreate_dict oc)%list
                           = kw_get k (OrderCreate_dict oc)).
  { clear. intros k. unfold kw_mem, dict_mem, kw_get.
    induction extra as [|[k' v'] e IH]; cbn; [reflexivity|].
    destruct (String.eqb k k'); [discriminate|exact IH]. }
  unfold validate_OrderCreate.
  assert (H1 : required "customer" (check_model validate_Customer)
                 (extra ++ OrderCreate_dict oc)%list = Valid (customer oc)).
  { apply required_Valid. exists (VDict (Customer_dict (customer oc))).
    split; [now rewrite Hget|].
    apply check_model_Valid. eauto using validate_Customer_dump. }
  assert (H2 : required "items" (check_list (check_model validate_OrderItem) 1)
                 (extra ++ OrderCreate_dict oc)%list = Valid (items oc)).
  { apply required_Valid.
    exists (VList (map (fun i => VDict (OrderItem_dict i)) (items oc))).
    split; [now rewrite Hget|].
    apply check_list_Valid. eexists. split; [reflexivity|]. split.
    - clear Hne. induction Hit as [|x l Hx _ IH]; cbn; constructor; [|exact IH].
      apply check_model_Valid. eauto using validate_OrderItem_dump.
    - destruct (items oc); [contradiction|]. cbn [List.length]. lia. }
  rewrite H1, H2. now destruct oc.
Qed.

(** [Order(id=n, status=PENDING, **order_data.dict())] *)
Lemma Order_of_ok (oc : OrderCreate) (n : Z) :
  order_ok oc ->
  ebind (call_kwargs [("id", VInt n); ("status", VStatus PENDING)] (OrderCreate_dict oc))
        Order_init =
  Ret {| as_OrderCreate := oc; id := n; status := PENDING |}.
Proof.
  intros Hok.
  assert (Hc : call_kwargs [("id", VInt n); ("status", VStatus PENDING)]
                           (OrderCreate_dict oc)
               = Ret ([("id", VInt n); ("status", VStatus PENDING)]
                      ++ OrderCreate_dict oc)%list) by reflexivity.
  rewrite Hc. cbn [ebind]. unfold Order_init.
  rewrite (validate_OrderCreate_dump oc [("id", VInt n); ("status", VStatus PENDING)])
    by (reflexivity || exact Hok).
  reflexivity.
Qed.

End OrderModelFacts.

(* ================================================================= *)
(** * The order service, handler by handler *)

Module TTFacts.
Import Pyd Str Menu Orders Rules Http RestaurantChainTwoTables TTSem.

Lemma tt_parse_FoodItemCreate (body : PyDict) :
  (exists m, FoodItemCreate_init body = Ret m
             /\ parse_body FoodItemCreate_init body = Ret m)
  \/ (exists errs, parse_body FoodItemCreate_init body = Raise (RequestValidationError errs)).
Proof.
  apply (RCFacts.parse_body_cases _ "FoodItemCreate"). intros e H.
  now apply construct_Raise in H.
Qed.

Lemma parse_OrderCreate (body : PyDict) :
  (exists oc, OrderCreate_init body = Ret oc
              /\ parse_body OrderCreate_init body = Ret oc)
  \/ (exists errs, parse_body OrderCreate_init body = Raise (RequestValidationError errs)).
Proof.
  apply (RCFacts.parse_body_cases _ "OrderCreate"). intros e H.
  now apply construct_Raise in H.
Qed.

Lemma add_food_item_to_db_spec (m : FoodItemCreate) (st : State) :
  validated m ->
  add_food_item_to_db m st =
  if len (Menu.name m) <? 3
  then (Raise RCSem.name_too_short, st)
  else let new_item := {| as_FoodItemCreate := all_set m; Menu.id := next_menu_id st |} in
       (Ret new_item, stored_as new_item st).
Proof.
  intros Hv. unfold add_food_item_to_db, bind, gets, modify, lift, ret.
  rewrite (FoodItem_of_validated m _ Hv).
  destruct (len (Menu.name m) <? 3); reflexivity.
Qed.

Lemma tt_update_menu_item_present (item_id : Z) (updated_item : FoodItemCreate)
    (st : State) (stored : FoodItem) :
  dict_get Z.eqb item_id (menu_db st) = Some stored ->
  update_menu_item item_id updated_item st = (Raise RCSem.id_clash, st).
Proof.
  intros H. unfold update_menu_item, bind, gets. cbn [fst snd]. rewrite H.
  unfold try_except, bind, lift.
  rewrite call_kwargs_duplicate by apply RCFacts.merged_has_id. reflexivity.
Qed.

Lemma tt_update_menu_item_absent (item_id : Z) (updated_item : FoodItemCreate) (st : State) :
  dict_get Z.eqb item_id (menu_db st) = None ->
  update_menu_item item_id updated_item st =
  (Raise (HTTPException 404 (DetailText "Food item not found")), st).
Proof. intros H. unfold update_menu_item, bind, gets. now rewrite H. Qed.

Lemma tt_update_menu_item_state (item_id : Z) (updated_item : FoodItemCreate) (st : State) :
  snd (update_menu_item item_id updated_item st) = st.
Proof.
  destruct (dict_get Z.eqb item_id (menu_db st)) as [stored|] eqn:E.
  - now rewrite (tt_update_menu_item_present _ _ _ _ E).
  - now rewrite (tt_update_menu_item_absent _ _ _ E).
Qed.

Lemma create_order_spec (oc : OrderCreate) (st : State) :
  order_ok oc ->
  create_order oc st = (Ret (pending oc (next_order_id st)), placed oc st).
Proof.
  intros Hok. unfold create_order, bind, gets, modify, lift, ret.
  rewrite (Order_of_ok oc _ Hok). reflexivity.
Qed.

Lemma update_order_status_present (order_id : Z) (s : OrderStatus) (st : State) (o : Order) :
  dict_get Z.eqb order_id (orders_db st) = Some o ->
  update_order_status order_id s st =
  (Ret (with_status o s), set_orders_db (dict_set Z.eqb order_id (with_status o s)) st).
Proof. intros H. unfold update_order_status, bind, gets, modify, ret. now rewrite H. Qed.

Lemma update_order_status_absent (order_id : Z) (s : OrderStatus) (st : State) :
  dict_get Z.eqb order_id (orders_db st) = None ->
  update_order_status order_id s st =
  (Raise (HTTPException 404 (DetailText "Order not found")), st).
Proof. intros H. unfold update_order_status, bind, gets. now rewrite H. Qed.

(** ** The scenarios of [run_order_test_cases] *)

Lemma valid_order_accepted : OrderCreate_init valid_order_payload = Ret Demo.valid_order.
Proof. reflexivity. Qed.

Lemma invalid_menu_item_id_accepted :
  OrderCreate_init invalid_menu_item_id_payload = Ret Demo.invalid_menu_item_id.
Proof. reflexivity. Qed.

Lemma price_mismatch_accepted :
  OrderCreate_init price_mismatch_payload = Ret Demo.price_mismatch.
Proof. reflexivity. Qed.

Lemma unavailable_item_accepted :
  OrderCreate_init unavailable_item_payload = Ret Demo.unavailable_item.
Proof. reflexivity. Qed.

(** A scenario whose payload the model accepts: the order is created
    and the scenario is reported as FAIL. *)
Lemma refusal_test_accepted (key : string) (payload : PyDict) (msg : string)
    (results : PyDict) (st : State) (oc : OrderCreate) :
  OrderCreate_init payload = Ret oc ->
  refusal_test key payload msg results st =
  (Ret (kw_set key (VDict [("status", VStr "FAIL"); ("message", VStr msg)]) results),
   placed oc st).
Proof.
  intros H. unfold refusal_test, try_except, bind, lift. rewrite H.
  rewrite (create_order_spec oc st (OrderCreate_init_ok _ _ H)). reflexivity.
Qed.

(** A scenario whose payload the model refuses: nothing is stored and
    the scenario is reported as PASS. *)
Lemma refusal_test_refused (key : string) (payload : PyDict) (msg : string)
    (results : PyDict) (st : State) (title : string) (errs : list ErrorEntry) :
  OrderCreate_init payload = Raise (ValidationError title errs) ->
  refusal_test key payload msg results st =
  (Ret (kw_set key (VDict [("status", VStr "PASS");
                           ("message", str_exc (ValidationError title errs))]) results),
   st).
Proof. intros H. unfold refusal_test, try_except, bind, lift. now rewrite H. Qed.

Lemma valid_order_test_spec (results : PyDict) (st : State) :
  valid_order_test results st =
  (Ret (kw_set "valid_order_test" (VDict (valid_order_entry (next_order_id st))) results),
   placed Demo.valid_order st).
Proof.
  unfold valid_order_test, try_except. unfold bind at 1 2. unfold lift at 1.
  rewrite valid_order_accepted.
  rewrite (create_order_spec _ st (OrderCreate_init_ok _ _ valid_order_accepted)).
  unfold valid_order_entry. cbn [pending Orders.id].
  destruct (next_order_id st =? 1); reflexivity.
Qed.

Lemma empty_items_refused :
  OrderCreate_init empty_items_payload =
  Raise (ValidationError "OrderCreate" [([LKey "items"], "too_short")]).
Proof. reflexivity. Qed.

Lemma invalid_phone_refused :
  OrderCreate_init invalid_phone_payload =
  Raise (ValidationError "OrderCreate"
           [([LKey "customer"; LKey "phone"], "string_pattern_mismatch")]).
Proof. reflexivity. Qed.

Lemma large_quantity_refused :
  OrderCreate_init large_quantity_payload =
  Raise (ValidationError "OrderCreate"
           [([LKey "items"; LIdx 0; LKey "quantity"], "less_than_equal")]).
Proof. reflexivity. Qed.

Lemma placed_get (oc : OrderCreate) (st : State) :
  dict_get Z.eqb (next_order_id st) (orders_db (placed oc st))
  = Some (pending oc (next_order_id st)).
Proof. cbn. apply (dict_get_set_same Z.eqb Z.eqb_eq). Qed.

Lemma status_update_test_spec (results : PyDict) (st : State) (n : Z) (o : Order) :
  entry_field results "valid_order_test" "status" = Some (VStr "PASS") ->
  entry_field results "valid_order_test" "order_id" = Some (VInt n) ->
  dict_get Z.eqb n (orders_db st) = Some o ->
  status_update_test results st =
  (Ret (kw_set "status_update_test"
          (VDict [("status", VStr "PASS"); ("new_status", VStatus CONFIRMED)]) results),
   set_orders_db (dict_set Z.eqb n (with_status o CONFIRMED)) st).
Proof.
  intros Hs Hn Ho. unfold status_update_test. rewrite Hs, Hn.
  unfold try_except, bind. rewrite (update_order_status_present _ _ _ _ Ho).
  reflexivity.
Qed.

Lemma run_order_test_cases_spec (st : State) :
  run_order_test_cases st = (Ret (report (next_order_id st)), after_tests st).
Proof.
  unfold run_order_test_cases.
  unfold bind at 1. rewrite valid_order_test_spec.
  unfold bind at 1. rewrite (refusal_test_refused _ _ _ _ _ _ _ empty_items_refused).
  unfold bind at 1. rewrite (refusal_test_refused _ _ _ _ _ _ _ invalid_phone_refused).
  unfold bind at 1. rewrite (refusal_test_refused _ _ _ _ _ _ _ large_quantity_refused).
  unfold bind at 1.
  rewrite (status_update_test_spec _ _ (next_order_id st)
             (pending Demo.valid_order (next_order_id st)));
    [|reflexivity|reflexivity|apply placed_get].
  unfold bind at 1. rewrite (refusal_test_accepted _ _ _ _ _ _ invalid_menu_item_id_accepted).
  unfold bind at 1. rewrite (refusal_test_accepted _ _ _ _ _ _ price_mismatch_accepted).
  unfold bind at 1. rewrite (refusal_test_accepted _ _ _ _ _ _ unavailable_item_accepted).
  reflexivity.
Qed.

(** ** One request *)

Lemma steps_one (st st' : State) : step st st' -> steps st st'.
Proof. intros H. eapply steps_cons; [exact H|constructor]. Qed.

Lemma tt_route_POST_menu_eq (body : PyDict) (st : State) :
  route (POST_menu body) st =
  match parse_body FoodItemCreate_init body with
  | Ret m =>
      match add_food_item_to_db m st with
      | (Ret i, st') => (Ret (Item i), st')
      | (Raise e, st') => (Raise e, st')
      end
  | Raise e => (Raise e, st)
  end.
Proof.
  unfold route, add_menu_item, bind, lift, ret.
  destruct (parse_body FoodItemCreate_init body) as [m|e]; [|reflexivity].
  now destruct (add_food_item_to_db m st) as [[i|e] st'].
Qed.

Lemma tt_route_POST_menu (body : PyDict) (st : State) :
  (exists errs, route (POST_menu body) st = (Raise (RequestValidationError errs), st))
  \/ (exists m, FoodItemCreate_init body = Ret m /\ len (Menu.name m) < 3
       /\ route (POST_menu body) st = (Raise RCSem.name_too_short, st))
  \/ (exists m, FoodItemCreate_init body = Ret m /\ 3 <= len (Menu.name m)
       /\ let new_item := {| as_FoodItemCreate := all_set m; Menu.id := next_menu_id st |} in
          route (POST_menu body) st = (Ret (Item new_item), stored_as new_item st)).
Proof.
  rewrite tt_route_POST_menu_eq.
  destruct (tt_parse_FoodItemCreate body) as [(m & Hm & Hp)|(errs & Hp)]; rewrite Hp.
  - right. pose proof (FoodItemCreate_init_validated _ _ Hm) as Hv.
    rewrite (add_food_item_to_db_spec m st Hv).
    destruct (len (Menu.name m) <? 3) eqn:E.
    + left. apply Z.ltb_lt in E. exists m. auto.
    + right. apply Z.ltb_ge in E. exists m. auto.
  - left. now exists errs.
Qed.

Lemma tt_route_PUT_state (item_id : Z) (body : PyDict) (st : State) :
  snd (route (PUT_menu_item item_id body) st) = st.
Proof.
  unfold route. unfold bind at 1 2. unfold lift at 1.
  destruct (parse_body FoodItemCreate_init body) as [m|e]; [|reflexivity].
  pose proof (tt_update_menu_item_state item_id m st) as H.
  destruct (update_menu_item item_id m st) as [[i|e] st']; cbn in *; now subst.
Qed.

Lemma respond_order_eq (o : Order) (st : State) : respond_order o st = (answer_of o, st).
Proof. unfold respond_order, answer_of, bind, lift, ret. now destruct (OrderResponse_of o). Qed.

Lemma route_GET_order_eq (k : Z) (st : State) :
  route (GET_order k) st =
  match dict_get Z.eqb k (orders_db st) with
  | Some o => (answer_of o, st)
  | None => (Raise (HTTPException 404 (DetailText "Order not found")), st)
  end.
Proof.
  unfold route, get_order_details. unfold bind at 1 2. unfold gets. cbn [fst snd].
  destruct (dict_get Z.eqb k (orders_db st)) as [o|]; [|reflexivity].
  unfold ret. apply respond_order_eq.
Qed.

Lemma route_PUT_order_status_eq (k : Z) (s : OrderStatus) (st : State) :
  route (PUT_order_status k s) st =
  match dict_get Z.eqb k (orders_db st) with
  | Some o => (answer_of (with_status o s),
               set_orders_db (dict_set Z.eqb k (with_status o s)) st)
  | None => (Raise (HTTPException 404 (DetailText "Order not found")), st)
  end.
Proof.
  unfold route. unfold bind at 1.
  destruct (dict_get Z.eqb k (orders_db st)) as [o|] eqn:E.
  - rewrite (update_order_status_present _ _ _ _ E). apply respond_order_eq.
  - now rewrite (update_order_status_absent _ _ _ E).
Qed.

Lemma route_POST_orders_eq (body : PyDict) (st : State) :
  route (POST_orders body) st =
  match parse_body OrderCreate_init body with
  | Ret oc =>
      match create_order oc st with
      | (Ret o, st') => (answer_of o, st')
      | (Raise e, st') => (Raise e, st')
      end
  | Raise e => (Raise e, st)
  end.
Proof.
  unfold route. unfold bind at 1 2. unfold lift at 1.
  destruct (parse_body OrderCreate_init body) as [oc|e]; [|reflexivity].
  destruct (create_order oc st) as [[o|e] st']; [apply respond_order_eq|reflexivity].
Qed.

Lemma route_POST_orders (body : PyDict) (st : State) :
  (exists errs, route (POST_orders body) st = (Raise (RequestValidationError errs), st))
  \/ (exists oc, OrderCreate_init body = Ret oc /\ order_ok oc
       /\ route (POST_orders body) st =
          (answer_of (pending oc (next_order_id st)), placed oc st)).
Proof.
  rewrite route_POST_orders_eq.
  destruct (parse_OrderCreate body) as [(oc & Hoc & Hp)|(errs & Hp)]; rewrite Hp.
  - right. exists oc. pose proof (OrderCreate_init_ok _ _ Hoc) as Hok.
    rewrite (create_order_spec oc st Hok). auto.
  - left. now exists errs.
Qed.

Lemma after_tests_steps (st : State) : steps st (after_tests st).
Proof.
  unfold after_tests.
  eapply steps_cons; [apply (step_place st Demo.valid_order)|].
  { exact (OrderCreate_init_ok _ _ valid_order_accepted). }
  eapply steps_cons.
  { apply (step_status _ (next_order_id st) (pending Demo.valid_order (next_order_id st))
                       CONFIRMED).
    apply placed_get. }
  eapply steps_cons; [apply step_place|].
  { exact (OrderCreate_init_ok _ _ invalid_menu_item_id_accepted). }
  eapply steps_cons; [apply step_place|].
  { exact (OrderCreate_init_ok _ _ price_mismatch_accepted). }
  apply steps_one. apply step_place.
  exact (OrderCreate_init_ok _ _ unavailable_item_accepted).
Qed.

Lemma route_steps (r : Request) (st : State) : steps st (snd (route r st)).
Proof.
  destruct r as [|body| |item_id|item_id body|item_id|category|body| |order_id
                |order_id new_status|].
  - constructor.
  - destruct (tt_route_POST_menu body st) as [(errs & ->)|[(m & Hm & Hl & ->)|(m & Hm & Hl & H)]].
    + constructor.
    + constructor.
    + cbn zeta in H. rewrite H. cbn [snd]. apply steps_one. constructor; [|exact Hl].
      eauto using FoodItemCreate_init_validated.
  - constructor.
  - unfold route, get_menu_item, bind, gets.
    cbn. destruct (dict_get Z.eqb item_id (menu_db st)); constructor.
  - rewrite tt_route_PUT_state. constructor.
  - unfold route, delete_menu_item, bind, gets, modify. cbn.
    destruct (dict_mem Z.eqb item_id (menu_db st)); cbn; [|constructor].
    apply steps_one. constructor.
  - unfold route, get_items_by_category, bind, gets. cbn.
    destruct (filter _ _); constructor.
  - destruct (route_POST_orders body st) as [(errs & ->)|(oc & _ & Hok & ->)].
    + constructor.
    + apply steps_one. now constructor.
  - unfold route, get_all_orders, bind, gets, lift. cbn.
    destruct (summaries _); constructor.
  - rewrite route_GET_order_eq.
    destruct (dict_get Z.eqb order_id (orders_db st)); constructor.
  - rewrite route_PUT_order_status_eq.
    destruct (dict_get Z.eqb order_id (orders_db st)) as [o|] eqn:E; [|constructor].
    apply steps_one. now constructor.
  - unfold route. unfold bind at 1. rewrite run_order_test_cases_spec.
    apply after_tests_steps.
Qed.

(** ** Invariants of the globals *)

Lemma tt_step_inv (st st' : State) : step st st' -> inv st -> inv st'.
Proof.
  intros Hs (Hok & Hlt & Hord). destruct Hs as [|m Hv Hl|k|oc Hoc|k o s Hk]; unfold inv; cbn.
  - auto.
  - repeat split; [| |exact Hord].
    + apply (Forall_dict_set Z.eqb); [|exact Hok].
      unfold RCSem.entry_ok. cbn [fst snd as_FoodItemCreate Menu.id].
      auto using all_set_rules, all_set_stripped.
    + apply (Forall_dict_set Z.eqb); [cbn; lia|].
      eapply Forall_impl; [|exact Hlt]. cbn. intros; lia.
  - repeat split; [| |exact Hord]; now apply Forall_dict_del.
  - repeat split; [exact Hok|exact Hlt|].
    apply (Forall_dict_set Z.eqb); [exact Hoc|exact Hord].
  - repeat split; [exact Hok|exact Hlt|].
    apply (Forall_dict_set Z.eqb); [|exact Hord]. cbn.
    apply (dict_get_In Z.eqb Z.eqb_eq) in Hk.
    exact (proj1 (Forall_forall _ _) Hord _ Hk).
Qed.

Lemma steps_inv (st st' : State) : steps st st' -> inv st -> inv st'.
Proof. induction 1; eauto using tt_step_inv. Qed.

Lemma tt_serve_cons (r : Request) (rest : list Request) (st : State) :
  serve (r :: rest) st =
  (fst (route r st) :: fst (serve rest (snd (route r st))),
   snd (serve rest (snd (route r st)))).
Proof.
  cbn [serve]. destruct (route r st) as [a st']. cbn [fst snd].
  now destruct (serve rest st').
Qed.

Lemma tt_serve_inv (reqs : list Request) (st : State) : inv st -> inv (snd (serve reqs st)).
Proof.
  revert st. induction reqs as [|r rest IH]; intros st H; [exact H|].
  rewrite tt_serve_cons. cbn [snd]. apply IH. eapply steps_inv; [apply route_steps|exact H].
Qed.

Lemma tt_import_ok : import = (Ret tt, initial).
Proof. vm_compute. reflexivity. Qed.

Lemma tt_empty_inv : inv empty.
Proof. repeat split; constructor. Qed.

End TTFacts.
(* ================================================================= *)
(** * Facts about Decimal arithmetic *)

Section DecFacts.
Import Dec Rules.

Lemma ndigits_fuel_le (fuel : nat) :
  forall n k, 1 <= k -> n < 10 ^ k -> ndigits_fuel fuel n <= k.
Proof.
  induction fuel as [|f IH]; intros n k Hk Hn; cbn [ndigits_fuel]; [lia|].
  destruct (n <? 10) eqn:E; [lia|]. apply Z.ltb_ge in E.
  assert (2 <= k).
  { destruct (Z.eq_dec k 1) as [->|]; [|lia]. change (10 ^ 1) with 10 in Hn. lia. }
  assert (n / 10 < 10 ^ (k - 1)).
  { apply Z.div_lt_upper_bound; [lia|].
    replace (10 * 10 ^ (k - 1)) with (10 ^ k); [exact Hn|].
    rewrite <- Z.pow_succ_r by lia. f_equal. lia. }
  specialize (IH (n / 10) (k - 1)). lia.
Qed.

(** A coefficient below [10 ^ 28] has at most 28 digits. *)
Lemma ndigits_le_prec (c : Z) : c < 10 ^ 28 -> ndigits c <= 28.
Proof. intros H. unfold ndigits. apply ndigits_fuel_le; [lia|exact H]. Qed.

(** No rounding and no overflow for a coefficient of at most 28 digits
    and an exponent the context holds. *)
Lemma fix_pos_exact (c e : Z) :
  0 < c < 10 ^ 28 -> Etiny <= e <= 26 -> fix_pos c e = Ret (mkDecimal c e).
Proof.
  intros Hc He. unfold fix_pos.
  pose proof (ndigits_le_prec c (proj2 Hc)) as Hd.
  unfold Etop, Etiny, Emax, Emin, prec in *.
  replace (999999 - 28 + 1 <? ndigits c + e - 28) with false
    by (symmetry; apply Z.ltb_ge; lia).
  replace (e <? Z.max (ndigits c + e - 28) (-999999 - 28 + 1)) with false
    by (symmetry; apply Z.ltb_ge; lia).
  reflexivity.
Qed.

Lemma fix_exact (d : Decimal) :
  0 < coeff d < 10 ^ 28 -> Etiny <= exp d <= 26 -> _fix d = Ret d.
Proof.
  intros Hc He. unfold _fix.
  replace (coeff d =? 0) with false by (symmetry; apply Z.eqb_neq; lia).
  replace (0 <? coeff d) with true by (symmetry; apply Z.ltb_lt; lia).
  rewrite fix_pos_exact by assumption. now destruct d.
Qed.

(** A price the models accept is more than zero. *)
Lemma price_structural_inv (d : Decimal) : price_structural d = true -> 0 < coeff d.
Proof.
  unfold price_structural. intros H.
  apply andb_prop in H as [_ H]. now apply Z.ltb_lt in H.
Qed.

Lemma pow10_pos (k : Z) : 0 <= k -> 1 <= 10 ^ k.
Proof. intros H. pose proof (Z.pow_pos_nonneg 10 k). lia. Qed.

(** A positive amount of at most 28 digits, in units of [10 ^ (- s)],
    bounds its coefficient and its exponent. *)
Lemma scaled_bounds (s c e : Z) :
  2 <= s -> 0 < c -> - s <= e -> c * 10 ^ (e + s) < 10 ^ 28 -> c < 10 ^ 28 /\ e <= 25.
Proof.
  intros Hs Hc He Hb. pose proof (pow10_pos (e + s)). split; [nia|].
  destruct (Z_le_gt_dec e 25) as [|Hgt]; [assumption|exfalso].
  assert (10 ^ 28 <= 10 ^ (e + s)) by (apply Z.pow_le_mono_r; lia). nia.
Qed.

(** [quantity * unit_price] is exact while the product stays within 28
    digits. *)
Lemma mul_exact (s q : Z) (u : Decimal) :
  2 <= s <= - Etiny -> 0 < q -> 0 < coeff u -> - s <= exp u ->
  q * scaled s u < 10 ^ 28 ->
  mul (of_int q) u = Ret (mkDecimal (q * coeff u) (exp u)).
Proof.
  intros Hs Hq Hc He Hb. unfold mul, of_int. cbn [coeff exp]. rewrite Z.add_0_l.
  unfold scaled in Hb. rewrite Z.mul_assoc in Hb.
  destruct (scaled_bounds s (q * coeff u) (exp u)) as [H1 H2]; [lia|nia|lia|exact Hb|].
  apply fix_exact; cbn [coeff exp]; [nia|lia].
Qed.

Lemma scaled_rescale (s : Z) (d : Decimal) (e : Z) :
  - s <= e <= exp d -> scaled s (rescale d e) = scaled s d.
Proof.
  intros H. unfold scaled, rescale. cbn [coeff exp].
  rewrite <- Z.mul_assoc, <- Z.pow_add_r by lia. do 2 f_equal. lia.
Qed.

Lemma scaled_nonneg (s : Z) (d : Decimal) : 0 <= coeff d -> 0 <= scaled s d.
Proof. intros H. unfold scaled. pose proof (Z.pow_nonneg 10 (exp d + s)). nia. Qed.

Lemma scaled_pos (s : Z) (d : Decimal) : 0 < coeff d -> - s <= exp d -> 0 < scaled s d.
Proof. intros H He. unfold scaled. pose proof (pow10_pos (exp d + s)). nia. Qed.

(** Adding a positive amount to a running total is exact while the sum
    stays within 28 digits. *)
Lemma add_exact (s : Z) (a b : Decimal) :
  2 <= s <= - Etiny ->
  0 <= coeff a -> - s <= exp a <= 0 -> 0 < coeff b -> - s <= exp b ->
  scaled s a + scaled s b < 10 ^ 28 ->
  exists r, add a b = Ret r /\ scaled s r = scaled s a + scaled s b
            /\ 0 < coeff r /\ - s <= exp r <= 0.
Proof.
  intros Hs Ha Hea Hb Heb Hsum.
  set (e := Z.min (exp a) (exp b)).
  assert (He : - s <= e <= 0) by (unfold e; lia).
  pose proof (scaled_nonneg s a Ha) as Hca.
  pose proof (scaled_pos s b Hb Heb) as Hcb.
  destruct (scaled_bounds s (coeff b) (exp b)) as [Hb28 Hb25];
    [lia|lia|lia|unfold scaled in *; lia|].
  assert (Hgen : forall r, 0 < coeff r -> - s <= exp r <= 0 ->
                           scaled s r = scaled s a + scaled s b -> _fix r = Ret r).
  { intros r Hr0 Hre Hrs.
    destruct (scaled_bounds s (coeff r) (exp r)) as [H1 H2]; [lia|lia|lia| |].
    - change (coeff r * 10 ^ (exp r + s)) with (scaled s r). lia.
    - apply fix_exact; [lia|unfold Etiny, Emin, prec in *; lia]. }
  unfold add. fold e.
  replace (coeff b =? 0) with false by (symmetry; apply Z.eqb_neq; lia).
  rewrite andb_false_r.
  destruct (coeff a =? 0) eqn:Ea.
  - apply Z.eqb_eq in Ea.
    set (e' := Z.max e (exp b - prec - 1)).
    assert (He' : - s <= e' <= 0 /\ e' <= exp b) by (unfold e', e, prec in *; lia).
    exists (rescale b e').
    assert (Hrs : scaled s (rescale b e') = scaled s a + scaled s b).
    { rewrite scaled_rescale by lia. unfold scaled at 2. rewrite Ea. lia. }
    assert (Hr0 : 0 < coeff (rescale b e')).
    { unfold rescale. cbn [coeff]. pose proof (pow10_pos (exp b - e')). nia. }
    split; [apply Hgen; [exact Hr0|cbn [rescale exp]; lia|exact Hrs]|].
    split; [exact Hrs|]. split; [exact Hr0|cbn [rescale exp]; lia].
  - apply Z.eqb_neq in Ea.
    set (r := mkDecimal (coeff (rescale a e) + coeff (rescale b e)) e).
    assert (Hrs : scaled s r = scaled s a + scaled s b).
    { rewrite <- (scaled_rescale s a e), <- (scaled_rescale s b e) by (unfold e; lia).
      unfold r, scaled, rescale. cbn [coeff exp]. ring. }
    assert (Hr0 : 0 < coeff r).
    { unfold r, rescale. cbn [coeff exp].
      pose proof (pow10_pos (exp a - e)). pose proof (pow10_pos (exp b - e)).
      unfold e in *. nia. }
    exists r. split; [apply Hgen; [exact Hr0|exact He|exact Hrs]|].
    split; [exact Hrs|]. split; [exact Hr0|exact He].
Qed.

End DecFacts.
(* ================================================================= *)
(** * The derived totals of an order *)

Section TotalsFacts.
Import Dec Orders Rules.

Lemma places_ge_2 (l : list OrderItem) : 2 <= places l.
Proof. induction l as [|i l IH]; cbn [places fold_right]; [lia|]. fold (places l). lia. Qed.

Lemma places_cons (i : OrderItem) (l : list OrderItem) :
  places (i :: l) = Z.max (places l) (- exp (unit_price i)).
Proof. reflexivity. Qed.

(** Every unit price can be written with the decimal places of the
    lines. *)
Lemma places_fit (l : list OrderItem) :
  Forall (fun i => - places l <= exp (unit_price i)) l.
Proof.
  induction l as [|i l IH]; [constructor|].
  rewrite places_cons. constructor; [lia|].
  eapply Forall_impl; [|exact IH]. cbn. intros; lia.
Qed.

Lemma line_amount_pos (s : Z) (i : OrderItem) :
  line_ok i -> - s <= exp (unit_price i) -> 0 < line_amount s i.
Proof.
  intros (_ & _ & Hq & Hp) He. apply price_structural_inv in Hp.
  unfold line_amount. pose proof (scaled_pos s _ Hp He). nia.
Qed.

Lemma amount_at_nonneg (s : Z) (l : list OrderItem) :
  Forall line_ok l -> Forall (fun i => - s <= exp (unit_price i)) l -> 0 <= amount_at s l.
Proof.
  induction 1 as [|i l Hi _ IH]; intros Hf; cbn; [lia|].
  inversion Hf as [|? ? He Hf']; subst.
  pose proof (line_amount_pos s i Hi He). specialize (IH Hf'). unfold amount_at in IH. lia.
Qed.

Lemma item_total_exact (s : Z) (i : OrderItem) :
  2 <= s <= - Etiny -> line_ok i -> - s <= exp (unit_price i) ->
  line_amount s i < 10 ^ 28 ->
  item_total i = Ret (mkDecimal (quantity i * coeff (unit_price i)) (exp (unit_price i))).
Proof.
  intros Hs (_ & _ & Hq & Hp) He Hb. apply price_structural_inv in Hp.
  unfold item_total. apply (mul_exact s); auto; lia.
Qed.

Lemma sum_item_totals_exact (s : Z) (l : list OrderItem) :
  2 <= s <= - Etiny ->
  forall acc,
    Forall line_ok l -> Forall (fun i => - s <= exp (unit_price i)) l ->
    0 <= coeff acc -> - s <= exp acc <= 0 ->
    scaled s acc + amount_at s l < 10 ^ 28 ->
    exists r, sum_item_totals acc l = Ret r /\ scaled s r = scaled s acc + amount_at s l
              /\ 0 <= coeff r /\ - s <= exp r <= 0.
Proof.
  intros Hs. induction l as [|i l IH]; intros acc Hl Hf Hc He Hb.
  - exists acc. cbn. repeat split; auto; lia.
  - inversion Hl as [|i' l' Hi Hl']; subst.
    inversion Hf as [|i' l' Hei Hf']; subst.
    pose proof (line_amount_pos s i Hi Hei) as Hpos.
    pose proof (amount_at_nonneg s l Hl' Hf') as Hnn.
    pose proof (scaled_nonneg s acc Hc) as Hca.
    change (amount_at s (i :: l)) with (line_amount s i + amount_at s l) in *.
    cbn [sum_item_totals]. rewrite (item_total_exact s i Hs Hi Hei) by lia. cbn [ebind].
    destruct Hi as (_ & _ & Hq & Hp). apply price_structural_inv in Hp.
    assert (Hline : scaled s (mkDecimal (quantity i * coeff (unit_price i))
                                        (exp (unit_price i))) = line_amount s i).
    { unfold line_amount, scaled. cbn [coeff exp]. ring. }
    destruct (add_exact s acc (mkDecimal (quantity i * coeff (unit_price i))
                                         (exp (unit_price i))))
      as (acc' & Hadd & Hsc & Hcoeff & Hexp);
      [exact Hs|exact Hc|exact He|cbn [coeff]; nia|cbn [exp]; exact Hei
      |rewrite Hline; lia|].
    rewrite Hadd. cbn [ebind]. rewrite Hline in Hsc.
    destruct (IH acc') as (r & Hr & Hrc & Hr0 & Hre); auto; try lia.
    exists r. repeat split; auto; lia.
Qed.

Lemma fold_left_add (l : list Z) (a : Z) :
  fold_left Z.add l a = a + fold_right Z.add 0 l.
Proof.
  revert a. induction l as [|x l IH]; intros a; cbn; [lia|]. rewrite IH. lia.
Qed.

(** The totals are the exact ones while the lines can be added up
    without rounding. *)
Lemma totals_exact_bounded (o : Order) :
  order_ok (as_OrderCreate o) ->
  within_context (items (as_OrderCreate o)) ->
  totals_exact o.
Proof.
  intros (_ & _ & Hl) [Hp Hb]. unfold totals_exact. cbn zeta.
  set (lines := items (as_OrderCreate o)) in *.
  set (s := places lines) in *.
  pose proof (places_ge_2 lines) as H2. fold s in H2.
  assert (Hs : 2 <= s <= - Etiny) by lia.
  pose proof (places_fit lines) as Hf. fold s in Hf.
  pose proof (amount_at_nonneg s lines Hl Hf) as Hnn.
  assert (Hfee : 0 < 299 * 10 ^ (s - 2)) by (pose proof (pow10_pos (s - 2)); lia).
  destruct (sum_item_totals_exact s lines Hs (of_int 0))
    as (t & Ht & Htc & Ht0 & Hte);
    [exact Hl|exact Hf|cbn; lia|cbn; lia|change (scaled s (of_int 0)) with (0 * 10 ^ (0 + s)); lia|].
  change (scaled s (of_int 0)) with (0 * 10 ^ (0 + s)) in Htc.
  unfold total_amount_with_delivery, total_amount. fold lines. rewrite Ht. cbn [ebind].
  assert (Hfs : scaled s DELIVERY_FEE = 299 * 10 ^ (s - 2)).
  { unfold scaled, DELIVERY_FEE. cbn [coeff exp]. do 2 f_equal. lia. }
  destruct (add_exact s t DELIVERY_FEE) as (td & Hadd & Hc & _ & He);
    [exact Hs|exact Ht0|exact Hte|cbn; lia|cbn; lia|rewrite Hfs; lia|].
  rewrite Hfs in Hc.
  exists t, td. repeat split; auto; try lia.
  unfold total_quantity, sum_quantities. fold lines. rewrite fold_left_add. lia.
Qed.

End TotalsFacts.

(* ================================================================= *)
(** * Updates of menu items (C7, C1) *)

Section UpdateTheorems.
Import Str Menu Rules Http RestaurantChain MenuClaims.

(** An update whose target is absent answers 404 and leaves the globals
    as they were. *)
Lemma update_absent_not_found (item_id : Z) (body : PyDict) (st : State) (m : FoodItemCreate) :
  FoodItemCreate_init body = Ret m ->
  dict_get Z.eqb item_id (menu_db st) = None ->
  route (PUT_menu_item item_id body) st =
  (Raise (HTTPException 404 (DetailText "Food item not found")), st).
Proof.
  intros Hm Habs. unfold route. unfold bind at 1 2. unfold lift at 1.
  unfold parse_body. rewrite Hm.
  now rewrite (RCFacts.update_menu_item_absent _ _ _ Habs).
Qed.

(** No update request changes the globals, whatever it answers. *)
Lemma update_never_stores (item_id : Z) (body : PyDict) (st : State) :
  snd (route (PUT_menu_item item_id body) st) = st.
Proof. apply RCFacts.route_PUT_state. Qed.

(** An update whose target is present and whose body the model accepts
    answers with the uncaught TypeError, status 500. *)
Lemma update_present_type_error (item_id : Z) (body : PyDict) (st : State)
    (m : FoodItemCreate) (stored : FoodItem) :
  FoodItemCreate_init body = Ret m ->
  dict_get Z.eqb item_id (menu_db st) = Some stored ->
  route (PUT_menu_item item_id body) st = (Raise RCSem.id_clash, st).
Proof.
  intros Hm Hin. unfold route. unfold bind at 1 2. unfold lift at 1.
  unfold parse_body. rewrite Hm.
  now rewrite (RCFacts.update_menu_item_present _ _ _ _ Hin).
Qed.

(** C7, at the failing input.  On the freshly imported menu service,
    item 1 is updated with the body of the first seed item renamed
    [" a "].  The body passes the model (the name is measured before it
    is stripped), the merged record fails re-validation (its name
    ["a"] is too short), yet the handler answers neither 422 nor any
    HTTPException: the call [FoodItem(id=item_id, ...)] names [id]
    twice and raises TypeError, which [except ValueError] lets through
    (status 500).  The globals are unchanged. *)
Theorem C7_update_answers_type_error_not_422 :
  exists updated_item stored,
    FoodItemCreate_init short_name_body = Ret updated_item
    /\ dict_get Z.eqb 1 (menu_db initial) = Some stored
    /\ FoodItem_init (merged_item_data stored updated_item)
       = Raise (ValidationError "FoodItem" [([LKey "name"], "string_too_short")])
    /\ route (PUT_menu_item 1 short_name_body) initial
       = (Raise (TypeError "got multiple values for keyword argument 'id'"), initial)
    /\ status_code 200 (fst (route (PUT_menu_item 1 short_name_body) initial)) = 500.
Proof.
  destruct (FoodItemCreate_init short_name_body) as [m|e] eqn:Hm; [|discriminate Hm].
  destruct (dict_get Z.eqb 1 (menu_db initial)) as [s|] eqn:Hs; [|discriminate Hs].
  exists m, s. split; [reflexivity|]. split; [reflexivity|].
  assert (Hr : route (PUT_menu_item 1 short_name_body) initial
               = (Raise RCSem.id_clash, initial))
    by exact (update_present_type_error 1 _ _ m s Hm Hs).
  split.
  - vm_compute in Hm. injection Hm as <-. vm_compute in Hs. injection Hs as <-.
    vm_compute. reflexivity.
  - split; [exact Hr|]. now rewrite Hr.
Qed.

End UpdateTheorems.

Section PriceOnlyUpdate.
Import Pyd Str Menu Rules Http RestaurantChain MenuClaims.

Lemma exclude_unset_keys (m : FoodItemCreate) (f : string) :
  In f (dict_keys (FoodItemCreate_dict_exclude_unset m)) -> In f (model_fields_set m).
Proof.
  unfold dict_keys, FoodItemCreate_dict_exclude_unset. intros H.
  apply in_map_iff in H as ([k v] & <- & H). apply filter_In in H as [_ H].
  apply existsb_exists in H as (x & Hx & E). apply String.eqb_eq in E. cbn in E. now subst.
Qed.

Lemma fields_set_supplied (body : PyDict) (m : FoodItemCreate) (f : string) :
  FoodItemCreate_init body = Ret m -> In f (model_fields_set m) ->
  kw_mem f body = true /\ In f field_names.
Proof.
  intros Hm Hin. apply construct_Ret in Hm.
  apply validate_fields_inv in Hm as (_ & _ & _ & _ & _ & _ & _ & Hset).
  rewrite Hset in Hin. unfold fields_set_of in Hin. apply filter_In in Hin. tauto.
Qed.

(** A field the body leaves out keeps its stored value in the merged
    data. *)
Lemma merged_keeps_unset (stored : FoodItem) (body : PyDict) (m : FoodItemCreate) (f : string) :
  FoodItemCreate_init body = Ret m -> kw_mem f body = false ->
  kw_get f (merged_item_data stored m) = kw_get f (FoodItem_dict stored).
Proof.
  intros Hm Hf. unfold merged_item_data, kw_get.
  apply (dict_get_update_other String.eqb String.eqb_eq).
  intros Hin. apply exclude_unset_keys in Hin.
  destruct (fields_set_supplied body m f Hm Hin). congruence.
Qed.

Lemma merged_keeps_id (stored : FoodItem) (body : PyDict) (m : FoodItemCreate) :
  FoodItemCreate_init body = Ret m ->
  kw_get "id" (merged_item_data stored m) = Some (VInt (id stored)).
Proof.
  intros Hm. unfold merged_item_data, kw_get.
  rewrite (dict_get_update_other String.eqb String.eqb_eq); [reflexivity|].
  intros Hin. apply exclude_unset_keys in Hin.
  destruct (fields_set_supplied body m "id" Hm Hin) as [_ H].
  cbn in H. intuition discriminate.
Qed.

Lemma price_only_rejected (p : Decimal) :
  price_structural p = true -> price_in_band p = true ->
  parse_body FoodItemCreate_init (price_only p)
  = Raise (RequestValidationError missing_required).
Proof.
  intros Hs Hb. unfold parse_body, FoodItemCreate_init, validate_fields.
  assert (Hp : required "price" (fun v => after (check_decimal v) validate_price_range)
                 (price_only p) = Valid p).
  { apply required_Valid. exists (VDec p). split; [reflexivity|].
    now apply check_price_dump. }
  rewrite Hp. reflexivity.
Qed.

(** C1, as stated, fails on the freshly imported menu service: the
    update of item 1 with the body [{"price": 20.00}] does not succeed. *)
Lemma C1_counterexample : ~ price_update_succeeds initial 1 (mkDecimal 2000 (-2)).
Proof.
  intros H. destruct (H seed_pizza eq_refl) as (updated & st' & Hr & _).
  vm_compute in Hr. discriminate Hr.
Qed.

(** C1, amended.  For every stored item [i] and every in-band price, an
    update request whose body carries only the price is refused before
    the handler runs: the body type requires name, description,
    category, preparation_time and ingredients, so the answer is the
    422 of a refused body and item [i] keeps its id and every stored
    field.  Only the optional fields may be left out of an update body;
    in the merged data such a field, and [id], keep their stored
    values. *)
Theorem C1_price_only_update_refused (st : State) (i : Z) (p : Decimal) (stored : FoodItem) :
  dict_get Z.eqb i (menu_db st) = Some stored ->
  price_structural p = true -> price_in_band p = true ->
  price_only_refused st i p stored.
Proof.
  intros Hin Hs Hb.
  assert (Hr : route (PUT_menu_item i (price_only p)) st
               = (Raise (RequestValidationError missing_required), st)).
  { unfold route. unfold bind at 1 2. unfold lift at 1.
    now rewrite (price_only_rejected p Hs Hb). }
  unfold price_only_refused. cbn zeta. rewrite Hr. cbn [fst snd status_code].
  split; [reflexivity|]. split; [reflexivity|]. split; [exact Hin|]. split.
  - intros body m f Hm _ Hf. exact (merged_keeps_unset stored body m f Hm Hf).
  - intros body m Hm. exact (merged_keeps_id stored body m Hm).
Qed.

Lemma C1_witness :
  dict_get Z.eqb 1 (menu_db initial) = Some seed_pizza
  /\ price_structural (mkDecimal 2000 (-2)) = true
  /\ price_in_band (mkDecimal 2000 (-2)) = true
  /\ price_only_refused initial 1 (mkDecimal 2000 (-2)) seed_pizza.
Proof.
  split; [reflexivity|]. split; [reflexivity|]. split; [reflexivity|].
  apply C1_price_only_update_refused; reflexivity.
Defined.

End PriceOnlyUpdate.

(* ================================================================= *)
(** * The price rule on creation (C4) *)

Section PriceRule.
Import Pyd Str Menu Rules Http RestaurantChain MenuClaims.













End PriceRule.

(* ================================================================= *)
(** * Creation followed by lookup (C8) *)

Section RoundTrip.
Import Pyd Str Menu Rules Http RestaurantChain MenuClaims.

Lemma margherita_accepted (d : string) :
  10 <= len d <= 500 ->
  FoodItemCreate_init (margherita d)
  = Ret (margherita_record d ["name"; "description"; "category"; "price";
                              "preparation_time"; "ingredients"; "calories";
                              "is_vegetarian"]).
Proof.
  intros Hd. unfold FoodItemCreate_init, validate_fields.
  assert (Hdesc : required "description" (check_str 10 (Some 500)) (margherita d) = Valid d).
  { apply required_Valid. exists (VStr d). split; [reflexivity|].
    apply check_str_Valid. repeat split; [lia|]. intros ? [= <-]. lia. }
  rewrite Hdesc. reflexivity.
Qed.

(** The item that is in the menu under an id is the answer of a lookup
    by that id. *)
Lemma get_menu_item_stored (st : State) (item : FoodItem) (k : Z) :
  dict_get Z.eqb k (menu_db st) = Some item ->
  route (GET_menu_item k) st = (Ret (Item item), st).
Proof. intros H. unfold route, get_menu_item, bind, gets. cbn. now rewrite H. Qed.

(** C8.  From any state of the menu service, creating the Margherita
    Pizza of the specification (with any description of 10 to 500
    characters) and reading it back by the id of the answer yields the
    created record, field for field; its price category is "Mid-range"
    and its dietary information is exactly ["Vegetarian"]. *)
Theorem C8_create_then_get (st : State) (d : string) :
  10 <= len d <= 500 -> margherita_round_trip st d.
Proof.
  intros Hd. pose proof (margherita_accepted d Hd) as Hm.
  destruct (RCFacts.route_POST_menu (margherita d) st)
    as [(errs & Hr)|[(m & Hm' & Hl & _)|(m & Hm' & _ & Hr)]].
  - exfalso. rewrite RCFacts.route_POST_menu_eq in Hr.
    unfold parse_body in Hr. rewrite Hm in Hr.
    rewrite (RCFacts.add_item_to_db_spec _ st (FoodItemCreate_init_validated _ _ Hm)) in Hr.
    cbn in Hr. discriminate Hr.
  - exfalso. rewrite Hm in Hm'. injection Hm' as <-. cbn in Hl. lia.
  - rewrite Hm in Hm'. injection Hm' as <-. cbn zeta in Hr.
    eexists _, _. split; [exact Hr|]. split; [|split; [reflexivity|split; reflexivity]].
    apply get_menu_item_stored. cbn [id RCSem.stored_as menu_db].
    apply (dict_get_set_same Z.eqb Z.eqb_eq).
Qed.

Lemma C8_witness :
  10 <= len "Classic Pizza with tomato sauce, mozzarella cheese, and fresh basil" <= 500
  /\ margherita_round_trip initial
       "Classic Pizza with tomato sauce, mozzarella cheese, and fresh basil".
Proof.
  split; [vm_compute; split; discriminate|].
  apply C8_create_then_get. vm_compute. split; discriminate.
Defined.

End RoundTrip.

(* ================================================================= *)
(** * Names in the menus (C2) *)

Section Names.
Import Pyd Str Menu Rules Http MenuClaims StoreClaims.

(** Importing a module is serving one creation request per seed item. *)
Lemma rc_initial_served :
  RestaurantChain.initial
  = snd (RestaurantChain.serve
           (map RestaurantChain.POST_menu Samples.sample_menu_items_raw)
           RestaurantChain.empty).
Proof. vm_compute. reflexivity. Qed.

Lemma tt_initial_served :
  RestaurantChainTwoTables.initial
  = snd (RestaurantChainTwoTables.serve
           (map RestaurantChainTwoTables.POST_menu Samples.sample_food_items_raw)
           RestaurantChainTwoTables.empty).
Proof. vm_compute. reflexivity. Qed.

Lemma rc_initial_inv : RCSem.inv RestaurantChain.initial.
Proof. rewrite rc_initial_served. apply RCFacts.serve_inv, RCFacts.empty_inv. Qed.

Lemma tt_initial_inv : TTSem.inv RestaurantChainTwoTables.initial.
Proof. rewrite tt_initial_served. apply TTFacts.tt_serve_inv, TTFacts.tt_empty_inv. Qed.

Lemma entry_ok_name (kv : Z * FoodItem) :
  RCSem.entry_ok kv -> name_rule (name (as_FoodItemCreate (snd kv))).
Proof.
  intros (((Hlen & Hpat) & _) & Hstrip & _). unfold name_rule.
  rewrite Hstrip. split; [exact Hlen|now apply name_pattern_all].
Qed.

Lemma created_name (body : PyDict) (m : FoodItemCreate) :
  FoodItemCreate_init body = Ret m -> 3 <= len (name m) ->
  exists raw, kw_get "name" body = Some (VStr raw)
              /\ name (as_FoodItemCreate {| as_FoodItemCreate := all_set m; id := 0 |})
                 = strip raw
              /\ name_rule (strip raw).
Proof.
  intros Hm Hlen. apply construct_Ret in Hm.
  apply validate_fields_inv in Hm as ((raw & Hget & Hraw & Hpat & Hname) & _).
  exists raw. split; [exact Hget|]. split; [exact Hname|].
  unfold name_rule. rewrite strip_idem, <- Hname. split.
  - rewrite Hname. pose proof (strip_len raw). rewrite Hname in Hlen. lia.
  - rewrite Hname. now apply strip_all, name_pattern_all.
Qed.

(** C2.  Every item in the menu of either service, after import and
    after any sequence of requests, has a name that, once trimmed, is 3
    to 100 characters long and made of letters and white space only;
    and when a creation body is accepted, the stored name is the
    trimmed name of the body and obeys these bounds. *)
Theorem C2_names_obey_rule : names_obey_rule.
Proof.
  split.
  - intros item [reqs k Hin|reqs k Hin].
    + pose proof (RCFacts.serve_inv reqs _ rc_initial_inv) as [Hok _].
      exact (entry_ok_name _ (proj1 (Forall_forall _ _) Hok _ Hin)).
    + pose proof (TTFacts.tt_serve_inv reqs _ tt_initial_inv) as [Hok _].
      exact (entry_ok_name _ (proj1 (Forall_forall _ _) Hok _ Hin)).
  - intros body item [st st' Hr|st st' Hr].
    + destruct (RCFacts.route_POST_menu body st)
        as [(errs & Hr')|[(m & Hm & Hl & Hr')|(m & Hm & Hl & Hr')]];
        rewrite Hr' in Hr; try discriminate Hr.
      injection Hr as <- _. exact (created_name body m Hm Hl).
    + destruct (TTFacts.tt_route_POST_menu body st)
        as [(errs & Hr')|[(m & Hm & Hl & Hr')|(m & Hm & Hl & Hr')]];
        rewrite Hr' in Hr; try discriminate Hr.
      injection Hr as <- _. exact (created_name body m Hm Hl).
Qed.

Lemma C2_witness :
  in_some_menu seed_pizza
  /\ name_rule (name (as_FoodItemCreate seed_pizza)).
Proof.
  assert (H : in_some_menu seed_pizza).
  { apply (in_menu_service seed_pizza [] 1). vm_compute. left. reflexivity. }
  split; [exact H|]. exact (proj1 C2_names_obey_rule seed_pizza H).
Defined.

End Names.

(* ================================================================= *)
(** * Ids are never reused (C10) *)

Section Ids.
Import Pyd Str Menu Rules Http MenuClaims StoreClaims.

Lemma rc_step_counter (st st' : RestaurantChain.State) :
  RCSem.step st st' ->
  RestaurantChain.last_item_id st <= RestaurantChain.last_item_id st'.
Proof. intros [| |m Hv Hl|k]; cbn; lia. Qed.

Lemma tt_step_counter (st st' : RestaurantChainTwoTables.State) :
  TTSem.step st st' ->
  RestaurantChainTwoTables.next_menu_id st <= RestaurantChainTwoTables.next_menu_id st'.
Proof. intros [|m Hv Hl|k|oc Hoc|k o s Hk]; cbn; lia. Qed.

Lemma tt_steps_counter (st st' : RestaurantChainTwoTables.State) :
  TTSem.steps st st' ->
  RestaurantChainTwoTables.next_menu_id st <= RestaurantChainTwoTables.next_menu_id st'.
Proof.
  induction 1 as [|st st1 st2 H1 _ IH]; [lia|].
  pose proof (tt_step_counter _ _ H1). lia.
Qed.

Lemma Forall_lt_weaken (a b : Z) (l : list Z) :
  a <= b -> Forall (fun i => b < i) l -> Forall (fun i => a < i) l.
Proof. intros Hab. apply Forall_impl. intros; lia. Qed.

Lemma Forall_le_weaken (a b : Z) (l : list Z) :
  a <= b -> Forall (fun i => b <= i) l -> Forall (fun i => a <= i) l.
Proof. intros Hab. apply Forall_impl. intros; lia. Qed.

Lemma rc_assigned_sorted (reqs : list RestaurantChain.Request) :
  forall st,
    StronglySorted Z.lt (rc_assigned reqs (fst (RestaurantChain.serve reqs st)))
    /\ Forall (fun i => RestaurantChain.last_item_id st < i)
              (rc_assigned reqs (fst (RestaurantChain.serve reqs st))).
Proof.
  induction reqs as [|r rest IH]; intros st; [split; constructor|].
  rewrite RCFacts.serve_cons. cbn [fst].
  pose proof (rc_step_counter _ _ (RCFacts.route_step r st)) as Hmono.
  destruct (IH (snd (RestaurantChain.route r st))) as [Hs Hf].
  assert (Hskip : StronglySorted Z.lt
                    (rc_assigned rest (fst (RestaurantChain.serve rest
                                              (snd (RestaurantChain.route r st)))))
                  /\ Forall (fun i => RestaurantChain.last_item_id st < i)
                       (rc_assigned rest (fst (RestaurantChain.serve rest
                                                 (snd (RestaurantChain.route r st)))))).
  { split; [exact Hs|]. eapply Forall_lt_weaken; [exact Hmono|exact Hf]. }
  destruct r as [|item_id|body|item_id body|item_id|category|];
    try (cbn [rc_assigned]; exact Hskip).
  destruct (RCFacts.route_POST_menu body st)
    as [(errs & Hr)|[(m & Hm & Hl & Hr)|(m & Hm & Hl & Hr)]].
  - rewrite Hr in *. cbn [rc_assigned fst snd] in *. exact Hskip.
  - rewrite Hr in *. cbn [rc_assigned fst snd] in *. exact Hskip.
  - cbn zeta in Hr. rewrite Hr in *. cbn [rc_assigned fst snd id] in *.
    cbn [RCSem.stored_as RestaurantChain.last_item_id] in Hf.
    split.
    + constructor; [exact Hs|exact Hf].
    + constructor; [lia|]. eapply Forall_lt_weaken; [|exact Hf]. lia.
Qed.

Lemma tt_assigned_sorted (reqs : list RestaurantChainTwoTables.Request) :
  forall st,
    StronglySorted Z.lt (tt_assigned reqs (fst (RestaurantChainTwoTables.serve reqs st)))
    /\ Forall (fun i => RestaurantChainTwoTables.next_menu_id st <= i)
              (tt_assigned reqs (fst (RestaurantChainTwoTables.serve reqs st))).
Proof.
  induction reqs as [|r rest IH]; intros st; [split; constructor|].
  rewrite TTFacts.tt_serve_cons. cbn [fst].
  pose proof (tt_steps_counter _ _ (TTFacts.route_steps r st)) as Hmono.
  destruct (IH (snd (RestaurantChainTwoTables.route r st))) as [Hs Hf].
  assert (Hskip : StronglySorted Z.lt
                    (tt_assigned rest (fst (RestaurantChainTwoTables.serve rest
                                              (snd (RestaurantChainTwoTables.route r st)))))
                  /\ Forall (fun i => RestaurantChainTwoTables.next_menu_id st <= i)
                       (tt_assigned rest
                          (fst (RestaurantChainTwoTables.serve rest
                                  (snd (RestaurantChainTwoTables.route r st)))))).
  { split; [exact Hs|]. eapply Forall_le_weaken; [exact Hmono|exact Hf]. }
  destruct r as [|body| |item_id|item_id body|item_id|category|body| |order_id
                |order_id new_status|];
    try (cbn [tt_assigned]; exact Hskip).
  destruct (TTFacts.tt_route_POST_menu body st)
    as [(errs & Hr)|[(m & Hm & Hl & Hr)|(m & Hm & Hl & Hr)]].
  - rewrite Hr in *. cbn [tt_assigned fst snd] in *. exact Hskip.
  - rewrite Hr in *. cbn [tt_assigned fst snd] in *. exact Hskip.
  - cbn zeta in Hr. rewrite Hr in *. cbn [tt_assigned fst snd id] in *.
    cbn [TTSem.stored_as RestaurantChainTwoTables.next_menu_id
         RestaurantChainTwoTables.set_next_menu_id
         RestaurantChainTwoTables.set_menu_db] in Hf.
    split.
    + constructor; [exact Hs|]. eapply Forall_impl; [|exact Hf]. cbn. intros; lia.
    + constructor; [lia|]. eapply Forall_le_weaken; [|exact Hf]. lia.
Qed.

Lemma sorted_app (l1 l2 : list Z) (b : Z) :
  StronglySorted Z.lt l1 -> Forall (fun i => i <= b) l1 ->
  StronglySorted Z.lt l2 -> Forall (fun i => b < i) l2 ->
  StronglySorted Z.lt (l1 ++ l2).
Proof.
  intros H1 Hb1 H2 Hb2. induction H1 as [|x l1 Hs IH Hx]; [exact H2|].
  inversion Hb1 as [|? ? Hxb Hb1']; subst. cbn. constructor; [auto|].
  apply Forall_app. split; [exact Hx|]. eapply Forall_impl; [|exact Hb2]. cbn. intros; lia.
Qed.

(** C10.  In either service the ids assigned by successful creations
    are strictly increasing along every sequence of requests, deletions
    included, and lie beyond the counter the sequence started from;
    after import they continue the ids of the seed items.  An id is
    therefore never assigned twice. *)
Theorem C10_ids_never_reused : ids_never_reused.
Proof.
  split; [intros reqs st; apply rc_assigned_sorted|].
  split; [intros reqs st; apply tt_assigned_sorted|].
  split.
  - intros reqs.
    destruct (rc_assigned_sorted reqs RestaurantChain.initial) as [Hs Hf].
    apply (sorted_app _ _ 5); [| |exact Hs|exact Hf].
    + vm_compute. repeat (constructor; [|repeat (constructor; try reflexivity)]).
      constructor.
    + vm_compute. repeat (constructor; [discriminate|]). constructor.
  - intros reqs.
    destruct (tt_assigned_sorted reqs RestaurantChainTwoTables.initial) as [Hs Hf].
    apply (sorted_app _ _ 6); [| |exact Hs|].
    + vm_compute. repeat (constructor; [|repeat (constructor; try reflexivity)]).
      constructor.
    + vm_compute. repeat (constructor; [discriminate|]). constructor.
    + eapply Forall_impl; [|exact Hf]. cbn. intros i.
      change (RestaurantChainTwoTables.next_menu_id RestaurantChainTwoTables.initial)
        with 7. lia.
Qed.

End Ids.

(* ================================================================= *)
(** * Order creation does not look at the menu (C5) *)

Section OrderCreation.
Import Pyd Str Orders Rules Http RestaurantChainTwoTables OrderClaims.

Lemma OrderCreate_dump_accepted (oc : OrderCreate) :
  order_ok oc -> OrderCreate_init (OrderCreate_dict oc) = Ret oc.
Proof.
  intros Hok. unfold OrderCreate_init.
  change (OrderCreate_dict oc) with ([] ++ OrderCreate_dict oc)%list at 1.
  now rewrite (validate_OrderCreate_dump oc [] eq_refl eq_refl Hok).
Qed.

Lemma route_POST_orders_ok (st : State) (oc : OrderCreate) :
  order_ok oc ->
  route (POST_orders (OrderCreate_dict oc)) st
  = (TTSem.answer_of (TTSem.pending oc (next_order_id st)), TTSem.placed oc st).
Proof.
  intros Hok. rewrite TTFacts.route_POST_orders_eq.
  unfold parse_body. rewrite (OrderCreate_dump_accepted oc Hok).
  now rewrite (TTFacts.create_order_spec oc st Hok).
Qed.

(** The answer for an order whose total with delivery can be computed
    is the order, with its totals. *)
Lemma answer_of_computable (o : Order) (td : Decimal) :
  total_amount_with_delivery o = Ret td ->
  exists r, TTSem.answer_of o = Ret (OrderAnswer r)
            /\ response_id r = Orders.id o /\ response_status r = status o
            /\ response_customer r = customer (as_OrderCreate o)
            /\ response_items r = items (as_OrderCreate o)
            /\ total_amount o = Ret (response_total_amount r)
            /\ response_total_amount_with_delivery r = td.
Proof.
  intros H. unfold TTSem.answer_of, OrderResponse_of.
  rewrite H. unfold total_amount_with_delivery in H.
  destruct (total_amount o) as [t|e]; [|discriminate H].
  cbn. eexists. repeat split.
Qed.

(** The only exception of a response is that of a response that could
    not be built. *)
Lemma answer_of_raises (o : Order) (e : PyExc) :
  TTSem.answer_of o = Raise e -> exists errs, e = ResponseValidationError errs.
Proof.
  unfold TTSem.answer_of, OrderResponse_of.
  destruct (total_amount o), (total_amount_with_delivery o); cbn;
    first [discriminate | intros [= <-]; eauto].
Qed.

(** The answer for an order whose total with delivery raises is the
    exception of a response that could not be built. *)
Lemma answer_of_failing (o : Order) (e : PyExc) :
  total_amount_with_delivery o = Raise e ->
  exists errs, TTSem.answer_of o = Raise (ResponseValidationError errs).
Proof.
  intros H. unfold TTSem.answer_of, OrderResponse_of.
  rewrite H. destruct (total_amount o) as [t|e']; cbn; eauto.
Qed.

Lemma overflowing_payload_accepted :
  OrderCreate_init (OrderCreate_dict overflowing_payload) = Ret overflowing_payload.
Proof. vm_compute. reflexivity. Qed.




End OrderCreation.

(* ================================================================= *)
(** * The demonstration endpoints (C6) *)

Section Demonstrations.
Import Pyd Str Orders Rules Http RestaurantChainTwoTables OrderClaims.

(** C6.  Each scenario of the demonstration endpoints that exercises a
    rule the models do not implement (spicy beverage, vegetarian item
    of 850 calories, beverage prepared in 12 minutes, order line for
    the unknown id 999, order line whose price differs from the menu's,
    order line for the unavailable Seasonal Soup) builds its payload
    without a validation error, so the endpoint reports the scenario
    with status "FAIL"; this holds from every state of the service. *)
Theorem C6_unenforced_rules_reported_failed : unenforced_rules_reported_failed.
Proof.
  split; [|split; [|split]].
  - eexists _, _, _. repeat split; vm_compute; reflexivity.
  - intros st. eexists. split; [reflexivity|]. repeat split.
  - intros st.
    exists Demo.invalid_menu_item_id, Demo.price_mismatch, Demo.unavailable_item.
    split; [exact TTFacts.invalid_menu_item_id_accepted|].
    split; [exact TTFacts.price_mismatch_accepted|].
    split; [exact TTFacts.unavailable_item_accepted|].
    split; [|split]; eexists;
      rewrite TTFacts.create_order_spec; try reflexivity.
    + exact (OrderCreate_init_ok _ _ TTFacts.invalid_menu_item_id_accepted).
    + exact (OrderCreate_init_ok _ _ TTFacts.price_mismatch_accepted).
    + exact (OrderCreate_init_ok _ _ TTFacts.unavailable_item_accepted).
  - intros st. eexists _, _. split.
    + unfold route. unfold bind at 1. rewrite TTFacts.run_order_test_cases_spec.
      reflexivity.
    + repeat split.
Qed.

End Demonstrations.

(* ================================================================= *)
(** * The derived totals of stored orders (C3) *)

Section StoredTotals.
Import Pyd Str Orders Rules Http RestaurantChainTwoTables OrderClaims.

Lemma stored_order_ok (o : Order) : stored_order o -> order_ok (as_OrderCreate o).
Proof.
  intros (reqs & k & Hin).
  pose proof (TTFacts.tt_serve_inv reqs _ tt_initial_inv) as (_ & _ & Hord).
  exact (proj1 (Forall_forall _ _) Hord _ Hin).
Qed.

Lemma wide_order_stored : stored_order wide_order.
Proof.
  exists [POST_orders (OrderCreate_dict wide_payload)], 1.
  vm_compute. left. reflexivity.
Qed.

(** C3, as stated, fails for a stored order whose only line has
    quantity 1 and the 29-digit unit price 10000000000000000000000000001:
    the product is rounded to 28 significant digits, so [total_amount]
    is 1.000000000000000000000000000E+28, not the exact sum. *)
Lemma C3_counterexample : stored_order wide_order /\ ~ totals_exact wide_order.
Proof.
  split; [exact wide_order_stored|].
  unfold totals_exact. cbn zeta. intros (t & td & Ht & _ & Hc & _).
  vm_compute in Ht. injection Ht as <-. vm_compute in Hc. discriminate Hc.
Qed.

Lemma example_totals_hold (o : Order) : example_lines o -> example_totals o.
Proof.
  unfold example_lines, example_totals, total_amount_with_delivery, total_amount,
    total_items_count, total_quantity.
  destruct (items (as_OrderCreate o)) as [|[i1 n1 q1 u1] [|[i2 n2 q2 u2] [|i3 l]]];
    cbn [map]; try discriminate.
  cbn [quantity unit_price]. intros [= -> -> -> ->].
  repeat split.
Qed.

(** C3, amended.  For every stored order whose lines can be added up
    without rounding (no unit price has more than 1000026 decimal
    places, and the exact amount with the delivery fee, written with
    the decimal places of the lines, has at most 28 digits, the
    precision of the Decimal context), [total_amount] is the sum over
    the lines of quantity times unit price, [total_amount_with_delivery]
    is that amount plus exactly 2.99, [total_items_count] is the number
    of lines and [total_quantity] the sum of the quantities; an order
    with the lines (1, 15.99) and (2, 12.50) yields 40.99, 43.98, 2
    and 3. *)
Theorem C3_totals_of_stored_orders (o : Order) :
  stored_order o ->
  within_context (items (as_OrderCreate o)) ->
  totals_exact o /\ (example_lines o -> example_totals o).
Proof.
  intros Hst Hb. split.
  - apply totals_exact_bounded; [now apply stored_order_ok|exact Hb].
  - apply example_totals_hold.
Qed.

Lemma first_demo_order_stored : stored_order first_demo_order.
Proof.
  exists [POST_orders valid_order_payload], 1. vm_compute. left. reflexivity.
Qed.

Lemma first_demo_order_within_context :
  within_context (items (as_OrderCreate first_demo_order)).
Proof. split; vm_compute; [discriminate|reflexivity]. Qed.

Lemma C3_witness :
  stored_order first_demo_order
  /\ within_context (items (as_OrderCreate first_demo_order))
  /\ totals_exact first_demo_order
  /\ (example_lines first_demo_order -> example_totals first_demo_order).
Proof.
  split; [exact first_demo_order_stored|].
  split; [exact first_demo_order_within_context|].
  apply C3_totals_of_stored_orders;
    [exact first_demo_order_stored|exact first_demo_order_within_context].
Defined.

(** A unit price written with three decimal places is stored as it was
    written, and the totals of its order are exact, with three decimal
    places: 2 times 7.990 is 15.980, and 18.970 with delivery. *)
Lemma three_place_order_totals :
  stored_order three_place_order
  /\ within_context (items (as_OrderCreate three_place_order))
  /\ total_amount three_place_order = Ret (mkDecimal 15980 (-3))
  /\ total_amount_with_delivery three_place_order = Ret (mkDecimal 18970 (-3)).
Proof.
  split; [exists [POST_orders (OrderCreate_dict three_place_payload)], 1;
          vm_compute; left; reflexivity|].
  split; [split; vm_compute; [discriminate|reflexivity]|].
  split; vm_compute; reflexivity.
Qed.

End StoredTotals.

(* ================================================================= *)
(** * The menu routes of the two services (C9) *)

Section TwoServices.
Import Menu Http Equivalence.

(** C9, at the failing input.  The two services start with equal menus
    and equally positioned counters (next id 7).  Both receive a
    creation whose name [" a "] passes the model and is refused when
    the stored item is built, then a creation of the first seed item.
    Both answer the first request with the same error, but the menu
    service has already advanced [last_item_id] while the order service
    advances [next_menu_id] only after the item is built: the second
    creation is answered with id 8 by the menu service and with id 7 by
    the order service, so the answers and the menus differ. *)
Theorem C9_services_diverge_after_failed_creation :
  equally_positioned menu_service_at_7 order_service_at_7
  /\ answered_ids (fst (RestaurantChain.serve (map to_menu_service diverging_requests)
                          menu_service_at_7))
     = [None; Some 8]
  /\ answered_ids (fst (RestaurantChainTwoTables.serve
                          (map to_order_service diverging_requests) order_service_at_7))
     = [None; Some 7]
  /\ ~ same_behaviour menu_service_at_7 order_service_at_7 diverging_requests.
Proof.
  split; [split; vm_compute; reflexivity|].
  split; [vm_compute; reflexivity|].
  split; [vm_compute; reflexivity|].
  intros [H _]. apply (f_equal answered_ids) in H. vm_compute in H. discriminate H.
Qed.

End TwoServices.

(* ================================================================= *)
(** * More facts about dictionaries *)

Section DictKeys.
Context {K V : Type} (eqb : K -> K -> bool).
Hypothesis eqb_eq : forall a b, eqb a b = true <-> a = b.

Lemma dict_get_None_keys (k : K) (d : list (K * V)) :
  dict_get eqb k d = None <-> ~ In k (dict_keys d).
Proof.
  induction d as [|[k0 v0] d IH]; cbn; [tauto|].
  destruct (eqb k k0) eqn:E.
  - apply eqb_eq in E. subst. split; [discriminate|]. intros H. destruct H. now left.
  - rewrite IH. split.
    + intros H [->|Hin]; [|tauto]. rewrite (proj2 (eqb_eq k k) eq_refl) in E. discriminate.
    + tauto.
Qed.

Lemma dict_keys_set (k : K) (v : V) (d : list (K * V)) :
  dict_keys (dict_set eqb k v d)
  = if dict_mem eqb k d then dict_keys d else (dict_keys d ++ [k])%list.
Proof.
  unfold dict_mem, dict_keys. induction d as [|[k0 v0] d IH]; cbn; [reflexivity|].
  destruct (eqb k k0) eqn:E; cbn.
  - apply eqb_eq in E. now subst.
  - rewrite IH. now destruct (dict_get eqb k d).
Qed.

Lemma NoDup_keys_set (k : K) (v : V) (d : list (K * V)) :
  NoDup (dict_keys d) -> NoDup (dict_keys (dict_set eqb k v d)).
Proof.
  intros H. rewrite dict_keys_set. unfold dict_mem.
  destruct (dict_get eqb k d) eqn:E; [exact H|].
  apply dict_get_None_keys in E.
  apply NoDup_app; [exact H|repeat constructor; intros []|].
  intros x Hx [<-|[]]. contradiction.
Qed.

Lemma In_keys_del (k x : K) (d : list (K * V)) :
  In x (dict_keys (dict_del eqb k d)) -> In x (dict_keys d).
Proof.
  induction d as [|[k0 v0] d IH]; cbn; [tauto|].
  destruct (eqb k k0); cbn; tauto.
Qed.

Lemma NoDup_keys_del (k : K) (d : list (K * V)) :
  NoDup (dict_keys d) -> NoDup (dict_keys (dict_del eqb k d)).
Proof.
  induction d as [|[k0 v0] d IH]; cbn; [auto|].
  intros H. inversion H as [|? ? Hnin Hnd]; subst.
  destruct (eqb k k0); cbn; [exact Hnd|].
  constructor; [|auto]. intros Hin. apply Hnin. eapply In_keys_del; exact Hin.
Qed.

(** In a dictionary without repeated keys, a deleted key is gone. *)
Lemma dict_get_del_same (k : K) (d : list (K * V)) :
  NoDup (dict_keys d) -> dict_get eqb k (dict_del eqb k d) = None.
Proof.
  induction d as [|[k0 v0] d IH]; cbn; [reflexivity|].
  intros H. inversion H as [|? ? Hnin Hnd]; subst.
  destruct (eqb k k0) eqn:E; cbn.
  - apply eqb_eq in E. subst k0. now apply dict_get_None_keys.
  - rewrite E. auto.
Qed.

Lemma dict_get_del_other (k k' : K) (d : list (K * V)) :
  k' <> k -> dict_get eqb k' (dict_del eqb k d) = dict_get eqb k' d.
Proof.
  intros Hne. induction d as [|[k0 v0] d IH]; cbn; [reflexivity|].
  destruct (eqb k k0) eqn:E; cbn.
  - apply eqb_eq in E. subst k0.
    destruct (eqb k' k) eqn:E'; [apply eqb_eq in E'; contradiction|reflexivity].
  - destruct (eqb k' k0); [reflexivity|exact IH].
Qed.

Lemma In_dict_get (k : K) (v : V) (d : list (K * V)) :
  NoDup (dict_keys d) -> In (k, v) d -> dict_get eqb k d = Some v.
Proof.
  induction d as [|[k0 v0] d IH]; cbn; [tauto|].
  intros H Hin. inversion H as [|? ? Hnin Hnd]; subst.
  destruct (eqb k k0) eqn:E.
  - apply eqb_eq in E. subst k0. destruct Hin as [[= ->]|Hin]; [reflexivity|].
    destruct Hnin. apply in_map_iff. now exists (k, v).
  - destruct Hin as [[= -> ->]|Hin]; [|auto].
    rewrite (proj2 (eqb_eq k k) eq_refl) in E. discriminate.
Qed.

Lemma dict_mem_get (k : K) (d : list (K * V)) :
  dict_mem eqb k d = true <-> exists v, dict_get eqb k d = Some v.
Proof.
  unfold dict_mem. destruct (dict_get eqb k d); split; eauto; try discriminate.
  now intros (v & [=]).
Qed.
End DictKeys.

(* ================================================================= *)
(** * The stores stay well formed *)

Section StoreInvariants.
Import Pyd Str Menu Orders Rules Http Further Invariants.

Lemma item_wf_new (m : FoodItemCreate) (n : Z) :
  validated m -> 3 <= len (Menu.name m) ->
  item_wf (n, {| as_FoodItemCreate := all_set m; Menu.id := n |}).
Proof.
  intros Hv Hl. unfold item_wf. cbn [fst snd as_FoodItemCreate Menu.id].
  split; [reflexivity|]. split; [reflexivity|].
  split; [now apply all_set_rules|now apply all_set_stripped].
Qed.

Lemma rc_step_wf (st st' : RestaurantChain.State) :
  RCSem.step st st' -> menu_wf (RestaurantChain.menu_db st) ->
  menu_wf (RestaurantChain.menu_db st').
Proof.
  intros Hs [Hnd Hwf]. destruct Hs as [| |m Hv Hl|k]; cbn; try (split; assumption).
  - split; [now apply (NoDup_keys_set Z.eqb Z.eqb_eq)|].
    apply (Forall_dict_set Z.eqb); [now apply item_wf_new|exact Hwf].
  - split; [now apply NoDup_keys_del|now apply Forall_dict_del].
Qed.

Lemma rc_serve_wf (reqs : list RestaurantChain.Request) (st : RestaurantChain.State) :
  menu_wf (RestaurantChain.menu_db st) ->
  menu_wf (RestaurantChain.menu_db (snd (RestaurantChain.serve reqs st))).
Proof.
  revert st. induction reqs as [|r rest IH]; intros st H; [exact H|].
  rewrite RCFacts.serve_cons. cbn [snd]. apply IH.
  eapply rc_step_wf; [apply RCFacts.route_step|exact H].
Qed.

Lemma tt_step_wf (st st' : RestaurantChainTwoTables.State) :
  TTSem.step st st' -> menu_wf (RestaurantChainTwoTables.menu_db st) ->
  menu_wf (RestaurantChainTwoTables.menu_db st').
Proof.
  intros Hs [Hnd Hwf]. destruct Hs as [|m Hv Hl|k|oc Hoc|k o s Hk]; cbn;
    try (split; assumption).
  - split; [now apply (NoDup_keys_set Z.eqb Z.eqb_eq)|].
    apply (Forall_dict_set Z.eqb); [now apply item_wf_new|exact Hwf].
  - split; [now apply NoDup_keys_del|now apply Forall_dict_del].
Qed.

Lemma tt_steps_wf (st st' : RestaurantChainTwoTables.State) :
  TTSem.steps st st' -> menu_wf (RestaurantChainTwoTables.menu_db st) ->
  menu_wf (RestaurantChainTwoTables.menu_db st').
Proof. induction 1; eauto using tt_step_wf. Qed.

Lemma tt_serve_wf (reqs : list RestaurantChainTwoTables.Request)
    (st : RestaurantChainTwoTables.State) :
  menu_wf (RestaurantChainTwoTables.menu_db st) ->
  menu_wf (RestaurantChainTwoTables.menu_db (snd (RestaurantChainTwoTables.serve reqs st))).
Proof.
  revert st. induction reqs as [|r rest IH]; intros st H; [exact H|].
  rewrite TTFacts.tt_serve_cons. cbn [snd]. apply IH.
  eapply tt_steps_wf; [apply TTFacts.route_steps|exact H].
Qed.

Lemma menu_wf_nil : menu_wf [].
Proof. split; constructor. Qed.

Lemma rc_reachable_wf (st : RestaurantChain.State) :
  rc_reachable st -> menu_wf (RestaurantChain.menu_db st).
Proof.
  intros (reqs & ->). apply rc_serve_wf. rewrite rc_initial_served.
  apply rc_serve_wf. exact menu_wf_nil.
Qed.

Lemma tt_reachable_wf (st : RestaurantChainTwoTables.State) :
  tt_reachable st -> menu_wf (RestaurantChainTwoTables.menu_db st).
Proof.
  intros (reqs & ->). apply tt_serve_wf. rewrite tt_initial_served.
  apply tt_serve_wf. exact menu_wf_nil.
Qed.

(** At any time the menu of either service holds each id once; every
    item sits under its own id, not beyond the id counter, obeys every
    field rule (name, description, price, preparation time, ingredients,
    calories) and has a trimmed name. *)
Theorem menus_stay_well_formed : menus_well_formed.
Proof.
  split.
  - intros st Hr. split; [now apply rc_reachable_wf|].
    destruct Hr as (reqs & ->).
    exact (proj2 (RCFacts.serve_inv reqs _ rc_initial_inv)).
  - intros st Hr. split; [now apply tt_reachable_wf|].
    destruct Hr as (reqs & ->).
    exact (proj1 (proj2 (TTFacts.tt_serve_inv reqs _ tt_initial_inv))).
Qed.

Lemma rc_initial_reachable : rc_reachable RestaurantChain.initial.
Proof. exists []. cbn [RestaurantChain.serve snd]. reflexivity. Qed.

Lemma tt_initial_reachable : tt_reachable RestaurantChainTwoTables.initial.
Proof. exists []. cbn [RestaurantChainTwoTables.serve snd]. reflexivity. Qed.

Lemma menus_stay_well_formed_witness :
  rc_reachable RestaurantChain.initial
  /\ menu_wf (RestaurantChain.menu_db RestaurantChain.initial).
Proof.
  split; [exact rc_initial_reachable|].
  exact (proj1 (proj1 menus_stay_well_formed _ rc_initial_reachable)).
Defined.

(** The dump of a well-formed item, given back to the model, rebuilds
    the item. *)
Lemma item_wf_revalidates (kv : Z * FoodItem) :
  item_wf kv -> FoodItem_init (FoodItem_dict (snd kv)) = Ret (snd kv).
Proof.
  destruct kv as [k [m n]]. unfold item_wf. cbn [fst snd as_FoodItemCreate Menu.id].
  intros (_ & Hset & ((Hlen & Hpat) & Hd & (Hps & Hpb) & Hpt & Hi & Hc) & Hstrip).
  assert (Hv : validated m).
  { unfold validated. split; [|tauto]. exists (Menu.name m).
    split; [exact Hlen|]. split; [exact Hpat|]. now rewrite Hstrip. }
  pose proof (revalidate_fields m n Hv) as Hre.
  replace (len (Menu.name m) <? 3) with false in Hre by (symmetry; apply Z.ltb_ge; lia).
  assert (Hsame : validate_fields (FoodItem_dict {| as_FoodItemCreate := m; Menu.id := n |})
                  = Valid (all_set m)).
  { rewrite <- Hre. unfold validate_fields, required, optional. reflexivity. }
  unfold FoodItem_init. rewrite Hsame.
  assert (Hid : required "id" check_int
                  (FoodItem_dict {| as_FoodItemCreate := m; Menu.id := n |}) = Valid n)
    by reflexivity.
  rewrite Hid. cbn. do 2 f_equal. destruct m. cbn in *. now subst.
Qed.

(** Every item in the menu of either service, at any time, is rebuilt
    unchanged when its own [dict()] is given back to [FoodItem]. *)
Theorem stored_items_can_be_rebuilt : stored_items_revalidate.
Proof.
  split.
  - intros st k item Hr Hin. destruct (rc_reachable_wf st Hr) as [_ Hwf].
    exact (item_wf_revalidates _ (proj1 (Forall_forall _ _) Hwf _ Hin)).
  - intros st k item Hr Hin. destruct (tt_reachable_wf st Hr) as [_ Hwf].
    exact (item_wf_revalidates _ (proj1 (Forall_forall _ _) Hwf _ Hin)).
Qed.

Lemma stored_items_can_be_rebuilt_witness :
  rc_reachable RestaurantChain.initial
  /\ In (1, MenuClaims.seed_pizza) (RestaurantChain.menu_db RestaurantChain.initial)
  /\ FoodItem_init (FoodItem_dict MenuClaims.seed_pizza) = Ret MenuClaims.seed_pizza.
Proof.
  assert (Hin : In (1, MenuClaims.seed_pizza)
                   (RestaurantChain.menu_db RestaurantChain.initial)).
  { vm_compute. left. reflexivity. }
  split; [exact rc_initial_reachable|]. split; [exact Hin|].
  exact (proj1 stored_items_can_be_rebuilt _ 1 _ rc_initial_reachable Hin).
Defined.

End StoreInvariants.

(* ================================================================= *)
(** * Deletion, category listing and updates of the menu service *)

Section MenuRouteTheorems.
Import Pyd Str Menu Rules Http Further RestaurantChain RCSem MenuRoutes.

(** From any reachable state of the menu service, deleting an id that
    is in the menu answers the confirmation message; the id is then
    gone (a lookup answers 404) while every other id and the id counter
    are untouched.  Deleting an absent id answers 404 and changes
    nothing. *)
Theorem deletion_removes_exactly_one (st : State) (k : Z) :
  rc_reachable st -> deletion_behaviour st k.
Proof.
  intros Hr. destruct (rc_reachable_wf st Hr) as [Hnd _].
  unfold deletion_behaviour.
  destruct (dict_get Z.eqb k (menu_db st)) as [item|] eqn:E.
  - exists (set_menu_db (dict_del Z.eqb k) st).
    assert (Hmem : dict_mem Z.eqb k (menu_db st) = true) by (unfold dict_mem; now rewrite E).
    split; [|split; [|split]].
    + unfold route, delete_menu_item, bind, gets, modify, ret. cbn. now rewrite Hmem.
    + unfold route, get_menu_item, bind, gets. cbn.
      now rewrite (dict_get_del_same Z.eqb Z.eqb_eq k _ Hnd).
    + intros k' Hne. cbn. now apply (dict_get_del_other Z.eqb Z.eqb_eq).
    + reflexivity.
  - unfold route, delete_menu_item, bind, gets. cbn.
    unfold dict_mem. now rewrite E.
Qed.

Lemma deletion_removes_exactly_one_witness :
  rc_reachable initial /\ deletion_behaviour initial 3.
Proof.
  split; [exact rc_initial_reachable|].
  exact (deletion_removes_exactly_one initial 3 rc_initial_reachable).
Defined.

Lemma route_category_eq (st : State) (c : FoodCategory) :
  route (GET_menu_category c) st
  = match filter (fun item => category_eqb (category (as_FoodItemCreate item)) c)
                 (dict_values (menu_db st)) with
    | [] => (Raise (HTTPException 404
                      (DetailText ("No items found in category '"
                                   ++ category_value c ++ "'"))), st)
    | l => (Ret (Items l), st)
    end.
Proof.
  unfold route, get_items_by_category, bind, gets, not_found, raise, ret. cbn.
  now destruct (filter _ _).
Qed.

Lemma category_eqb_eq (a b : FoodCategory) : category_eqb a b = true <-> a = b.
Proof. destruct a, b; cbn; split; congruence. Qed.

(** The category route never changes the globals and never answers an
    empty list: it lists exactly the stored items of the category, and
    answers 404 exactly when the menu has none. *)
Theorem category_listing_is_exact (st : State) (c : FoodCategory) :
  category_behaviour st c.
Proof.
  unfold category_behaviour. rewrite route_category_eq.
  destruct (filter (fun item => category_eqb (category (as_FoodItemCreate item)) c)
                   (dict_values (menu_db st))) as [|x l] eqn:E.
  - cbn [fst snd]. split; [reflexivity|]. split; [discriminate|].
    split; [|eauto].
    intros _ item Hin Hc.
    assert (Hf : In item (filter (fun item =>
                   category_eqb (category (as_FoodItemCreate item)) c)
                   (dict_values (menu_db st)))).
    { apply filter_In. split; [exact Hin|]. now apply category_eqb_eq. }
    rewrite E in Hf. destruct Hf.
  - cbn [fst snd]. split; [reflexivity|]. split.
    + intros l' [= <-]. split; [discriminate|].
      intros item. rewrite <- E, filter_In, category_eqb_eq. reflexivity.
    + split; [intros (d & [=])|].
      intros Hnone. exfalso.
      assert (Hx : In x (x :: l)) by now left.
      rewrite <- E in Hx. apply filter_In in Hx as [Hin Hc].
      apply category_eqb_eq in Hc. exact (Hnone x Hin Hc).
Qed.

Lemma In_values_set (k : Z) (v : FoodItem) (d : list (Z * FoodItem)) :
  In v (dict_values (dict_set Z.eqb k v d)).
Proof.
  unfold dict_values. apply in_map_iff. exists (k, v). split; [reflexivity|].
  apply (dict_get_In Z.eqb Z.eqb_eq). apply (dict_get_set_same Z.eqb Z.eqb_eq).
Qed.

(** From any state, an item that a creation request has just stored is
    in the answer of the category route for its category. *)
Theorem created_item_listed_under_category (st : State) (body : PyDict) :
  created_item_is_listed st body.
Proof.
  intros item st' Hr.
  destruct (RCFacts.route_POST_menu body st)
    as [(errs & Hr')|[(m & Hm & Hl & Hr')|(m & Hm & Hl & Hr')]];
    cbn zeta in Hr'; rewrite Hr' in Hr; try discriminate Hr.
  injection Hr as <- <-.
  set (item := {| as_FoodItemCreate := all_set m; id := last_item_id st + 1 |}).
  rewrite route_category_eq.
  assert (Hin : In item (filter (fun x => category_eqb (category (as_FoodItemCreate x))
                                             (category (as_FoodItemCreate item)))
                                (dict_values (menu_db (stored_as item st))))).
  { apply filter_In. split; [apply In_values_set|now apply category_eqb_eq]. }
  destruct (filter _ (dict_values (menu_db (stored_as item st)))) as [|x l].
  - destruct Hin.
  - exists (x :: l). split; [reflexivity|exact Hin].
Qed.

Lemma created_item_listed_under_category_witness :
  exists item st' l,
    route (POST_menu Samples.margherita_pizza) initial = (Ret (Item item), st')
    /\ route (GET_menu_category (category (as_FoodItemCreate item))) st' = (Ret (Items l), st')
    /\ In item l.
Proof.
  destruct (route (POST_menu Samples.margherita_pizza) initial) as [[[| item | | | |]|e] st']
    eqn:E; try (vm_compute in E; discriminate E).
  destruct (created_item_listed_under_category initial Samples.margherita_pizza item st' E)
    as (l & Hl & Hin).
  exists item, st', l. split; [reflexivity|]. split; [exact Hl|exact Hin].
Defined.

(** No update request ever succeeds, in either service: whatever the id
    and the body, the answer is an error (422 for a body the model
    refuses, 404 for an absent id, the uncaught TypeError otherwise)
    and the globals are left as they were. *)
Theorem update_never_succeeds : updates_never_succeed.
Proof.
  split.
  - intros st i body. split; [apply RCFacts.route_PUT_state|].
    intros a. unfold route. unfold bind at 1 2. unfold lift at 1.
    destruct (parse_body FoodItemCreate_init body) as [m|e]; [|discriminate].
    destruct (dict_get Z.eqb i (menu_db st)) as [s|] eqn:E.
    + rewrite (RCFacts.update_menu_item_present _ _ _ _ E). discriminate.
    + rewrite (RCFacts.update_menu_item_absent _ _ _ E). discriminate.
  - intros st i body. split; [apply TTFacts.tt_route_PUT_state|].
    intros a. unfold RestaurantChainTwoTables.route. unfold bind at 1 2. unfold lift at 1.
    destruct (parse_body FoodItemCreate_init body) as [m|e]; [|discriminate].
    destruct (dict_get Z.eqb i (RestaurantChainTwoTables.menu_db st)) as [s|] eqn:E.
    + rewrite (TTFacts.tt_update_menu_item_present _ _ _ _ E). discriminate.
    + rewrite (TTFacts.tt_update_menu_item_absent _ _ _ E). discriminate.
Qed.

End MenuRouteTheorems.

(* ================================================================= *)
(** * The order store *)

Section OrderStore.
Import Pyd Str Orders Rules Http Further RestaurantChainTwoTables TTSem OrderRoutes.

Lemma order_wf_weaken (a b : Z) (kv : Z * Order) :
  a <= b -> order_wf a kv -> order_wf b kv.
Proof. unfold order_wf. intros; intuition lia. Qed.

Lemma orders_wf_get (st : State) (k : Z) (o : Order) :
  orders_wf st -> dict_get Z.eqb k (orders_db st) = Some o ->
  Orders.id o = k /\ k < next_order_id st /\ order_ok (as_OrderCreate o).
Proof.
  intros [_ Hwf] Hget. apply (dict_get_In Z.eqb Z.eqb_eq) in Hget.
  exact (proj1 (Forall_forall _ _) Hwf _ Hget).
Qed.

Lemma tt_step_orders_wf (st st' : State) : step st st' -> orders_wf st -> orders_wf st'.
Proof.
  intros Hs Hwf. pose proof Hwf as [Hnd Hall].
  destruct Hs as [|m Hv Hl|k|oc Hoc|k o s Hk]; unfold orders_wf; cbn; try (split; assumption).
  - split; [now apply (NoDup_keys_set Z.eqb Z.eqb_eq)|].
    apply (Forall_dict_set Z.eqb).
    + unfold order_wf. cbn [fst snd].
      split; [reflexivity|]. split; [cbn; lia|exact Hoc].
    + eapply Forall_impl; [|exact Hall]. intros kv. apply order_wf_weaken. lia.
  - split; [now apply (NoDup_keys_set Z.eqb Z.eqb_eq)|].
    apply (Forall_dict_set Z.eqb); [|exact Hall].
    destruct (orders_wf_get st k o Hwf Hk) as (Hid & Hlt & Hok).
    unfold order_wf. cbn [fst snd].
    split; [exact Hid|]. split; [exact Hlt|exact Hok].
Qed.

Lemma tt_steps_orders_wf (st st' : State) : steps st st' -> orders_wf st -> orders_wf st'.
Proof. induction 1; eauto using tt_step_orders_wf. Qed.

Lemma tt_serve_orders_wf (reqs : list Request) (st : State) :
  orders_wf st -> orders_wf (snd (serve reqs st)).
Proof.
  revert st. induction reqs as [|r rest IH]; intros st H; [exact H|].
  rewrite TTFacts.tt_serve_cons. cbn [snd]. apply IH.
  eapply tt_steps_orders_wf; [apply TTFacts.route_steps|exact H].
Qed.

Lemma tt_reachable_orders_wf (st : State) : tt_reachable st -> orders_wf st.
Proof.
  intros (reqs & ->). apply tt_serve_orders_wf. rewrite tt_initial_served.
  apply tt_serve_orders_wf. split; constructor.
Qed.

(** At any time the order store holds each id once; every order sits
    under its own id, below the order counter, and obeys the structural
    constraints on customer and lines. *)
Theorem orders_stay_well_formed (st : State) : tt_reachable st -> orders_wf st.
Proof. apply tt_reachable_orders_wf. Qed.

Lemma orders_stay_well_formed_witness :
  tt_reachable (snd (serve [GET_run_order_tests] initial))
  /\ orders_wf (snd (serve [GET_run_order_tests] initial)).
Proof.
  assert (H : tt_reachable (snd (serve [GET_run_order_tests] initial)))
    by (exists [GET_run_order_tests]; reflexivity).
  split; [exact H|]. exact (orders_stay_well_formed _ H).
Defined.

Lemma with_status_same (o : Order) : with_status o (status o) = o.
Proof. now destruct o. Qed.

Lemma with_status_twice (o : Order) (s s' : OrderStatus) :
  with_status (with_status o s) s' = with_status o s'.
Proof. reflexivity. Qed.

Lemma tt_step_keeps_order (st st' : State) (k : Z) (o : Order) :
  step st st' -> orders_wf st -> dict_get Z.eqb k (orders_db st) = Some o ->
  exists s, dict_get Z.eqb k (orders_db st') = Some (with_status o s).
Proof.
  intros Hs Hwf Hget.
  destruct Hs as [|m Hv Hl|k0|oc Hoc|k0 o0 s0 Hk0]; cbn;
    try (exists (status o); now rewrite with_status_same).
  - destruct (orders_wf_get st k o Hwf Hget) as (_ & Hlt & _).
    exists (status o). rewrite with_status_same.
    rewrite (dict_get_set_other Z.eqb Z.eqb_eq); [exact Hget|lia].
  - destruct (Z.eq_dec k k0) as [->|Hne].
    + rewrite Hget in Hk0. injection Hk0 as <-. exists s0.
      apply (dict_get_set_same Z.eqb Z.eqb_eq).
    + exists (status o). rewrite with_status_same.
      now rewrite (dict_get_set_other Z.eqb Z.eqb_eq).
Qed.

Lemma tt_steps_keep_order (st st' : State) :
  steps st st' -> forall k o,
    orders_wf st -> dict_get Z.eqb k (orders_db st) = Some o ->
    exists s, dict_get Z.eqb k (orders_db st') = Some (with_status o s).
Proof.
  induction 1 as [st|st st1 st2 H1 H2 IH]; intros k o Hwf Hget.
  - exists (status o). now rewrite with_status_same.
  - destruct (tt_step_keeps_order _ _ k o H1 Hwf Hget) as (s1 & Hs1).
    destruct (IH k _ (tt_step_orders_wf _ _ H1 Hwf) Hs1) as (s2 & Hs2).
    exists s2. now rewrite with_status_twice in Hs2.
Qed.

Lemma tt_serve_keeps_order (reqs : list Request) (st : State) (k : Z) (o : Order) :
  orders_wf st -> dict_get Z.eqb k (orders_db st) = Some o ->
  exists s, dict_get Z.eqb k (orders_db (snd (serve reqs st))) = Some (with_status o s).
Proof.
  revert st k o. induction reqs as [|r rest IH]; intros st k o Hwf Hget.
  - exists (status o). cbn. now rewrite with_status_same.
  - rewrite TTFacts.tt_serve_cons. cbn [snd].
    pose proof (TTFacts.route_steps r st) as Hst.
    destruct (tt_steps_keep_order _ _ Hst k o Hwf Hget) as (s1 & Hs1).
    destruct (IH _ k _ (tt_steps_orders_wf _ _ Hst Hwf) Hs1) as (s2 & Hs2).
    exists s2. now rewrite with_status_twice in Hs2.
Qed.

(** Orders are never deleted and never edited: an order that is in the
    store of a reachable state is still there, under the same id and
    with the same customer and lines, after any further sequence of
    requests; only its status may have changed. *)
Theorem stored_orders_persist (st : State) (reqs : list Request) (k : Z) (o : Order) :
  tt_reachable st -> dict_get Z.eqb k (orders_db st) = Some o ->
  order_persists st reqs k o.
Proof.
  intros Hr Hget. apply tt_reachable_orders_wf in Hr.
  exact (tt_serve_keeps_order reqs st k o Hr Hget).
Qed.

Lemma stored_orders_persist_witness :
  tt_reachable (snd (serve [POST_orders valid_order_payload] initial))
  /\ dict_get Z.eqb 1 (orders_db (snd (serve [POST_orders valid_order_payload] initial)))
     = Some OrderClaims.first_demo_order
  /\ order_persists (snd (serve [POST_orders valid_order_payload] initial))
       [GET_run_order_tests; PUT_order_status 1 DELIVERED] 1 OrderClaims.first_demo_order.
Proof.
  assert (H : tt_reachable (snd (serve [POST_orders valid_order_payload] initial)))
    by (exists [POST_orders valid_order_payload]; reflexivity).
  assert (G : dict_get Z.eqb 1
                (orders_db (snd (serve [POST_orders valid_order_payload] initial)))
              = Some OrderClaims.first_demo_order) by (vm_compute; reflexivity).
  split; [exact H|]. split; [exact G|].
  exact (stored_orders_persist _ _ 1 _ H G).
Defined.

(** A status update needs no particular current status: for a stored
    order every status can be set; the order with the new status
    replaces the stored one and has the same amount; the other orders,
    the menu and the order counter are untouched.  The answer is the
    order with the new status when its total with delivery can be
    computed, and 500 (with the new status stored all the same) when it
    cannot.  For an absent id the answer is 404 and nothing changes. *)
Theorem status_update_is_unconstrained (st : State) (k : Z) (s : OrderStatus) :
  status_update_behaviour st k s.
Proof.
  unfold status_update_behaviour. cbn zeta. rewrite TTFacts.route_PUT_order_status_eq.
  destruct (dict_get Z.eqb k (orders_db st)) as [o|] eqn:E; [|reflexivity].
  cbn [fst snd].
  split; [cbn; apply (dict_get_set_same Z.eqb Z.eqb_eq)|].
  split; [reflexivity|].
  split; [intros k' Hne; cbn; now apply (dict_get_set_other Z.eqb Z.eqb_eq)|].
  split; [reflexivity|]. split; [reflexivity|].
  destruct (total_amount_with_delivery o) as [td|e] eqn:Etd.
  - destruct (answer_of_computable (with_status o s) td Etd)
      as (r & Hr & H1 & H2 & H3 & H4 & _ & H6).
    exists r. rewrite Hr. repeat split; assumption.
  - destruct (answer_of_failing (with_status o s) e Etd) as (errs & ->). reflexivity.
Qed.

(** An order created from a payload within the structural constraints
    is read back by its new id with the very answer of the creation,
    and the lookup changes nothing; when the total with delivery of the
    order can be computed, that answer is the order, with the new id
    and the customer and lines of the payload. *)
Theorem created_order_is_read_back (st : State) (oc : OrderCreate) :
  order_ok oc -> order_round_trip st oc.
Proof.
  intros Hok. unfold order_round_trip. cbn zeta.
  rewrite (route_POST_orders_ok st oc Hok). cbn [fst snd].
  split.
  - rewrite TTFacts.route_GET_order_eq. now rewrite TTFacts.placed_get.
  - intros td Htd.
    destruct (answer_of_computable _ _ Htd) as (r & Hr & H1 & _ & H3 & H4 & _).
    exists r. repeat split; assumption.
Qed.

Lemma created_order_is_read_back_witness :
  order_ok Demo.valid_order /\ order_round_trip initial Demo.valid_order.
Proof.
  assert (Hok : order_ok Demo.valid_order)
    by exact (OrderCreate_init_ok _ _ TTFacts.valid_order_accepted).
  split; [exact Hok|]. exact (created_order_is_read_back initial _ Hok).
Defined.

End OrderStore.

(* ================================================================= *)
(** * The order routes *)

Section OrderRoutesFacts.
Import Pyd Str Orders Rules Http Further RestaurantChainTwoTables TTSem OrderRoutes.

(** ** The two stores *)

(** A request of the menu routes leaves the order store and the order
    counter as they are, and every other request leaves the menu and the
    menu counter as they are: the stores never influence each other. *)
Theorem menu_and_order_stores_are_separate (st : State) (r : Request) :
  stores_are_separate st r.
Proof.
  unfold stores_are_separate. cbn zeta.
  remember (snd (route r st)) as st' eqn:Est.
  destruct r as [|body| |item_id|item_id body|item_id|category|body| |order_id
                |order_id new_status|]; cbn [is_menu_request].
  - subst st'. split; reflexivity.
  - destruct (TTFacts.tt_route_POST_menu body st)
      as [(errs & H)|[(m & Hm & Hl & H)|(m & Hm & Hl & H)]];
      cbn zeta in H; rewrite H in Est; subst st'; split; reflexivity.
  - subst st'. split; reflexivity.
  - unfold route, get_menu_item, bind, gets in Est. cbn in Est.
    destruct (dict_get Z.eqb item_id (menu_db st)); subst st'; split; reflexivity.
  - rewrite TTFacts.tt_route_PUT_state in Est. subst st'. split; reflexivity.
  - unfold route, delete_menu_item, bind, gets, modify in Est. cbn in Est.
    destruct (dict_mem Z.eqb item_id (menu_db st)); subst st'; split; reflexivity.
  - unfold route, get_items_by_category, bind, gets in Est. cbn in Est.
    destruct (filter _ _); subst st'; split; reflexivity.
  - destruct (TTFacts.route_POST_orders body st) as [(errs & H)|(oc & _ & Hok & H)];
      rewrite H in Est; subst st'; split; reflexivity.
  - unfold route, get_all_orders, bind, gets, lift in Est. cbn in Est.
    destruct (summaries _); subst st'; split; reflexivity.
  - rewrite TTFacts.route_GET_order_eq in Est.
    destruct (dict_get Z.eqb order_id (orders_db st)); subst st'; split; reflexivity.
  - rewrite TTFacts.route_PUT_order_status_eq in Est.
    destruct (dict_get Z.eqb order_id (orders_db st)); subst st'; split; reflexivity.
  - unfold route in Est. unfold bind at 1 in Est.
    rewrite TTFacts.run_order_test_cases_spec in Est. subst st'. split; reflexivity.
Qed.

(** ** The demonstration endpoints *)

Lemma dict_set_length {V} (k : Z) (v : V) (d : list (Z * V)) :
  List.length (dict_set Z.eqb k v d)
  = if dict_mem Z.eqb k d then List.length d else S (List.length d).
Proof.
  unfold dict_mem. induction d as [|[k0 v0] d IH]; cbn; [reflexivity|].
  destruct (k =? k0) eqn:E; cbn; [reflexivity|].
  rewrite IH. now destruct (dict_get Z.eqb k d).
Qed.

Lemma orders_wf_fresh (st : State) (k : Z) :
  orders_wf st -> next_order_id st <= k -> dict_get Z.eqb k (orders_db st) = None.
Proof.
  intros Hwf Hk. destruct (dict_get Z.eqb k (orders_db st)) as [o|] eqn:E; [|reflexivity].
  destruct (orders_wf_get st k o Hwf E) as (_ & Hlt & _). lia.
Qed.

Lemma placed_length (oc : OrderCreate) (st : State) :
  orders_wf st ->
  List.length (orders_db (placed oc st)) = S (List.length (orders_db st)).
Proof.
  intros Hwf. cbn. rewrite dict_set_length. unfold dict_mem.
  now rewrite (orders_wf_fresh st _ Hwf (Z.le_refl _)).
Qed.

Lemma confirmed_length (oc : OrderCreate) (k : Z) (st : State) :
  dict_mem Z.eqb k (orders_db st) = true ->
  List.length (orders_db (confirmed oc k st)) = List.length (orders_db st).
Proof. intros H. cbn. rewrite dict_set_length. now rewrite H. Qed.

Lemma placed_orders_wf (oc : OrderCreate) (st : State) :
  order_ok oc -> orders_wf st -> orders_wf (placed oc st).
Proof. intros Hok. apply tt_step_orders_wf. now constructor. Qed.

Lemma after_tests_length (st : State) :
  orders_wf st ->
  List.length (orders_db (after_tests st)) = (List.length (orders_db st) + 4)%nat.
Proof.
  intros Hwf. unfold after_tests.
  pose proof (OrderCreate_init_ok _ _ TTFacts.valid_order_accepted) as H1.
  pose proof (OrderCreate_init_ok _ _ TTFacts.invalid_menu_item_id_accepted) as H2.
  pose proof (OrderCreate_init_ok _ _ TTFacts.price_mismatch_accepted) as H3.
  pose proof (placed_orders_wf _ _ H1 Hwf) as W1.
  assert (W1' : orders_wf (confirmed Demo.valid_order (next_order_id st)
                             (placed Demo.valid_order st))).
  { apply (tt_step_orders_wf (placed Demo.valid_order st)); [|exact W1].
    apply (step_status _ _ (pending Demo.valid_order (next_order_id st))).
    apply TTFacts.placed_get. }
  pose proof (placed_orders_wf _ _ H2 W1') as W2.
  pose proof (placed_orders_wf _ _ H3 W2) as W3.
  rewrite (placed_length _ _ W3), (placed_length _ _ W2), (placed_length _ _ W1').
  rewrite confirmed_length.
  - rewrite (placed_length _ _ Hwf). lia.
  - unfold dict_mem. now rewrite TTFacts.placed_get.
Qed.

(** Each call of the order demonstration endpoint is a write: it stores
    four more orders under the next four ids, the first of them
    confirmed and the other three pending, moves the order counter by
    four and leaves the earlier orders as they are.  The demonstration
    endpoint of the menu service changes nothing. *)
Theorem demonstration_endpoints_side_effects : demonstrations_side_effects.
Proof.
  split; [|intros st; unfold RestaurantChain.route, bind;
           pose proof (RCFacts.run_test_cases_state st) as H;
           destruct (RestaurantChain.run_test_cases st) as [[r|e] st']; cbn in *; now subst].
  intros st Hr. apply tt_reachable_orders_wf in Hr. cbn zeta.
  assert (E : snd (route GET_run_order_tests st) = after_tests st).
  { unfold route. unfold bind at 1. now rewrite TTFacts.run_order_test_cases_spec. }
  rewrite E. split; [cbn; lia|]. split; [now apply after_tests_length|].
  split; [|split].
  - exists (with_status (pending Demo.valid_order (next_order_id st)) CONFIRMED).
    split; [|reflexivity]. cbn.
    rewrite !(dict_get_set_other Z.eqb Z.eqb_eq) by lia.
    apply (dict_get_set_same Z.eqb Z.eqb_eq).
  - intros k Hk. cbn.
    assert (Hc : k = next_order_id st + 1 + 1 + 1 \/ k = next_order_id st + 1 + 1
                 \/ k = next_order_id st + 1) by lia.
    destruct Hc as [->|[->| ->]].
    + eexists. split; [apply (dict_get_set_same Z.eqb Z.eqb_eq)|reflexivity].
    + rewrite (dict_get_set_other Z.eqb Z.eqb_eq) by lia.
      eexists. split; [apply (dict_get_set_same Z.eqb Z.eqb_eq)|reflexivity].
    + rewrite !(dict_get_set_other Z.eqb Z.eqb_eq) by lia.
      eexists. split; [apply (dict_get_set_same Z.eqb Z.eqb_eq)|reflexivity].
  - intros k Hk. cbn. now rewrite !(dict_get_set_other Z.eqb Z.eqb_eq) by lia.
Qed.

Lemma demonstration_endpoints_side_effects_witness :
  tt_reachable initial
  /\ next_order_id (snd (route GET_run_order_tests initial)) = 5
  /\ List.length (orders_db (snd (route GET_run_order_tests initial))) = 4%nat.
Proof.
  assert (H : tt_reachable initial) by (exists []; cbn [serve snd]; reflexivity).
  split; [exact H|].
  destruct (proj1 demonstration_endpoints_side_effects initial H) as (Hn & Hl & _).
  split; [exact Hn|exact Hl].
Defined.

(** ** The listing of orders *)

Lemma summaries_spec (l : list Order) :
  (exists r, summaries l = Ret r /\ Forall2 summarises l r)
  \/ (exists o e, In o l /\ total_amount o = Raise e /\ summaries l = Raise e).
Proof.
  induction l as [|o l IH]; [left; exists []; split; [reflexivity|constructor]|].
  cbn [summaries]. destruct (total_amount o) as [t|e] eqn:Et; cbn [ebind].
  - destruct IH as [(r & -> & Hr)|(o' & e & Hin & Ho' & ->)]; cbn [ebind].
    + left. eexists. split; [reflexivity|]. constructor; [|exact Hr].
      unfold summarises. cbn. auto.
    + right. exists o', e. split; [now right|]. split; [exact Ho'|reflexivity].
  - right. exists o, e. split; [now left|]. split; [exact Et|reflexivity].
Qed.

Lemma order_listing_is_complete_aux (st : State) :
  (exists r, summaries (dict_values (orders_db st)) = Ret r
             /\ Forall2 summarises (dict_values (orders_db st)) r
             /\ fst (route GET_orders st) = Ret (Summaries r))
  \/ (exists o e, In o (dict_values (orders_db st)) /\ total_amount o = Raise e
                  /\ fst (route GET_orders st) = Raise e).
Proof.
  unfold route, get_all_orders, bind, gets, lift. cbn [fst snd].
  destruct (summaries_spec (dict_values (orders_db st)))
    as [(r & Hr & Hall)|(o & e & Hin & Ho & Hr)]; rewrite Hr; cbn.
  - left. now exists r.
  - right. now exists o, e.
Qed.

Lemma route_GET_orders_state (st : State) : snd (route GET_orders st) = st.
Proof.
  unfold route, get_all_orders, bind, gets, lift. cbn [fst snd].
  now destruct (summaries (dict_values (orders_db st))).
Qed.

(** The listing of orders never changes the globals.  It answers one
    summary per stored order, in the order of the store, each with the
    id, the customer's name, the status and the computed total of its
    order; or, when the total of some stored order cannot be computed,
    it answers nothing but the exception of that computation. *)
Theorem order_listing_is_complete (st : State) : listing_behaviour st.
Proof.
  split; [apply route_GET_orders_state|].
  destruct (order_listing_is_complete_aux st)
    as [(r & _ & Hall & Hr)|(o & e & Hin & Ho & Hr)].
  - left. now exists r.
  - right. now exists o, e.
Qed.

(** ** Totals that cannot be computed *)

Lemma fix_pos_raises (c e : Z) (x : PyExc) : Dec.fix_pos c e = Raise x -> x = Overflow.
Proof.
  unfold Dec.fix_pos. repeat match goal with |- context [if ?b then _ else _] => destruct b end;
    congruence.
Qed.

Lemma _fix_raises (d : Decimal) (x : PyExc) : Dec._fix d = Raise x -> x = Overflow.
Proof.
  unfold Dec._fix. destruct (coeff d =? 0); [discriminate|].
  destruct (0 <? coeff d); [apply fix_pos_raises|].
  destruct (Dec.fix_pos (- coeff d) (exp d)) as [r|e] eqn:E; cbn; [discriminate|].
  intros [= <-]. exact (fix_pos_raises _ _ _ E).
Qed.

Lemma add_raises (a b : Decimal) (x : PyExc) : Dec.add a b = Raise x -> x = Overflow.
Proof.
  unfold Dec.add.
  repeat match goal with |- context [if ?b then _ else _] => destruct b end;
    apply _fix_raises.
Qed.

Lemma sum_item_totals_raises (l : list OrderItem) (acc : Decimal) (x : PyExc) :
  sum_item_totals acc l = Raise x -> x = Overflow.
Proof.
  revert acc. induction l as [|i l IH]; intros acc; cbn [sum_item_totals]; [discriminate|].
  destruct (item_total i) as [t|e] eqn:Et; cbn [ebind].
  - destruct (Dec.add acc t) as [acc'|e] eqn:Ea; cbn [ebind]; [apply IH|].
    intros [= <-]. exact (add_raises _ _ _ Ea).
  - intros [= <-]. exact (_fix_raises _ _ Et).
Qed.

Lemma summarised_has_total (l : list Order) (r : list OrderSummaryResponse) (o : Order) :
  Forall2 summarises l r -> In o l -> exists t, total_amount o = Ret t.
Proof.
  induction 1 as [|o' s l r Hs _ IH]; intros Hin; [destruct Hin|].
  destruct Hin as [<-|Hin]; [|exact (IH Hin)].
  destruct Hs as (_ & _ & _ & Ht). eauto.
Qed.

Lemma overflowing_total (n : Z) (s : OrderStatus) :
  total_amount (with_status (pending OrderClaims.overflowing_payload n) s) = Raise Overflow.
Proof. vm_compute. reflexivity. Qed.

Lemma overflowing_total_with_delivery (n : Z) :
  total_amount_with_delivery (pending OrderClaims.overflowing_payload n) = Raise Overflow.
Proof. vm_compute. reflexivity. Qed.

(** A payload whose total cannot be computed, because the unit price
    has no bound on its digits, passes validation.  Its creation request
    is answered 500, since the response cannot be built from the order,
    but the order has been stored by then; and from then on every
    listing of the orders raises decimal.Overflow instead of answering,
    whatever requests are served in between, since no route removes an
    order. *)
Theorem overflowing_order_breaks_listing (st : State) (reqs : list Request) :
  tt_reachable st -> listing_broken_after st reqs.
Proof.
  intros Hr. apply tt_reachable_orders_wf in Hr. unfold listing_broken_after. cbn zeta.
  pose proof (OrderCreate_init_ok _ _ overflowing_payload_accepted) as Hok.
  rewrite (route_POST_orders_ok st _ Hok). cbn [fst snd].
  split.
  { destruct (answer_of_failing _ _ (overflowing_total_with_delivery (next_order_id st)))
      as (errs & ->). reflexivity. }
  split; [apply TTFacts.placed_get|].
  destruct (tt_serve_keeps_order reqs (placed OrderClaims.overflowing_payload st)
              (next_order_id st) _
              (placed_orders_wf _ _ Hok Hr) (TTFacts.placed_get _ _)) as (s & Hs).
  apply (dict_get_In Z.eqb Z.eqb_eq) in Hs.
  apply (in_map snd) in Hs. cbn [snd] in Hs.
  destruct (order_listing_is_complete_aux
              (snd (serve reqs (placed OrderClaims.overflowing_payload st))))
    as [(r & _ & Hall & Hr')|(o & e & Hin & Ho & Hr')].
  - destruct (summarised_has_total _ _ _ Hall Hs) as (t & Ht).
    rewrite overflowing_total in Ht. discriminate.
  - rewrite Hr'. f_equal. exact (sum_item_totals_raises _ _ _ Ho).
Qed.

Lemma overflowing_order_breaks_listing_witness :
  tt_reachable initial
  /\ listing_broken_after initial [GET_run_order_tests; PUT_order_status 1 DELIVERED].
Proof.
  assert (H : tt_reachable initial) by (exists []; cbn [serve snd]; reflexivity).
  split; [exact H|]. exact (overflowing_order_breaks_listing initial _ H).
Defined.

(** ** Counts *)

Lemma fold_left_add_from (l : list Z) (a : Z) :
  fold_left Z.add l a = a + fold_left Z.add l 0.
Proof.
  revert a. induction l as [|x l IH]; intros a; cbn; [lia|].
  rewrite (IH (a + x)), (IH x). lia.
Qed.

Lemma quantities_bounded (l : list OrderItem) :
  Forall line_ok l ->
  Z.of_nat (List.length l) <= fold_left Z.add (map quantity l) 0
                           <= 10 * Z.of_nat (List.length l).
Proof.
  induction 1 as [|i l Hi _ IH]; [cbn; lia|].
  cbn [map fold_left List.length]. rewrite fold_left_add_from.
  destruct Hi as (_ & _ & Hq & _). lia.
Qed.

(** Every stored order has at least one line, and its total quantity
    lies between the number of its lines and ten times that number. *)
Theorem stored_order_counts_are_bounded (st : State) (o : Order) :
  tt_reachable st -> In o (dict_values (orders_db st)) -> quantity_bounds o.
Proof.
  intros Hr Hin. apply tt_reachable_orders_wf in Hr. destruct Hr as [_ Hall].
  apply in_map_iff in Hin. destruct Hin as ([k o'] & Heq & Hin). cbn in Heq. subst o'.
  destruct (proj1 (Forall_forall _ _) Hall _ Hin) as (_ & _ & (_ & Hne & Hlines)).
  unfold quantity_bounds, total_items_count, total_quantity. cbn [snd] in *.
  pose proof (quantities_bounded _ Hlines) as Hq.
  destruct (items (as_OrderCreate o)) as [|i l]; [contradiction|].
  cbn [List.length] in *. lia.
Qed.

Lemma stored_order_counts_are_bounded_witness :
  tt_reachable (snd (serve [POST_orders valid_order_payload] initial))
  /\ In OrderClaims.first_demo_order
        (dict_values (orders_db (snd (serve [POST_orders valid_order_payload] initial))))
  /\ quantity_bounds OrderClaims.first_demo_order.
Proof.
  assert (H : tt_reachable (snd (serve [POST_orders valid_order_payload] initial)))
    by (exists [POST_orders valid_order_payload]; reflexivity).
  assert (G : In OrderClaims.first_demo_order
                 (dict_values (orders_db (snd (serve [POST_orders valid_order_payload] initial)))))
    by (vm_compute; left; reflexivity).
  split; [exact H|]. split; [exact G|].
  exact (stored_order_counts_are_bounded _ _ H G).
Defined.

End OrderRoutesFacts.

(* ================================================================= *)
(** * The order of the listings, unassigned ids, refused requests *)

Section ListingFacts.
Import Pyd Str Rules Http Further Listings.

(** ** Sorted keys *)

Lemma sorted_snoc (l : list Z) (k : Z) :
  StronglySorted Z.lt l -> Forall (fun x => x < k) l -> StronglySorted Z.lt (l ++ [k]).
Proof.
  induction 1 as [|x l Hs IH Hx]; intros Hk; cbn; [repeat constructor|].
  inversion Hk as [|? ? Hxk Hl]; subst.
  constructor; [now apply IH|].
  apply Forall_app. split; [exact Hx|now repeat constructor].
Qed.

Lemma sorted_keys_set {V} (k : Z) (v : V) (d : list (Z * V)) :
  StronglySorted Z.lt (dict_keys d) ->
  (dict_mem Z.eqb k d = false -> Forall (fun kv => fst kv < k) d) ->
  StronglySorted Z.lt (dict_keys (dict_set Z.eqb k v d)).
Proof.
  intros Hs Hb. rewrite (dict_keys_set Z.eqb Z.eqb_eq).
  destruct (dict_mem Z.eqb k d); [exact Hs|].
  apply sorted_snoc; [exact Hs|]. unfold dict_keys. apply Forall_map. now apply Hb.
Qed.

Lemma sorted_keys_del {V} (k : Z) (d : list (Z * V)) :
  StronglySorted Z.lt (dict_keys d) -> StronglySorted Z.lt (dict_keys (dict_del Z.eqb k d)).
Proof.
  induction d as [|[k0 v0] d IH]; cbn; [auto|].
  intros Hs. inversion Hs as [|? ? Hd Hk0]; subst.
  destruct (k =? k0); [exact Hd|]. cbn. constructor; [now apply IH|].
  apply Forall_forall. intros x Hx. apply (In_keys_del Z.eqb) in Hx.
  exact (proj1 (Forall_forall _ _) Hk0 x Hx).
Qed.

Lemma Forall_fst_weaken {V} (a b : Z) (d : list (Z * V)) :
  a < b -> Forall (fun kv => fst kv <= a) d -> Forall (fun kv => fst kv < b) d.
Proof. intros Hab. apply Forall_impl. intros; lia. Qed.

(** ** The menu of the menu service *)

Lemma rc_step_sorted (st st' : RestaurantChain.State) :
  RCSem.step st st' -> RCSem.inv st ->
  StronglySorted Z.lt (dict_keys (RestaurantChain.menu_db st)) ->
  StronglySorted Z.lt (dict_keys (RestaurantChain.menu_db st')).
Proof.
  intros Hs [_ Hle] Hsorted. destruct Hs as [| |m Hv Hl|k]; cbn; try assumption.
  - apply sorted_keys_set; [exact Hsorted|]. intros _.
    eapply Forall_fst_weaken; [|exact Hle]. lia.
  - now apply sorted_keys_del.
Qed.

Lemma rc_serve_sorted (reqs : list RestaurantChain.Request) (st : RestaurantChain.State) :
  RCSem.inv st -> StronglySorted Z.lt (dict_keys (RestaurantChain.menu_db st)) ->
  StronglySorted Z.lt
    (dict_keys (RestaurantChain.menu_db (snd (RestaurantChain.serve reqs st)))).
Proof.
  revert st. induction reqs as [|r rest IH]; intros st Hi Hs; [exact Hs|].
  rewrite RCFacts.serve_cons. cbn [snd].
  pose proof (RCFacts.route_step r st) as Hstep.
  apply IH; [exact (RCFacts.step_inv _ _ Hstep Hi)|exact (rc_step_sorted _ _ Hstep Hi Hs)].
Qed.

Lemma rc_reachable_inv (st : RestaurantChain.State) : rc_reachable st -> RCSem.inv st.
Proof. intros (reqs & ->). apply RCFacts.serve_inv. exact rc_initial_inv. Qed.

Lemma rc_reachable_sorted (st : RestaurantChain.State) :
  rc_reachable st -> StronglySorted Z.lt (dict_keys (RestaurantChain.menu_db st)).
Proof.
  intros (reqs & ->). apply rc_serve_sorted; [exact rc_initial_inv|].
  rewrite rc_initial_served.
  apply rc_serve_sorted; [exact RCFacts.empty_inv|constructor].
Qed.

Lemma ids_are_keys (d : list (Z * Menu.FoodItem)) :
  Forall RCSem.entry_ok d -> map Menu.id (dict_values d) = dict_keys d.
Proof.
  unfold dict_values, dict_keys. induction 1 as [|kv d Hkv _ IH]; cbn; [reflexivity|].
  destruct Hkv as (_ & _ & Hid). now rewrite Hid, IH.
Qed.

(** ** The stores of the order service *)

Lemma tt_step_sorted (st st' : RestaurantChainTwoTables.State) :
  TTSem.step st st' -> TTSem.inv st -> orders_wf st ->
  StronglySorted Z.lt (dict_keys (RestaurantChainTwoTables.menu_db st))
  /\ StronglySorted Z.lt (dict_keys (RestaurantChainTwoTables.orders_db st)) ->
  StronglySorted Z.lt (dict_keys (RestaurantChainTwoTables.menu_db st'))
  /\ StronglySorted Z.lt (dict_keys (RestaurantChainTwoTables.orders_db st')).
Proof.
  intros Hs (_ & Hlt & _) [_ Hall] [Hm Ho].
  destruct Hs as [|m Hv Hl|k|oc Hoc|k o s Hk]; cbn; try (split; assumption).
  - split; [|exact Ho]. apply sorted_keys_set; [exact Hm|]. intros _. exact Hlt.
  - split; [|exact Ho]. now apply sorted_keys_del.
  - split; [exact Hm|]. apply sorted_keys_set; [exact Ho|]. intros _.
    eapply Forall_impl; [|exact Hall]. intros kv (_ & H & _). exact H.
  - split; [exact Hm|]. apply sorted_keys_set; [exact Ho|].
    unfold dict_mem. rewrite Hk. discriminate.
Qed.

Lemma tt_steps_sorted (st st' : RestaurantChainTwoTables.State) :
  TTSem.steps st st' -> TTSem.inv st -> orders_wf st ->
  StronglySorted Z.lt (dict_keys (RestaurantChainTwoTables.menu_db st))
  /\ StronglySorted Z.lt (dict_keys (RestaurantChainTwoTables.orders_db st)) ->
  StronglySorted Z.lt (dict_keys (RestaurantChainTwoTables.menu_db st'))
  /\ StronglySorted Z.lt (dict_keys (RestaurantChainTwoTables.orders_db st')).
Proof.
  induction 1 as [|st st1 st2 H1 _ IH]; intros Hi Hw Hs; [exact Hs|].
  apply IH; [exact (TTFacts.tt_step_inv _ _ H1 Hi)|exact (tt_step_orders_wf _ _ H1 Hw)|].
  exact (tt_step_sorted _ _ H1 Hi Hw Hs).
Qed.

Lemma tt_serve_sorted (reqs : list RestaurantChainTwoTables.Request)
    (st : RestaurantChainTwoTables.State) :
  TTSem.inv st -> orders_wf st ->
  StronglySorted Z.lt (dict_keys (RestaurantChainTwoTables.menu_db st))
  /\ StronglySorted Z.lt (dict_keys (RestaurantChainTwoTables.orders_db st)) ->
  let st' := snd (RestaurantChainTwoTables.serve reqs st) in
  StronglySorted Z.lt (dict_keys (RestaurantChainTwoTables.menu_db st'))
  /\ StronglySorted Z.lt (dict_keys (RestaurantChainTwoTables.orders_db st')).
Proof.
  revert st. induction reqs as [|r rest IH]; intros st Hi Hw Hs; [exact Hs|].
  cbn zeta. rewrite TTFacts.tt_serve_cons. cbn [snd].
  pose proof (TTFacts.route_steps r st) as Hst.
  apply IH; [exact (TTFacts.steps_inv _ _ Hst Hi)|exact (tt_steps_orders_wf _ _ Hst Hw)|].
  exact (tt_steps_sorted _ _ Hst Hi Hw Hs).
Qed.

Lemma tt_reachable_inv (st : RestaurantChainTwoTables.State) : tt_reachable st -> TTSem.inv st.
Proof. intros (reqs & ->). apply TTFacts.tt_serve_inv. exact tt_initial_inv. Qed.

Lemma tt_empty_orders_wf : orders_wf RestaurantChainTwoTables.empty.
Proof. split; constructor. Qed.

Lemma tt_reachable_sorted (st : RestaurantChainTwoTables.State) :
  tt_reachable st ->
  StronglySorted Z.lt (dict_keys (RestaurantChainTwoTables.menu_db st))
  /\ StronglySorted Z.lt (dict_keys (RestaurantChainTwoTables.orders_db st)).
Proof.
  intros (reqs & ->).
  apply tt_serve_sorted;
    [exact tt_initial_inv|exact (tt_reachable_orders_wf _ tt_initial_reachable)|].
  rewrite tt_initial_served.
  apply tt_serve_sorted; [exact TTFacts.tt_empty_inv|exact tt_empty_orders_wf|].
  split; constructor.
Qed.

Lemma order_ids_are_keys (n : Z) (d : list (Z * Orders.Order)) :
  Forall (order_wf n) d -> map Orders.id (dict_values d) = dict_keys d.
Proof.
  unfold dict_values, dict_keys. induction 1 as [|kv d Hkv _ IH]; cbn; [reflexivity|].
  destruct Hkv as (Hid & _). now rewrite Hid, IH.
Qed.

Lemma summary_ids (l : list Orders.Order) (r : list Orders.OrderSummaryResponse) :
  Forall2 OrderRoutes.summarises l r -> map Orders.summary_id r = map Orders.id l.
Proof.
  induction 1 as [|o s l r Hs _ IH]; cbn; [reflexivity|].
  destruct Hs as (Hid & _). now rewrite Hid, IH.
Qed.

(** In every reachable state the menu listing of either service
    answers all stored items in strictly increasing order of their ids,
    and the listing of orders, when it answers, gives the summaries in
    strictly increasing order of their ids: new ids are appended, and
    deletions and status updates keep the order. *)
Theorem listings_are_sorted_by_id : listings_sorted.
Proof.
  split; [|split].
  - intros st Hr. split; [reflexivity|].
    rewrite (ids_are_keys _ (proj1 (rc_reachable_inv st Hr))).
    now apply rc_reachable_sorted.
  - intros st Hr. split; [reflexivity|].
    rewrite (ids_are_keys _ (proj1 (tt_reachable_inv st Hr))).
    exact (proj1 (tt_reachable_sorted st Hr)).
  - intros st l Hr Hl.
    destruct (order_listing_is_complete_aux st)
      as [(r & _ & Hall & Hr')|(o & e & _ & _ & Hr')]; rewrite Hr' in Hl; [|discriminate].
    injection Hl as <-. rewrite (summary_ids _ _ Hall).
    rewrite (order_ids_are_keys _ _ (proj2 (tt_reachable_orders_wf st Hr))).
    exact (proj2 (tt_reachable_sorted st Hr)).
Qed.

Lemma listings_are_sorted_by_id_witness :
  rc_reachable RestaurantChain.initial
  /\ StronglySorted Z.lt
       (map Menu.id (dict_values (RestaurantChain.menu_db RestaurantChain.initial))).
Proof.
  split; [exact rc_initial_reachable|].
  exact (proj2 (proj1 listings_are_sorted_by_id _ rc_initial_reachable)).
Defined.

(** ** Unassigned ids *)

Lemma bounded_keys_fresh {V} (P : Z -> Prop) (d : list (Z * V)) (k : Z) :
  Forall (fun kv => P (fst kv)) d -> ~ P k -> dict_get Z.eqb k d = None.
Proof.
  intros Hall Hk. apply (dict_get_None_keys Z.eqb Z.eqb_eq). intros Hin.
  apply in_map_iff in Hin as (kv & <- & Hin).
  exact (Hk (proj1 (Forall_forall _ _) Hall kv Hin)).
Qed.

(** In every reachable state, a lookup or a deletion of a menu id that
    the counter has not reached, and a lookup or a status update of such
    an order id, answer 404 and change nothing. *)
Theorem unassigned_ids_are_not_found : unassigned_ids_not_found.
Proof.
  split; [|split].
  - intros st k Hr Hk. destruct (rc_reachable_inv st Hr) as [_ Hle].
    assert (E : dict_get Z.eqb k (RestaurantChain.menu_db st) = None).
    { apply (bounded_keys_fresh (fun i => i <= RestaurantChain.last_item_id st));
        [exact Hle|lia]. }
    unfold RestaurantChain.route, RestaurantChain.get_menu_item,
      RestaurantChain.delete_menu_item, bind, gets, dict_mem. cbn. rewrite E. split; reflexivity.
  - intros st k Hr Hk. destruct (tt_reachable_inv st Hr) as (_ & Hlt & _).
    assert (E : dict_get Z.eqb k (RestaurantChainTwoTables.menu_db st) = None).
    { apply (bounded_keys_fresh (fun i => i < RestaurantChainTwoTables.next_menu_id st));
        [exact Hlt|lia]. }
    unfold RestaurantChainTwoTables.route, RestaurantChainTwoTables.get_menu_item,
      RestaurantChainTwoTables.delete_menu_item, bind, gets, dict_mem. cbn. rewrite E.
    split; reflexivity.
  - intros st k s Hr Hk.
    pose proof (orders_wf_fresh st k (tt_reachable_orders_wf st Hr) Hk) as E.
    split.
    + unfold RestaurantChainTwoTables.route, RestaurantChainTwoTables.get_order_details,
        bind, gets. cbn. now rewrite E.
    + unfold RestaurantChainTwoTables.route. unfold bind at 1.
      now rewrite (TTFacts.update_order_status_absent _ _ _ E).
Qed.

Lemma unassigned_ids_are_not_found_witness :
  rc_reachable RestaurantChain.initial
  /\ RestaurantChain.last_item_id RestaurantChain.initial < 40
  /\ RestaurantChain.route (RestaurantChain.GET_menu_item 40) RestaurantChain.initial
     = (Raise food_not_found, RestaurantChain.initial).
Proof.
  assert (H : RestaurantChain.last_item_id RestaurantChain.initial < 40)
    by (vm_compute; reflexivity).
  split; [exact rc_initial_reachable|]. split; [exact H|].
  exact (proj1 (proj1 unassigned_ids_are_not_found _ 40 rc_initial_reachable H)).
Defined.

(** ** Refused requests *)

(** A request of the order service that is answered with an exception
    leaves every global as it was, unless the exception is that of a
    response that could not be built from the order: the handler has
    stored its order by then.  In the menu service a request answered
    with an exception leaves the menu as it was; the id counter moves,
    by one, only when the creation helper refuses a name that became
    too short. *)
Theorem refused_requests_change_nothing : failures_are_atomic.
Proof.
  split.
  - intros st r e He Hne.
    destruct r as [|body| |item_id|item_id body|item_id|category|body| |order_id
                  |order_id new_status|].
    + discriminate He.
    + destruct (TTFacts.tt_route_POST_menu body st)
        as [(errs & H)|[(m & Hm & Hl & H)|(m & Hm & Hl & H)]]; cbn zeta in H;
        rewrite H in *; [reflexivity|reflexivity|discriminate He].
    + discriminate He.
    + revert He. unfold RestaurantChainTwoTables.route,
        RestaurantChainTwoTables.get_menu_item, bind, gets. cbn.
      destruct (dict_get Z.eqb item_id (RestaurantChainTwoTables.menu_db st)); reflexivity.
    + apply TTFacts.tt_route_PUT_state.
    + revert He. unfold RestaurantChainTwoTables.route,
        RestaurantChainTwoTables.delete_menu_item, bind, gets, modify. cbn.
      destruct (dict_mem Z.eqb item_id (RestaurantChainTwoTables.menu_db st)); cbn;
        [discriminate|reflexivity].
    + revert He. unfold RestaurantChainTwoTables.route,
        RestaurantChainTwoTables.get_items_by_category, bind, gets. cbn.
      destruct (filter _ _); reflexivity.
    + destruct (TTFacts.route_POST_orders body st) as [(errs & H)|(oc & _ & Hok & H)];
        rewrite H in *; [reflexivity|].
      destruct (answer_of_raises _ _ He) as (errs & ->). now destruct (Hne errs).
    + apply route_GET_orders_state.
    + rewrite TTFacts.route_GET_order_eq.
      destruct (dict_get Z.eqb order_id (RestaurantChainTwoTables.orders_db st)); reflexivity.
    + rewrite TTFacts.route_PUT_order_status_eq in *.
      destruct (dict_get Z.eqb order_id (RestaurantChainTwoTables.orders_db st)) as [o|];
        [|reflexivity].
      destruct (answer_of_raises _ _ He) as (errs & ->). now destruct (Hne errs).
    + revert He. unfold RestaurantChainTwoTables.route. unfold bind at 1.
      rewrite TTFacts.run_order_test_cases_spec. discriminate.
  - intros st r e He.
    destruct r as [|item_id|body|item_id body|item_id|category|].
    + discriminate He.
    + revert He. unfold RestaurantChain.route, RestaurantChain.get_menu_item, bind, gets. cbn.
      destruct (dict_get Z.eqb item_id (RestaurantChain.menu_db st)); cbn; auto.
    + destruct (RCFacts.route_POST_menu body st)
        as [(errs & H)|[(m & Hm & Hl & H)|(m & Hm & Hl & H)]]; cbn zeta in H;
        rewrite H in *; cbn in *; [auto| |discriminate He].
      injection He as <-. auto.
    + rewrite RCFacts.route_PUT_state. auto.
    + revert He. unfold RestaurantChain.route, RestaurantChain.delete_menu_item,
        bind, gets, modify. cbn.
      destruct (dict_mem Z.eqb item_id (RestaurantChain.menu_db st)); cbn;
        [discriminate|auto].
    + revert He. unfold RestaurantChain.route, RestaurantChain.get_items_by_category,
        bind, gets. cbn.
      destruct (filter _ _); cbn; auto.
    + pose proof (RCFacts.run_test_cases_state st) as H.
      unfold RestaurantChain.route, bind.
      destruct (RestaurantChain.run_test_cases st) as [[r|e'] st']; cbn in *; subst; auto.
Qed.

Lemma refused_requests_change_nothing_witness :
  fst (RestaurantChain.route (RestaurantChain.POST_menu MenuClaims.short_name_body)
         RestaurantChain.initial) = Raise RCSem.name_too_short
  /\ RestaurantChain.menu_db
       (snd (RestaurantChain.route (RestaurantChain.POST_menu MenuClaims.short_name_body)
               RestaurantChain.initial))
     = RestaurantChain.menu_db RestaurantChain.initial.
Proof.
  assert (H : fst (RestaurantChain.route
                     (RestaurantChain.POST_menu MenuClaims.short_name_body)
                     RestaurantChain.initial) = Raise RCSem.name_too_short)
    by (vm_compute; reflexivity).
  split; [exact H|].
  exact (proj1 (proj2 refused_requests_change_nothing _ _ _ H)).
Defined.

End ListingFacts.

(* ================================================================= *)
(** * Where the two services agree *)

Section AgreementFacts.
Import Pyd Str Menu Rules Http Equivalence Agreement.

Lemma route_PUT_menu_eq (i : Z) (body : PyDict) (st : RestaurantChain.State) :
  RestaurantChain.route (RestaurantChain.PUT_menu_item i body) st =
  match parse_body FoodItemCreate_init body with
  | Ret m =>
      match RestaurantChain.update_menu_item i m st with
      | (Ret x, st') => (Ret (Item x), st')
      | (Raise e, st') => (Raise e, st')
      end
  | Raise e => (Raise e, st)
  end.
Proof.
  unfold RestaurantChain.route, bind, lift, ret.
  destruct (parse_body FoodItemCreate_init body) as [m|e]; [|reflexivity].
  now destruct (RestaurantChain.update_menu_item i m st) as [[x|e] st'].
Qed.

Lemma tt_route_PUT_menu_eq (i : Z) (body : PyDict) (st : RestaurantChainTwoTables.State) :
  RestaurantChainTwoTables.route (RestaurantChainTwoTables.PUT_menu_item i body) st =
  match parse_body FoodItemCreate_init body with
  | Ret m =>
      match RestaurantChainTwoTables.update_menu_item i m st with
      | (Ret x, st') => (Ret (Item x), st')
      | (Raise e, st') => (Raise e, st')
      end
  | Raise e => (Raise e, st)
  end.
Proof.
  unfold RestaurantChainTwoTables.route, bind, lift, ret.
  destruct (parse_body FoodItemCreate_init body) as [m|e]; [|reflexivity].
  now destruct (RestaurantChainTwoTables.update_menu_item i m st) as [[x|e] st'].
Qed.

Lemma agree_step (st1 : RestaurantChain.State) (st2 : RestaurantChainTwoTables.State)
    (r : MenuRequest) :
  equally_positioned st1 st2 -> no_short_name r ->
  fst (RestaurantChain.route (to_menu_service r) st1)
  = fst (RestaurantChainTwoTables.route (to_order_service r) st2)
  /\ equally_positioned (snd (RestaurantChain.route (to_menu_service r) st1))
       (snd (RestaurantChainTwoTables.route (to_order_service r) st2)).
Proof.
  intros [Hdb Hctr] Hns.
  destruct r as [|i|body|i body|i|c]; cbn [to_menu_service to_order_service].
  - unfold RestaurantChain.route, RestaurantChainTwoTables.route,
      RestaurantChain.get_all_menu_items, RestaurantChainTwoTables.get_all_menu_items,
      bind, gets, ret. cbn. rewrite Hdb. split; [reflexivity|split; assumption].
  - unfold RestaurantChain.route, RestaurantChainTwoTables.route,
      RestaurantChain.get_menu_item, RestaurantChainTwoTables.get_menu_item, bind, gets.
    cbn. rewrite <- Hdb.
    destruct (dict_get Z.eqb i (RestaurantChain.menu_db st1)); cbn;
      (split; [reflexivity|split; assumption]).
  - rewrite RCFacts.route_POST_menu_eq, TTFacts.tt_route_POST_menu_eq.
    destruct (RCFacts.parse_FoodItemCreate body) as [(m & Hm & Hp)|(errs & Hp)]; rewrite Hp.
    + pose proof (FoodItemCreate_init_validated _ _ Hm) as Hv.
      rewrite (RCFacts.add_item_to_db_spec m st1 Hv),
        (TTFacts.add_food_item_to_db_spec m st2 Hv).
      pose proof (Hns m Hm) as Hl. apply Z.ltb_ge in Hl. rewrite Hl. cbn zeta.
      cbn [fst snd]. rewrite <- Hctr. split; [reflexivity|].
      split; cbn; [now rewrite Hdb, Hctr|lia].
    + cbn [fst snd]. split; [reflexivity|split; assumption].
  - rewrite route_PUT_menu_eq, tt_route_PUT_menu_eq.
    destruct (parse_body FoodItemCreate_init body) as [m|e];
      [|split; [reflexivity|split; assumption]].
    destruct (dict_get Z.eqb i (RestaurantChain.menu_db st1)) as [s|] eqn:E.
    + rewrite (RCFacts.update_menu_item_present _ _ _ _ E).
      rewrite Hdb in E. rewrite (TTFacts.tt_update_menu_item_present _ _ _ _ E).
      split; [reflexivity|split; [cbn; congruence|assumption]].
    + rewrite (RCFacts.update_menu_item_absent _ _ _ E).
      rewrite Hdb in E. rewrite (TTFacts.tt_update_menu_item_absent _ _ _ E).
      split; [reflexivity|split; [cbn; congruence|assumption]].
  - unfold RestaurantChain.route, RestaurantChainTwoTables.route,
      RestaurantChain.delete_menu_item, RestaurantChainTwoTables.delete_menu_item,
      bind, gets, modify. cbn. rewrite <- Hdb.
    destruct (dict_mem Z.eqb i (RestaurantChain.menu_db st1)); cbn;
      (split; [reflexivity|split; [cbn; congruence|assumption]]).
  - unfold RestaurantChain.route, RestaurantChainTwoTables.route,
      RestaurantChain.get_items_by_category, RestaurantChainTwoTables.get_items_by_category,
      bind, gets. cbn. rewrite <- Hdb.
    destruct (filter _ _); cbn; (split; [reflexivity|split; assumption]).
Qed.

(** From equal menus and equally positioned counters, the menu routes
    of the two services give the same answers to the same requests and
    end with equal menus and equally positioned counters, as long as no
    creation body yields a record whose trimmed name has fewer than
    three characters. *)
Theorem services_agree_without_short_names (st1 : RestaurantChain.State)
    (st2 : RestaurantChainTwoTables.State) (reqs : list MenuRequest) :
  equally_positioned st1 st2 -> Forall no_short_name reqs -> agree st1 st2 reqs.
Proof.
  intros Hpos Hall. revert st1 st2 Hpos.
  induction Hall as [|r rest Hr _ IH]; intros st1 st2 Hpos.
  - split; [split; [reflexivity|exact (proj1 Hpos)]|exact Hpos].
  - destruct (agree_step st1 st2 r Hpos Hr) as [Ha Hpos'].
    destruct (IH _ _ Hpos') as [[Hans Hmenu] Hfinal].
    unfold agree, same_behaviour. cbn [map].
    rewrite RCFacts.serve_cons, TTFacts.tt_serve_cons. cbn [fst snd].
    split; [split; [now rewrite Ha, Hans|exact Hmenu]|exact Hfinal].
Qed.

Lemma services_agree_without_short_names_witness :
  equally_positioned menu_service_at_7 order_service_at_7
  /\ Forall no_short_name mixed_requests
  /\ agree menu_service_at_7 order_service_at_7 mixed_requests.
Proof.
  assert (Hpos : equally_positioned menu_service_at_7 order_service_at_7)
    by (split; vm_compute; reflexivity).
  assert (Hall : Forall no_short_name mixed_requests).
  { repeat constructor; intros m Hm; vm_compute in Hm;
      first [discriminate Hm | injection Hm as <-; vm_compute; discriminate]. }
  split; [exact Hpos|]. split; [exact Hall|].
  exact (services_agree_without_short_names _ _ _ Hpos Hall).
Defined.

End AgreementFacts.

(* ================================================================= *)
(** * The price labels *)

Section PriceBandFacts.
Import Pyd Str Menu Rules PriceBands.

Lemma compare_cents_l (a : Decimal) (n : Z) :
  -2 <= exp a -> Dec.compare a (mkDecimal n (-2)) = (Dec.cents a ?= n).
Proof.
  intros H. unfold Dec.compare, Dec.rescale, Dec.cents. cbn [coeff exp].
  rewrite Z.min_r by lia. replace (-2 - -2) with 0 by lia.
  replace (exp a - -2) with (exp a + 2) by lia. now rewrite Z.mul_1_r.
Qed.

Lemma compare_cents_r (a : Decimal) (n : Z) :
  -2 <= exp a -> Dec.compare (mkDecimal n (-2)) a = (n ?= Dec.cents a).
Proof.
  intros H. unfold Dec.compare, Dec.rescale, Dec.cents. cbn [coeff exp].
  rewrite Z.min_l by lia. replace (-2 - -2) with 0 by lia.
  replace (exp a - -2) with (exp a + 2) by lia. now rewrite Z.mul_1_r.
Qed.

(** For a price written with at most two decimal places (an exponent
    of -2 or more), whatever its digits, the price label is "Budget"
    exactly below 10.00, "Mid-range" exactly from 10.00 to 25.00 and
    "Premium" exactly above 25.00: the three labels are exclusive and
    cover every such price. *)
Theorem price_label_by_hundredths (m : FoodItemCreate) :
  -2 <= exp (price m) -> price_category_by_cents m.
Proof.
  intros Hs.
  unfold price_category_by_cents, price_category, Dec.ltb, Dec.leb. cbn zeta.
  rewrite (compare_cents_l _ 1000 Hs), (compare_cents_r _ 1000 Hs),
    (compare_cents_l _ 2500 Hs).
  destruct (Z.compare_spec (Dec.cents (price m)) 1000) as [E1|E1|E1];
    destruct (Z.compare_spec 1000 (Dec.cents (price m))) as [E2|E2|E2]; try lia;
    destruct (Z.compare_spec (Dec.cents (price m)) 2500) as [E3|E3|E3]; try lia;
    cbn [andb]; repeat split; intros; try lia; try discriminate; reflexivity.
Qed.

Lemma price_label_by_hundredths_witness :
  -2 <= exp (price (as_FoodItemCreate MenuClaims.seed_pizza))
  /\ price_category_by_cents (as_FoodItemCreate MenuClaims.seed_pizza).
Proof.
  split; [cbn; lia|]. apply price_label_by_hundredths. cbn. lia.
Defined.

End PriceBandFacts.

(* ================================================================= *)
(** * What the order route refuses *)

Section OrderValidationFacts.
Import Pyd Str Orders Rules Http RestaurantChainTwoTables OrderValidation.

Lemma validate_OrderItem_dump_inv (i i' : OrderItem) :
  validate_OrderItem (OrderItem_dict i) = Valid i' -> i' = i.
Proof.
  unfold validate_OrderItem. intros H.
  apply vap_Valid in H as (g3 & up & H & Hup & ->).
  apply vap_Valid in H as (g2 & q & H & Hq & ->).
  apply vap_Valid in H as (g1 & nm & H & Hnm & ->).
  apply vap_Valid in H as (g0 & mid & [= <-] & Hmid & ->).
  apply required_Valid in Hup as (v1 & Hg1 & Hup). cbn in Hg1. injection Hg1 as <-.
  apply check_decimal_VDec in Hup as [-> _].
  apply required_Valid in Hq as (v2 & Hg2 & Hq). cbn in Hg2. injection Hg2 as <-.
  apply check_le_Valid in Hq as [Hq _]. apply check_gt_Valid in Hq as [Hq _].
  apply check_int_VInt in Hq. subst q.
  apply required_Valid in Hnm as (v3 & Hg3 & Hnm). cbn in Hg3. injection Hg3 as <-.
  apply check_str_Valid in Hnm as (Hnm & _). injection Hnm as <-.
  apply required_Valid in Hmid as (v4 & Hg4 & Hmid). cbn in Hg4. injection Hg4 as <-.
  apply check_gt_Valid in Hmid as [Hmid _]. apply check_int_VInt in Hmid.
  subst mid. now destruct i.
Qed.

Lemma validate_Customer_dump_inv (c c' : Customer) :
  validate_Customer (Customer_dict c) = Valid c' -> c' = c.
Proof.
  unfold validate_Customer. intros H.
  apply vap_Valid in H as (g2 & ad & H & Had & ->).
  apply vap_Valid in H as (g1 & ph & H & Hph & ->).
  apply vap_Valid in H as (g0 & nm & [= <-] & Hnm & ->).
  apply required_Valid in Had as (v1 & Hg1 & Had). cbn in Hg1. injection Hg1 as <-.
  apply check_str_Valid in Had as (Had & _). injection Had as <-.
  apply required_Valid in Hph as (v2 & Hg2 & Hph). cbn in Hg2. injection Hg2 as <-.
  apply check_phone_Valid in Hph as (Hph & _). injection Hph as <-.
  apply required_Valid in Hnm as (v3 & Hg3 & Hnm). cbn in Hg3. injection Hg3 as <-.
  apply check_str_Valid in Hnm as (Hnm & _). injection Hnm as <-.
  now destruct c.
Qed.

Lemma validate_items_dump_inv (l l' : list OrderItem) :
  Forall2 (fun v x => check_model validate_OrderItem v = Valid x)
          (map (fun i => VDict (OrderItem_dict i)) l) l' ->
  l' = l.
Proof.
  revert l'. induction l as [|i l IH]; intros l' H; inversion H as [|v x vs xs Hx Hxs]; subst;
    [reflexivity|].
  apply check_model_Valid in Hx as (d & [= <-] & Hx).
  apply validate_OrderItem_dump_inv in Hx. subst x. f_equal. now apply IH.
Qed.

Lemma validate_OrderCreate_dump_inv (oc oc' : OrderCreate) :
  validate_OrderCreate (OrderCreate_dict oc) = Valid oc' -> oc' = oc.
Proof.
  unfold validate_OrderCreate. intros H.
  apply vap_Valid in H as (g1 & its & H & Hits & ->).
  apply vap_Valid in H as (g0 & cu & [= <-] & Hcu & ->).
  apply required_Valid in Hcu as (v1 & Hg1 & Hcu). cbn in Hg1. injection Hg1 as <-.
  apply check_model_Valid in Hcu as (d & [= <-] & Hcu).
  apply validate_Customer_dump_inv in Hcu. subst cu.
  apply required_Valid in Hits as (v2 & Hg2 & Hits). cbn in Hg2. injection Hg2 as <-.
  apply check_list_Valid in Hits as (l & [= <-] & Hl & _).
  apply validate_items_dump_inv in Hl. subst its. now destruct oc.
Qed.

(** The creation route enforces every structural constraint: a payload
    whose customer or whose lines break one (name, phone or address of
    the customer, an empty list of lines, the id, name, quantity or unit
    price of a line) is refused as Invalid-Input and nothing is stored
    or counted, in any state. *)
Theorem broken_order_payload_is_refused (st : State) (oc : OrderCreate) :
  ~ order_ok oc -> order_refused st oc.
Proof.
  intros Hno. unfold order_refused.
  destruct (TTFacts.route_POST_orders (OrderCreate_dict oc) st)
    as [(errs & H)|(oc' & Hinit & Hok & _)]; [now exists errs|].
  exfalso. apply construct_Ret in Hinit.
  apply validate_OrderCreate_dump_inv in Hinit. subst oc'. exact (Hno Hok).
Qed.

Lemma broken_order_payload_is_refused_witness :
  ~ order_ok oversized_order /\ order_refused initial oversized_order.
Proof.
  assert (H : ~ order_ok oversized_order).
  { intros (_ & _ & Hl). inversion Hl as [|i l (_ & _ & Hq & _) _]; subst.
    cbn in Hq. lia. }
  split; [exact H|]. exact (broken_order_payload_is_refused initial _ H).
Defined.

End OrderValidationFacts.

(* ================================================================= *)
(** * Creation requests with a typed body *)

Section MenuValidationFacts.
Import Pyd Str Menu Rules Http MenuValidation.

Lemma validate_dump_calories (m m' : FoodItemCreate) :
  validate_fields (FoodItemCreate_dict m) = Valid m' ->
  forall n, calories m = Some n -> 0 < n.
Proof.
  unfold validate_fields. intros H n Hn.
  apply vap_Valid in H as (g10 & fs & H & _ & ->).
  apply vap_Valid in H as (g9 & sp & H & _ & ->).
  apply vap_Valid in H as (g8 & vg & H & _ & ->).
  apply vap_Valid in H as (g7 & cal & _ & Hcal & ->).
  apply optional_Valid in Hcal as [[Hnone _]|(v & Hv & Hc)]; [discriminate Hnone|].
  cbn in Hv. injection Hv as <-. rewrite Hn in Hc.
  apply check_optional_Valid in Hc as [[Hx _]|(_ & a & _ & Hc)]; [discriminate Hx|].
  apply check_gt_Valid in Hc as [Hc Hlt]. apply check_int_VInt in Hc.
  subst a. exact Hlt.
Qed.

Lemma validate_dump_rules (m m' : FoodItemCreate) :
  validate_fields (FoodItemCreate_dict m) = Valid m' -> satisfies_rules m.
Proof.
  intros H. pose proof (validate_dump_calories m m' H) as Hcal.
  apply validate_fields_inv in H
    as ((raw & Hraw & Hl & Hp & _) & (Hd & Hdl) & _ & (v & Hv & Hc & Hb) & (Ht & Htl)
        & (Hi & Hne) & _).
  cbn in Hraw. injection Hraw as <-.
  cbn in Hd. injection Hd as Hd. rewrite <- Hd in Hdl.
  cbn in Hv. injection Hv as <-.
  apply check_decimal_VDec in Hc as [Hpr Hs]. rewrite Hpr in Hb.
  destruct Ht as (vt & Ht & Hct). cbn in Ht. injection Ht as <-.
  apply check_int_VInt in Hct. rewrite Hct in Htl.
  cbn in Hi. injection Hi as Hi.
  unfold satisfies_rules. split; [auto|]. split; [exact Hdl|].
  split; [auto|]. split; [exact Htl|]. split; [|exact Hcal].
  intros E. apply Hne. rewrite E in Hi. cbn in Hi.
  symmetry in Hi. now apply map_eq_nil in Hi.
Qed.

Lemma validate_dump (m : FoodItemCreate) :
  satisfies_rules m -> validate_fields (FoodItemCreate_dict m) = Valid (stripped m).
Proof.
  intros ((Hl & Hp) & Hd & (Hps & Hpb) & Hpt & Hi & Hc).
  assert (Hname : required "name"
            (fun v => after (check_str 3 (Some 100) v) validate_name_characters)
            (FoodItemCreate_dict m) = Valid (strip (name m))).
  { apply required_Valid. exists (VStr (name m)). split; [reflexivity|].
    apply after_Valid. exists (name m). split.
    - apply check_str_Valid. repeat split; [lia|]. intros ? [= <-]. lia.
    - now apply validate_name_characters_Ret. }
  assert (Hdesc : required "description" (check_str 10 (Some 500))
            (FoodItemCreate_dict m) = Valid (description m)).
  { apply required_Valid. exists (VStr (description m)). split; [reflexivity|].
    apply check_str_Valid. repeat split; [lia|]. intros ? [= <-]. lia. }
  assert (Hprice : required "price"
            (fun v => after (check_decimal v) validate_price_range)
            (FoodItemCreate_dict m) = Valid (price m)).
  { apply required_Valid. exists (VDec (price m)). split; [reflexivity|].
    now apply check_price_dump. }
  assert (Hprep : required "preparation_time"
            (fun v => check_le 120 (check_ge 1 (check_int v)))
            (FoodItemCreate_dict m) = Valid (preparation_time m)).
  { apply required_Valid. exists (VInt (preparation_time m)). split; [reflexivity|].
    apply check_le_Valid. split; [|lia]. apply check_ge_Valid. split; [reflexivity|lia]. }
  assert (Hing : required "ingredients" (check_list (check_str 0 None) 1)
            (FoodItemCreate_dict m) = Valid (ingredients m)).
  { apply required_Valid. exists (VList (map VStr (ingredients m))).
    split; [reflexivity|]. now apply check_ingredients_dump. }
  assert (Hcal : optional "calories" None
            (check_optional (fun v => check_gt 0 (check_int v)))
            (FoodItemCreate_dict m) = Valid (calories m)).
  { apply optional_Valid. right.
    exists (match calories m with Some k => VInt k | None => VNone end).
    split; [reflexivity|]. now apply check_calories_dump. }
  unfold validate_fields.
  rewrite Hname, Hdesc, Hprice, Hprep, Hing, Hcal. reflexivity.
Qed.

(** A creation body that is the dump of a record breaking any field
    rule (length or characters of the name, length of the description,
    the price rules, the preparation time, an empty list of ingredients,
    calories that are not positive) is refused as Invalid-Input by both
    services, and nothing is stored or counted. *)
Theorem broken_menu_body_is_refused (m : FoodItemCreate) :
  ~ satisfies_rules m -> menu_body_refused (FoodItemCreate_dict m).
Proof.
  intros Hno. split; intros st.
  - destruct (RCFacts.route_POST_menu (FoodItemCreate_dict m) st)
      as [(errs & H)|[(m' & Hm & _)|(m' & Hm & _)]]; [now exists errs| |];
      exfalso; apply construct_Ret in Hm; exact (Hno (validate_dump_rules _ _ Hm)).
  - destruct (TTFacts.tt_route_POST_menu (FoodItemCreate_dict m) st)
      as [(errs & H)|[(m' & Hm & _)|(m' & Hm & _)]]; [now exists errs| |];
      exfalso; apply construct_Ret in Hm; exact (Hno (validate_dump_rules _ _ Hm)).
Qed.

Lemma broken_menu_body_is_refused_witness :
  ~ satisfies_rules undescribed_pizza
  /\ menu_body_refused (FoodItemCreate_dict undescribed_pizza).
Proof.
  assert (H : ~ satisfies_rules undescribed_pizza).
  { intros (_ & Hd & _). vm_compute in Hd. destruct Hd as [Hd _]. now apply Hd. }
  split; [exact H|]. exact (broken_menu_body_is_refused _ H).
Defined.

(** A creation body that is the dump of a record obeying the field
    rules is never refused as invalid input.  Both services store the
    record with its name trimmed, under their next id, when the trimmed
    name keeps three characters; otherwise the creation helper raises
    the validation error of the stored model, and the menu service, but
    not the order service, has advanced its id counter. *)
Theorem typed_menu_body_outcome (m : FoodItemCreate) :
  satisfies_rules m -> typed_creation_outcome m.
Proof.
  intros Hok st1 st2. cbn zeta.
  pose proof (validate_dump m Hok) as Hval.
  assert (Hinit : FoodItemCreate_init (FoodItemCreate_dict m) = Ret (stripped m))
    by (apply construct_Ret; exact Hval).
  pose proof (FoodItemCreate_init_validated _ _ Hinit) as Hv.
  rewrite RCFacts.route_POST_menu_eq, TTFacts.tt_route_POST_menu_eq.
  unfold parse_body. rewrite Hinit.
  rewrite (RCFacts.add_item_to_db_spec _ st1 Hv), (TTFacts.add_food_item_to_db_spec _ st2 Hv).
  change (name (stripped m)) with (strip (name m)).
  destruct (len (strip (name m)) <? 3); split; reflexivity.
Qed.

Lemma typed_menu_body_outcome_witness :
  satisfies_rules (as_FoodItemCreate MenuClaims.seed_pizza)
  /\ typed_creation_outcome (as_FoodItemCreate MenuClaims.seed_pizza).
Proof.
  assert (H : satisfies_rules (as_FoodItemCreate MenuClaims.seed_pizza)).
  { unfold satisfies_rules. split; [split; [vm_compute; split; discriminate|reflexivity]|].
    split; [vm_compute; split; discriminate|]. split; [split; reflexivity|].
    split; [vm_compute; split; discriminate|]. split; [discriminate|].
    intros n [= <-]. reflexivity. }
  split; [exact H|]. exact (typed_menu_body_outcome _ H).
Defined.

End MenuValidationFacts.
